(** * EDUCORE grading module

    A shallow embedding of the grading service of the EDUCORE school
    backend (grading.service.ts, grading.validation.ts,
    grading.controller.ts): the weighted-grade aggregation of the report
    card ([getStudentGrades]) and of the class grade book
    ([getClassSubjectScores]), the Zod schemas that guard score creation and
    update, and the controller paths that call them.

    JavaScript numbers are IEEE 754 binary64 values; they are modelled by
    Rocq's primitive floats, so every arithmetic step of the model rounds
    exactly as the program does. *)

From Stdlib Require Import ZArith List String DecimalString Bool Lia.
From Stdlib Require Import Permutation.
From Stdlib Require Import Floats Uint63.
Import ListNotations.
Open Scope string_scope.
Open Scope list_scope.
Open Scope Z_scope.
Set Warnings "-register-all".

(** ** JavaScript numbers *)

Module Js.

Definition number := float.

(** The binary64 value of an integer below 2^53 in magnitude (exact). *)
Definition ofZ (z : Z) : number :=
  match z with
  | Z0 => 0%float
  | Zpos _ => of_uint63 (Uint63.of_Z z)
  | Zneg p => (- of_uint63 (Uint63.of_Z (Zpos p)))%float
  end.

(** [x > y], [x >= y], [x < y], [x <= y] on numbers: false as soon as an
    operand is NaN. *)
Definition gt (x y : number) : bool := (y <? x)%float.
Definition ge (x y : number) : bool := (y <=? x)%float.
Definition lt (x y : number) : bool := (x <? y)%float.
Definition le (x y : number) : bool := (x <=? y)%float.

(** [Math.round]: the integer closest to [x], ties towards +infinity;
    NaN, the infinities, the zeros and integral values are returned as
    they are, and a negative [x >= -0.5] gives -0.  A finite non-zero
    [x] is [(-1)^s * m * 2^e]; for [e < 0] the result is
    [floor (x + 1/2)], computed on integers. *)
Definition Math_round (x : number) : number :=
  match Prim2SF x with
  | S754_finite s m (Zneg k) =>
      let d := Z.pow_pos 2 k in
      if s then
        let n := - ((d - 2 * Zpos m) / (2 * d)) in
        if n =? 0 then (-0)%float else (- ofZ n)%float
      else ofZ ((2 * Zpos m + d) / (2 * d))
  | _ => x
  end.


(** [Math.ceil]: the least integer not below [x]; NaN, the infinities, the
    zeros and integral values are returned as they are, and a negative
    [x > -1] gives -0. *)
Definition Math_ceil (x : number) : number :=
  match Prim2SF x with
  | S754_finite s m (Zneg k) =>
      let d := Z.pow_pos 2 k in
      if s then
        let n := Zpos m / d in
        if n =? 0 then (-0)%float else (- ofZ n)%float
      else ofZ ((Zpos m + d - 1) / d)
  | _ => x
  end.

(** [x || d] on an optional number: [undefined], the zeros and NaN are
    falsy. *)
Definition orElse (x : option number) (d : number) : number :=
  match x with
  | Some x => if (x =? 0)%float || is_nan x then d else x
  | None => d
  end.

End Js.

(** ** JavaScript objects used as maps

    The grouping objects are keyed by database ids (UUID strings, see the
    schemas below), which are neither array indices nor names inherited from
    [Object.prototype]: such an object enumerates its own keys in insertion
    order.  It is modelled by an association list in insertion order. *)

Module JsObject.
Section Obj.
Context {V : Type}.

Definition t := list (string * V).

Definition empty : t := [].

(** [o[k]]: [None] stands for [undefined]. *)
Fixpoint get (o : t) (k : string) : option V :=
  match o with
  | [] => None
  | (k', v) :: o' => if String.eqb k' k then Some v else get o' k
  end.

(** [o[k] = v]: an existing key keeps its place, a new one goes last. *)
Fixpoint set (o : t) (k : string) (v : V) : t :=
  match o with
  | [] => [(k, v)]
  | (k', v') :: o' =>
      if String.eqb k' k then (k', v) :: o' else (k', v') :: set o' k v
  end.

Definition keys (o : t) : list string := map fst o.

(** [Object.values(o)] *)
Definition values (o : t) : list V := map snd o.
End Obj.
Arguments t : clear implicits.
End JsObject.

(** ** Data model (prisma schema, migration 20251211091434_init) *)

(** A [DECIMAL(p,2)] column value, held as its number of hundredths:
    [score] and [maxScore] are [DECIMAL(5,2)], [weight] is [DECIMAL(3,2)]. *)
Definition Decimal := Z.

(** [Number(d)] on a Prisma [Decimal]: the binary64 value nearest to the
    decimal.  The hundredths are an integer below 2^53 and 100 is exact, so
    the correctly rounded quotient is that nearest value. *)
Definition Number (d : Decimal) : Js.number := (Js.ofZ d / 100)%float.

Inductive ScoreType :=
  HOMEWORK | QUIZ | MIDTERM | FINAL | PROJECT | PARTICIPATION.

Module Subject.
Record t := mk { id : string; name : string }.
End Subject.

Module Class.
Record t := mk { id : string; name : string }.
End Class.

Module Semester.
Record t := mk { id : string; name : string }.
End Semester.

Module Student.
(** A student row with the [user] names the queries select. *)
Record t := mk { id : string; firstName : string; lastName : string }.
End Student.

Module Enrollment.
Record t := mk {
  id : string;
  student : Student.t;
  classId : string;
  academicYearId : string;
  status : string
}.
End Enrollment.

Module Score.
(** A score row together with the relations the queries include
    ([subject], [classSubject.class], [classSubject.semester]). *)
Record t := mk {
  id : string;
  studentId : string;
  classSubjectId : string;
  subjectId : string;
  scoreType : ScoreType;
  score : Decimal;
  maxScore : Decimal;
  weight : Decimal;
  notes : option string;
  dateRecorded : Z;
  subject : Subject.t;
  class : Class.t;
  semester : Semester.t
}.
End Score.

(** ** Report card: [GradingService.getStudentGrades] *)

(** [Math.round(x * 100) / 100], the rounding idiom of the service. *)
Definition round2 (x : Js.number) : Js.number :=
  (Js.Math_round (x * 100) / 100)%float.

(** [(scoreNum / maxScoreNum) * 100] *)
Definition percentage (s : Score.t) : Js.number :=
  (Number (Score.score s) / Number (Score.maxScore s) * 100)%float.

(** [percentage * weightNum] *)
Definition weightedScore (s : Score.t) : Js.number :=
  (percentage s * Number (Score.weight s))%float.

Module ScoreView.
(** The per-record object pushed on [subjectGrades[subjectId].scores]. *)
Record t := mk {
  id : string;
  scoreType : ScoreType;
  score : Decimal;
  maxScore : Decimal;
  weight : Decimal;
  percentage : Js.number;
  weightedScore : Js.number;
  notes : option string;
  dateRecorded : Z
}.
End ScoreView.

Module SubjectData.
(** The accumulator object of one subject. *)
Record t := mk {
  subject : Subject.t;
  class : Class.t;
  semester : Semester.t;
  scores : list ScoreView.t;
  totalWeightedScore : Js.number;
  totalWeight : Js.number
}.
End SubjectData.

Module SubjectGrade.
(** One element of the array [getStudentGrades] returns. *)
Record t := mk {
  subject : Subject.t;
  class : Class.t;
  semester : Semester.t;
  scores : list ScoreView.t;
  finalGrade : Js.number;
  letterGrade : string;
  totalWeight : Js.number
}.
End SubjectGrade.

Definition scoreView (s : Score.t) : ScoreView.t :=
  ScoreView.mk (Score.id s) (Score.scoreType s) (Score.score s)
    (Score.maxScore s) (Score.weight s)
    (round2 (percentage s)) (round2 (weightedScore s))
    (Score.notes s) (Score.dateRecorded s).

(** The object created when a subject id is met for the first time. *)
Definition newSubjectData (s : Score.t) : SubjectData.t :=
  SubjectData.mk (Score.subject s) (Score.class s) (Score.semester s)
    [] 0%float 0%float.

(** The push and the two [+=] of one iteration, on the subject's object. *)
Definition pushScore (d : SubjectData.t) (s : Score.t) : SubjectData.t :=
  SubjectData.mk (SubjectData.subject d) (SubjectData.class d)
    (SubjectData.semester d)
    (SubjectData.scores d ++ [scoreView s])%list
    (SubjectData.totalWeightedScore d + weightedScore s)%float
    (SubjectData.totalWeight d + Number (Score.weight s))%float.

(** The body of [scores.forEach(score => ...)]. *)
Definition groupStep (subjectGrades : JsObject.t SubjectData.t) (s : Score.t)
  : JsObject.t SubjectData.t :=
  let subjectId := Score.subjectId s in
  let d :=
    match JsObject.get subjectGrades subjectId with
    | Some d => d
    | None => newSubjectData s
    end in
  JsObject.set subjectGrades subjectId (pushScore d s).

(** "Group scores by subject" *)
Definition groupBySubject (scores : list Score.t) : JsObject.t SubjectData.t :=
  fold_left groupStep scores JsObject.empty.

(** [totalWeight > 0 ? Math.round((tws / totalWeight) * 100) / 100 : 0] *)
Definition finalGradeOf (totalWeightedScore totalWeight : Js.number)
  : Js.number :=
  if Js.gt totalWeight 0%float then round2 (totalWeightedScore / totalWeight)%float
  else 0%float.

(** The [let letterGrade = 'F'; if ... else if ...] cascade. *)
Definition letterGradeOf (finalGrade : Js.number) : string :=
  if Js.ge finalGrade 90%float then "A"
  else if Js.ge finalGrade 80%float then "B"
  else if Js.ge finalGrade 70%float then "C"
  else if Js.ge finalGrade 60%float then "D"
  else "F".

(** The callback of [Object.values(subjectGrades).map(...)]. *)
Definition subjectGrade (d : SubjectData.t) : SubjectGrade.t :=
  let finalGrade :=
    finalGradeOf (SubjectData.totalWeightedScore d) (SubjectData.totalWeight d)
  in
  SubjectGrade.mk (SubjectData.subject d) (SubjectData.class d)
    (SubjectData.semester d) (SubjectData.scores d)
    finalGrade (letterGradeOf finalGrade) (SubjectData.totalWeight d).

(** "Calculate final grades": what [getStudentGrades] returns for the rows
    its query produced. *)
Definition studentGrades (scores : list Score.t) : list SubjectGrade.t :=
  map subjectGrade (JsObject.values (groupBySubject scores)).

(** ** Grade book: [GradingService.getClassSubjectScores] *)

Module ClassSubject.
(** The class-subject row with the relations the query includes; the
    [enrollments] are those of its class, before the [where] of the
    include is applied. *)
Record t := mk {
  id : string;
  class : Class.t;
  enrollments : list Enrollment.t;
  subject : Subject.t;
  semester : Semester.t
}.
End ClassSubject.

Module GradebookScore.
(** The per-record object pushed on [studentScores[studentId].scores]. *)
Record t := mk {
  id : string;
  scoreType : ScoreType;
  score : Decimal;
  maxScore : Decimal;
  weight : Decimal;
  percentage : Js.number;
  dateRecorded : Z
}.
End GradebookScore.

Module StudentData.
(** The accumulator object of one student. *)
Record t := mk {
  student : Student.t;
  scores : list GradebookScore.t;
  totalWeightedScore : Js.number;
  totalWeight : Js.number
}.
End StudentData.

Module StudentGrade.
(** One element of the [students] array of the grade book. *)
Record t := mk {
  student : Student.t;
  scores : list GradebookScore.t;
  finalGrade : Js.number;
  letterGrade : string
}.
End StudentGrade.

Module Gradebook.
Record t := mk {
  classSubject : ClassSubject.t;
  students : list StudentGrade.t
}.
End Gradebook.

(** [enrollments: { where: { status: 'ACTIVE' } }] *)
Definition isActive (e : Enrollment.t) : bool :=
  String.eqb (Enrollment.status e) "ACTIVE".

Definition activeEnrollments (cs : ClassSubject.t) : list Enrollment.t :=
  filter isActive (ClassSubject.enrollments cs).

Definition gradebookScore (s : Score.t) : GradebookScore.t :=
  GradebookScore.mk (Score.id s) (Score.scoreType s) (Score.score s)
    (Score.maxScore s) (Score.weight s)
    (round2 (percentage s)) (Score.dateRecorded s).

(** The body of [classSubject.class.enrollments.forEach(...)]. *)
Definition enrollStep (studentScores : JsObject.t StudentData.t)
  (enrollment : Enrollment.t) : JsObject.t StudentData.t :=
  let studentId := Student.id (Enrollment.student enrollment) in
  JsObject.set studentScores studentId
    (StudentData.mk (Enrollment.student enrollment) [] 0%float 0%float).

Definition pushStudentScore (d : StudentData.t) (s : Score.t)
  : StudentData.t :=
  StudentData.mk (StudentData.student d)
    (StudentData.scores d ++ [gradebookScore s])%list
    (StudentData.totalWeightedScore d + weightedScore s)%float
    (StudentData.totalWeight d + Number (Score.weight s))%float.

(** The body of [scores.forEach(...)]: a row whose student has no entry is
    skipped by [if (studentScores[score.studentId])]. *)
Definition studentStep (studentScores : JsObject.t StudentData.t)
  (s : Score.t) : JsObject.t StudentData.t :=
  match JsObject.get studentScores (Score.studentId s) with
  | Some d => JsObject.set studentScores (Score.studentId s)
                (pushStudentScore d s)
  | None => studentScores
  end.

(** "Group scores by student" *)
Definition groupByStudent (enrollments : list Enrollment.t)
  (scores : list Score.t) : JsObject.t StudentData.t :=
  fold_left studentStep scores
    (fold_left enrollStep enrollments JsObject.empty).

Definition studentGrade (d : StudentData.t) : StudentGrade.t :=
  let finalGrade :=
    finalGradeOf (StudentData.totalWeightedScore d) (StudentData.totalWeight d)
  in
  StudentGrade.mk (StudentData.student d) (StudentData.scores d)
    finalGrade (letterGradeOf finalGrade).

(** What [getClassSubjectScores] returns for the class subject (with the
    enrollments its query included) and the score rows its two queries
    produced. *)
Definition classSubjectScores (cs : ClassSubject.t) (scores : list Score.t)
  : Gradebook.t :=
  Gradebook.mk cs
    (map studentGrade
       (JsObject.values
          (groupByStudent (ClassSubject.enrollments cs) scores))).

(** ** Request bodies and the Zod schemas (grading.validation.ts) *)

(** A parsed JSON request body. *)
Inductive JsValue :=
| JUndefined
| JNull
| JBool (b : bool)
| JNum (x : Js.number)
| JStr (s : string)
| JArr (items : list JsValue)
| JObj (fields : list (string * JsValue)).

(** [o[k]] on a body object: a missing key reads as [undefined]. *)
Definition field (o : list (string * JsValue)) (k : string) : JsValue :=
  match JsObject.get o k with
  | Some v => v
  | None => JUndefined
  end.

Inductive ZodIssueCode :=
  invalid_type | invalid_string | invalid_enum_value | too_small | too_big.

(** An element of an issue path: an object key or an array index. *)
Inductive PathItem :=
| Key (k : string)
| Index (i : nat).

Coercion Key : string >-> PathItem.

Module ZodIssue.
(** [message] is the message the schema gives for the check, if any. *)
Record t := mk {
  path : list PathItem;
  code : ZodIssueCode;
  message : option string
}.
End ZodIssue.

(** The outcome of parsing a value: the issues found, or the parsed data. *)
Definition ZodResult (A : Type) : Type := list ZodIssue.t + A.

(** Issues of all the keys of an object are collected. *)
Definition zap {A B : Type} (f : ZodResult (A -> B)) (a : ZodResult A)
  : ZodResult B :=
  match f, a with
  | inr f, inr a => inr (f a)
  | inl i, inl j => inl (i ++ j)%list
  | inl i, inr _ => inl i
  | inr _, inl j => inl j
  end.

(** The string formats Zod checks with regular expressions of its own. *)
Class ZodFormats := {
  isUuid : string -> bool;
  isDatetime : string -> bool
}.

Module Zod.
Section Parsers.
Context {formats : ZodFormats}.

Definition issue (path : list PathItem) (code : ZodIssueCode)
  (message : option string) : list ZodIssue.t :=
  [ZodIssue.mk path code message].

(** [z.string()] followed by one format check. *)
Definition string_format (check : string -> bool) (message : string)
  (path : list PathItem) (v : JsValue) : ZodResult string :=
  match v with
  | JStr s => if check s then inr s
              else inl (issue path invalid_string (Some message))
  | _ => inl (issue path invalid_type None)
  end.

(** [z.string()] *)
Definition str (path : list PathItem) (v : JsValue) : ZodResult string :=
  match v with
  | JStr s => inr s
  | _ => inl (issue path invalid_type None)
  end.

(** [.optional()] *)
Definition optional {A : Type}
  (inner : list PathItem -> JsValue -> ZodResult A)
  (path : list PathItem) (v : JsValue) : ZodResult (option A) :=
  match v with
  | JUndefined => inr None
  | _ => match inner path v with
         | inr a => inr (Some a)
         | inl i => inl i
         end
  end.

(** [z.enum(['HOMEWORK', ...])] *)
Definition scoreTypeEnum (path : list PathItem) (v : JsValue)
  : ZodResult ScoreType :=
  match v with
  | JStr s =>
      if String.eqb s "HOMEWORK" then inr HOMEWORK
      else if String.eqb s "QUIZ" then inr QUIZ
      else if String.eqb s "MIDTERM" then inr MIDTERM
      else if String.eqb s "FINAL" then inr FINAL
      else if String.eqb s "PROJECT" then inr PROJECT
      else if String.eqb s "PARTICIPATION" then inr PARTICIPATION
      else inl (issue path invalid_enum_value None)
  | _ => inl (issue path invalid_type None)
  end.

(** A check of [z.number()]: the issue it raises on [x], if any. *)
Definition NumberCheck := Js.number -> option (ZodIssueCode * option string).

(** [.min(v, message)]: too small when [x < v]. *)
Definition min (v : Js.number) (message : option string) : NumberCheck :=
  fun x => if Js.lt x v then Some (too_small, message) else None.

(** [.positive(message)]: too small when [x <= 0]. *)
Definition positive (message : option string) : NumberCheck :=
  fun x => if Js.le x 0%float then Some (too_small, message) else None.

(** [.max(v, message)]: too big when [x > v]. *)
Definition max (v : Js.number) (message : option string) : NumberCheck :=
  fun x => if Js.gt x v then Some (too_big, message) else None.

Definition runChecks (checks : list NumberCheck) (path : list PathItem)
  (x : Js.number) : list ZodIssue.t :=
  flat_map (fun c => match c x with
                     | Some (code, message) => issue path code message
                     | None => []
                     end) checks.

(** [z.number()] with its checks: the value must be a number other
    than NaN; every check is then run.  (Zod 3; Zod 4 also refuses the
    infinities, on which no statement below depends.) *)
Definition number (checks : list NumberCheck) (path : list PathItem)
  (v : JsValue) : ZodResult Js.number :=
  match v with
  | JNum x =>
      if is_nan x then inl (issue path invalid_type None)
      else match runChecks checks path x with
           | [] => inr x
           | i => inl i
           end
  | _ => inl (issue path invalid_type None)
  end.

(** [z.array(element)]: the elements are parsed in order, each under
    its index. *)
Fixpoint arrayItems {A : Type}
  (element : list PathItem -> JsValue -> ZodResult A)
  (path : list PathItem) (index : nat) (items : list JsValue)
  : ZodResult (list A) :=
  match items with
  | [] => inr []
  | v :: rest =>
      zap (zap (inr cons)
             (element (path ++ [Index index])%list v))
        (arrayItems element path (S index) rest)
  end.

Definition array {A : Type}
  (element : list PathItem -> JsValue -> ZodResult A)
  (path : list PathItem) (v : JsValue) : ZodResult (list A) :=
  match v with
  | JArr items => arrayItems element path 0%nat items
  | _ => inl (issue path invalid_type None)
  end.
End Parsers.
End Zod.

Module CreateScoreInput.
Record t := mk {
  studentId : string;
  classSubjectId : string;
  subjectId : string;
  scoreType : ScoreType;
  score : Js.number;
  maxScore : Js.number;
  weight : Js.number;
  notes : option string;
  dateRecorded : option string
}.
End CreateScoreInput.

Module UpdateScoreInput.
Record t := mk {
  score : option Js.number;
  maxScore : option Js.number;
  weight : option Js.number;
  notes : option string
}.
End UpdateScoreInput.

Module BulkScore.
Record t := mk {
  studentId : string;
  score : Js.number;
  notes : option string
}.
End BulkScore.

Module BulkCreateScoresInput.
Record t := mk {
  classSubjectId : string;
  subjectId : string;
  scoreType : ScoreType;
  maxScore : Js.number;
  weight : Js.number;
  scores : list BulkScore.t;
  dateRecorded : option string
}.
End BulkCreateScoresInput.

Section Schemas.
Context {formats : ZodFormats}.

(** [z.number().min(0, 'Score cannot be negative')] *)
Definition scoreSchema :=
  Zod.number [Zod.min 0%float (Some "Score cannot be negative")].

(** [z.number().positive('Max score must be positive')] *)
Definition maxScoreSchema :=
  Zod.number [Zod.positive (Some "Max score must be positive")].

(** [z.number().min(0).max(1, 'Weight must be between 0 and 1')] *)
Definition weightSchema :=
  Zod.number [Zod.min 0%float None;
              Zod.max 1%float (Some "Weight must be between 0 and 1")].

Definition createScoreSchema (body : JsValue)
  : ZodResult CreateScoreInput.t :=
  match body with
  | JObj o =>
      zap (zap (zap (zap (zap (zap (zap (zap (zap (inr CreateScoreInput.mk)
        (Zod.string_format isUuid "Invalid student ID"
           [Key "studentId"] (field o "studentId")))
        (Zod.string_format isUuid "Invalid class subject ID"
           [Key "classSubjectId"] (field o "classSubjectId")))
        (Zod.string_format isUuid "Invalid subject ID"
           [Key "subjectId"] (field o "subjectId")))
        (Zod.scoreTypeEnum [Key "scoreType"] (field o "scoreType")))
        (scoreSchema [Key "score"] (field o "score")))
        (maxScoreSchema [Key "maxScore"] (field o "maxScore")))
        (weightSchema [Key "weight"] (field o "weight")))
        (Zod.optional Zod.str [Key "notes"] (field o "notes")))
        (Zod.optional (Zod.string_format isDatetime "Invalid date format")
           [Key "dateRecorded"] (field o "dateRecorded"))
  | _ => inl (Zod.issue [] invalid_type None)
  end.

Definition updateScoreSchema (body : JsValue)
  : ZodResult UpdateScoreInput.t :=
  match body with
  | JObj o =>
      zap (zap (zap (zap (inr UpdateScoreInput.mk)
        (Zod.optional scoreSchema [Key "score"] (field o "score")))
        (Zod.optional maxScoreSchema [Key "maxScore"] (field o "maxScore")))
        (Zod.optional weightSchema [Key "weight"] (field o "weight")))
        (Zod.optional Zod.str [Key "notes"] (field o "notes"))
  | _ => inl (Zod.issue [] invalid_type None)
  end.

(** The element schema of [scores] in the bulk schema. *)
Definition bulkScoreSchema (path : list PathItem) (v : JsValue)
  : ZodResult BulkScore.t :=
  match v with
  | JObj o =>
      zap (zap (zap (inr BulkScore.mk)
        (Zod.string_format isUuid "Invalid student ID"
           (path ++ [Key "studentId"])%list (field o "studentId")))
        (scoreSchema (path ++ [Key "score"])%list (field o "score")))
        (Zod.optional Zod.str (path ++ [Key "notes"])%list (field o "notes"))
  | _ => inl (Zod.issue path invalid_type None)
  end.

Definition bulkCreateScoresSchema (body : JsValue)
  : ZodResult BulkCreateScoresInput.t :=
  match body with
  | JObj o =>
      zap (zap (zap (zap (zap (zap (zap (inr BulkCreateScoresInput.mk)
        (Zod.string_format isUuid "Invalid class subject ID"
           [Key "classSubjectId"] (field o "classSubjectId")))
        (Zod.string_format isUuid "Invalid subject ID"
           [Key "subjectId"] (field o "subjectId")))
        (Zod.scoreTypeEnum [Key "scoreType"] (field o "scoreType")))
        (maxScoreSchema [Key "maxScore"] (field o "maxScore")))
        (weightSchema [Key "weight"] (field o "weight")))
        (Zod.array bulkScoreSchema [Key "scores"] (field o "scores")))
        (Zod.optional (Zod.string_format isDatetime "Invalid date format")
           [Key "dateRecorded"] (field o "dateRecorded"))
  | _ => inl (Zod.issue [] invalid_type None)
  end.
End Schemas.

(** ** The store and the effects of the service

    The Prisma client, the database behind it and the clock are outside the
    repository: the service is written against their interface.  A [World]
    is a state of the store; queries read it, writes return the next state
    or the error they throw. *)

Module JsError.
(** A thrown error: its [name], its [message], and for a [ZodError] its
    issues ([error.errors]). *)
Record t := mk {
  name : string;
  message : string;
  errors : list ZodIssue.t
}.
End JsError.

(** [new Error(message)] *)
Definition Error (message : string) : JsError.t :=
  JsError.mk "Error" message [].

(** The error [schema.parse] throws (its message, the issues as text, is not
    read by the controllers). *)
Definition ZodError (issues : list ZodIssue.t) : JsError.t :=
  JsError.mk "ZodError" "" issues.

Module ScoreQuery.
Inductive OrderBy := StudentLastNameAsc | ScoreTypeAsc.

(** The [where] and [orderBy] of the two [score.findMany] calls. *)
Record t := mk {
  studentId : option string;
  classSubjectId : option string;
  semesterId : option string;
  orderBy : list OrderBy
}.
End ScoreQuery.

Module ScoreCreate.
(** The [data] of [score.create]. *)
Record t := mk {
  studentId : string;
  classSubjectId : string;
  subjectId : string;
  scoreType : ScoreType;
  score : Js.number;
  maxScore : Js.number;
  weight : Js.number;
  notes : option string;
  dateRecorded : Z
}.
End ScoreCreate.

Module AuditLog.
Record t := mk {
  userId : string;
  action : string;
  entityType : string;
  entityId : option string;
  details : option JsValue
}.
End AuditLog.

Class PrismaClient (World : Type) := {
  student_findUnique : World -> string -> option Student.t;
  student_findMany : World -> list string -> list Student.t;
  classSubject_findUnique : World -> string -> option ClassSubject.t;
  subject_findUnique : World -> string -> option Subject.t;
  score_findUnique : World -> string -> option Score.t;
  score_findMany : World -> ScoreQuery.t -> list Score.t;
  score_create : World -> ScoreCreate.t -> World * (JsError.t + Score.t);
  score_update :
    World -> string -> UpdateScoreInput.t -> World * (JsError.t + Score.t);
  auditLog_create : World -> AuditLog.t -> World * (JsError.t + unit);
  Date_now : World -> Z;
  Date_parse : string -> Z
}.

(** [prisma.score.delete], which only [deleteScore] calls. *)
Class PrismaScoreDelete (World : Type) := {
  score_delete : World -> string -> World * (JsError.t + Score.t)
}.

Module ListScoresQuery.
Record t := mk {
  studentId : option string;
  classSubjectId : option string;
  subjectId : option string;
  scoreType : option ScoreType;
  page : option Js.number;
  limit : option Js.number
}.
End ListScoresQuery.

Module ScoreWhere.
(** The [where] of [listScores]: a key is there when its filter is truthy. *)
Record t := mk {
  studentId : option string;
  classSubjectId : option string;
  subjectId : option string;
  scoreType : option ScoreType
}.
End ScoreWhere.

Module Pagination.
Record t := mk {
  page : Js.number;
  limit : Js.number;
  total : Js.number;
  totalPages : Js.number
}.
End Pagination.

Module ScorePage.
Record t := mk { scores : list Score.t; pagination : Pagination.t }.
End ScorePage.

(** The two calls of [listScores]: [score.findMany] with [skip] and [take],
    ordered by [dateRecorded] descending, which throws on a [skip] or a
    [take] it does not accept, and [score.count]. *)
Class PrismaScoreList (World : Type) := {
  score_findManyPage :
    World -> ScoreWhere.t -> Js.number -> Js.number ->
    JsError.t + list Score.t;
  score_count : World -> ScoreWhere.t -> nat
}.

(** Computations on the store that may throw. *)
Definition M (World A : Type) : Type := World -> World * (JsError.t + A).

Definition ret {World A : Type} (a : A) : M World A :=
  fun w => (w, inr a).

Definition bind {World A B : Type} (m : M World A) (k : A -> M World B)
  : M World B :=
  fun w => match m w with
           | (w', inr a) => k a w'
           | (w', inl e) => (w', inl e)
           end.

Definition throw {World A : Type} (e : JsError.t) : M World A :=
  fun w => (w, inl e).

(** A query: it reads the store and leaves it as it is. *)
Definition read {World A : Type} (q : World -> A) : M World A :=
  fun w => (w, inr (q w)).

(** [const x = await query; if (!x) throw new Error(message)] *)
Definition found {World A : Type} (q : World -> option A) (message : string)
  : M World A :=
  fun w => match q w with
           | Some a => (w, inr a)
           | None => (w, inl (Error message))
           end.

(** [prisma.$transaction]: the writes of a callback that throws are rolled
    back. *)
Definition transaction {World A : Type} (m : M World A) : M World A :=
  fun w => match m w with
           | (w', inr a) => (w', inr a)
           | (_, inl e) => (w, inl e)
           end.

Fixpoint mapM {World A B : Type} (f : A -> M World B) (l : list A)
  : M World (list B) :=
  match l with
  | [] => ret []
  | a :: l' => bind (f a) (fun b => bind (mapM f l') (fun bs => ret (b :: bs)))
  end.

Notation "x <- c ;; k" := (bind c (fun x => k))
  (at level 61, c at next level, right associativity).

(** A string used as a condition: [undefined] and [''] are falsy. *)
Definition truthy (s : option string) : bool :=
  match s with
  | Some s => negb (String.eqb s "")
  | None => false
  end.

Definition scoreTypeName (t : ScoreType) : string :=
  match t with
  | HOMEWORK => "HOMEWORK"
  | QUIZ => "QUIZ"
  | MIDTERM => "MIDTERM"
  | FINAL => "FINAL"
  | PROJECT => "PROJECT"
  | PARTICIPATION => "PARTICIPATION"
  end.

(** [JSON.parse(JSON.stringify(x))] on an optional number or string: a
    missing key stays missing, a number that is not finite becomes [null]. *)
Definition jsonNumber (k : string) (x : option Js.number)
  : list (string * JsValue) :=
  match x with
  | Some x => [(k, if is_finite x then JNum x else JNull)]
  | None => []
  end.

Definition jsonString (k : string) (s : option string)
  : list (string * JsValue) :=
  match s with
  | Some s => [(k, JStr s)]
  | None => []
  end.

(** The class subject as the grade-book query returns it: the enrollments of
    its class restricted by [where: { status: 'ACTIVE' }]. *)
Definition withActiveEnrollments (cs : ClassSubject.t) : ClassSubject.t :=
  ClassSubject.mk (ClassSubject.id cs) (ClassSubject.class cs)
    (activeEnrollments cs) (ClassSubject.subject cs) (ClassSubject.semester cs).

Module DeleteResult.
(** [{ message: 'Score deleted successfully' }] *)
Record t := mk { message : string }.
End DeleteResult.

Module GradingService.
Section Service.
Context {World : Type} {prisma : PrismaClient World}.

(** [input.dateRecorded ? new Date(input.dateRecorded) : new Date()] *)
Definition dateOf (dateRecorded : option string) : M World Z :=
  if truthy dateRecorded
  then ret (match dateRecorded with
            | Some s => Date_parse s
            | None => 0
            end)
  else read Date_now.

Definition createScore (input : CreateScoreInput.t) (createdById : string)
  : M World Score.t :=
  _ <- found (fun w => student_findUnique w
                         (CreateScoreInput.studentId input))
         "Student not found" ;;
  _ <- found (fun w => classSubject_findUnique w
                         (CreateScoreInput.classSubjectId input))
         "Class subject not found" ;;
  _ <- found (fun w => subject_findUnique w
                         (CreateScoreInput.subjectId input))
         "Subject not found" ;;
  date <- dateOf (CreateScoreInput.dateRecorded input) ;;
  score <- (fun w => score_create w
              (ScoreCreate.mk (CreateScoreInput.studentId input)
                 (CreateScoreInput.classSubjectId input)
                 (CreateScoreInput.subjectId input)
                 (CreateScoreInput.scoreType input)
                 (CreateScoreInput.score input)
                 (CreateScoreInput.maxScore input)
                 (CreateScoreInput.weight input)
                 (CreateScoreInput.notes input) date)) ;;
  _ <- (fun w => auditLog_create w
          (AuditLog.mk createdById "CREATE" "Score" (Some (Score.id score))
             (Some (JObj
                [("studentId", JStr (CreateScoreInput.studentId input));
                 ("subjectId", JStr (CreateScoreInput.subjectId input));
                 ("scoreType",
                   JStr (scoreTypeName (CreateScoreInput.scoreType input)));
                 ("score", JNum (CreateScoreInput.score input))])))) ;;
  ret score.

Definition bulkCreateScores (input : BulkCreateScoresInput.t)
  (createdById : string) : M World (list Score.t) :=
  _ <- found (fun w => classSubject_findUnique w
                         (BulkCreateScoresInput.classSubjectId input))
         "Class subject not found" ;;
  _ <- found (fun w => subject_findUnique w
                         (BulkCreateScoresInput.subjectId input))
         "Subject not found" ;;
  let studentIds :=
    map BulkScore.studentId (BulkCreateScoresInput.scores input) in
  students <- read (fun w => student_findMany w studentIds) ;;
  if negb (Nat.eqb (List.length students) (List.length studentIds))
  then throw (Error "One or more students not found")
  else
    transaction
      (createdScores <-
         mapM (fun scoreData =>
                 date <- dateOf (BulkCreateScoresInput.dateRecorded input) ;;
                 (fun w => score_create w
                    (ScoreCreate.mk (BulkScore.studentId scoreData)
                       (BulkCreateScoresInput.classSubjectId input)
                       (BulkCreateScoresInput.subjectId input)
                       (BulkCreateScoresInput.scoreType input)
                       (BulkScore.score scoreData)
                       (BulkCreateScoresInput.maxScore input)
                       (BulkCreateScoresInput.weight input)
                       (BulkScore.notes scoreData) date)))
           (BulkCreateScoresInput.scores input) ;;
       _ <- (fun w => auditLog_create w
               (AuditLog.mk createdById "CREATE" "Score" None
                  (Some (JObj
                     [("bulkCreate", JBool true);
                      ("classSubjectId",
                        JStr (BulkCreateScoresInput.classSubjectId input));
                      ("scoreType",
                        JStr (scoreTypeName
                                (BulkCreateScoresInput.scoreType input)));
                      ("count",
                        JNum (Js.ofZ (Z.of_nat
                          (List.length (BulkCreateScoresInput.scores input)))))
                     ])))) ;;
       ret createdScores).

Definition updateScore (scoreId : string) (input : UpdateScoreInput.t)
  (updatedById : string) : M World Score.t :=
  _ <- found (fun w => score_findUnique w scoreId) "Score not found" ;;
  score <- (fun w => score_update w scoreId input) ;;
  _ <- (fun w => auditLog_create w
          (AuditLog.mk updatedById "UPDATE" "Score" (Some scoreId)
             (Some (JObj
                [("updates",
                   JObj (jsonNumber "score" (UpdateScoreInput.score input)
                         ++ jsonNumber "maxScore"
                              (UpdateScoreInput.maxScore input)
                         ++ jsonNumber "weight"
                              (UpdateScoreInput.weight input)
                         ++ jsonString "notes"
                              (UpdateScoreInput.notes input)))])))) ;;
  ret score.

Definition getStudentGrades (studentId : string)
  (semesterId : option string) : M World (list SubjectGrade.t) :=
  _ <- found (fun w => student_findUnique w studentId)
         "Student not found" ;;
  scores <- read (fun w => score_findMany w
              (ScoreQuery.mk (Some studentId) None
                 (if truthy semesterId then semesterId else None) [])) ;;
  ret (studentGrades scores).

Definition getClassSubjectScores (classSubjectId : string)
  : M World Gradebook.t :=
  classSubject <- found (fun w =>
                           option_map withActiveEnrollments
                             (classSubject_findUnique w classSubjectId))
                    "Class subject not found" ;;
  scores <- read (fun w => score_findMany w
              (ScoreQuery.mk None (Some classSubjectId) None
                 [ScoreQuery.StudentLastNameAsc;
                  ScoreQuery.ScoreTypeAsc])) ;;
  ret (classSubjectScores classSubject scores).

Definition getScoreById (scoreId : string) : M World Score.t :=
  found (fun w => score_findUnique w scoreId) "Score not found".

Context {prismaDelete : PrismaScoreDelete World}.

Definition deleteScore (scoreId : string) (deletedById : string)
  : M World DeleteResult.t :=
  _ <- found (fun w => score_findUnique w scoreId) "Score not found" ;;
  _ <- (fun w => score_delete w scoreId) ;;
  _ <- (fun w => auditLog_create w
          (AuditLog.mk deletedById "DELETE" "Score" (Some scoreId) None)) ;;
  ret (DeleteResult.mk "Score deleted successfully").

Context {prismaList : PrismaScoreList World}.

(** [if (query.key) where.key = query.key] *)
Definition given (filter : option string) : option string :=
  if truthy filter then filter else None.

Definition listScores (query : ListScoresQuery.t) : M World ScorePage.t :=
  let page := Js.orElse (ListScoresQuery.page query) 1%float in
  let limit := Js.orElse (ListScoresQuery.limit query) 50%float in
  let skip := ((page - 1) * limit)%float in
  let where' :=
    ScoreWhere.mk (given (ListScoresQuery.studentId query))
      (given (ListScoresQuery.classSubjectId query))
      (given (ListScoresQuery.subjectId query))
      (ListScoresQuery.scoreType query) in
  scores <- (fun w => (w, score_findManyPage w where' skip limit)) ;;
  total <- read (fun w => Js.ofZ (Z.of_nat (score_count w where'))) ;;
  ret (ScorePage.mk scores
         (Pagination.mk page limit total
            (Js.Math_ceil (total / limit)%float))).
End Service.
End GradingService.

(** ** The controllers (grading.controller.ts) *)

Module AuthUser.
Record t := mk { userId : string; email : string; role : string }.
End AuthUser.

Module Request.
(** [req.user], [req.params.id] and [req.body]. *)
Record t := mk {
  user : option AuthUser.t;
  id : string;
  body : JsValue
}.
End Request.

Module HttpRequest.
(** A request as the router receives it: the [Authorization] header, the
    parameter of the path (a path of the grading router has at most one),
    the query string (each key given once), the parsed body, and [user],
    which [authenticate] attaches. *)
Record t := mk {
  authorization : option string;
  user : option AuthUser.t;
  param : string;
  query : list (string * string);
  body : JsValue
}.
End HttpRequest.

(** The two response helpers, by the arguments they are called with (the
    status of [successResponse] is optional). *)
Inductive Response (A : Type) :=
| successResponse (data : A) (message : string) (status : option Z)
| errorResponse (code message : string) (status : Z)
    (details : option (list ZodIssue.t)).
Arguments successResponse {A}.
Arguments errorResponse {A}.

Module GradingController.
Section Controller.
Context {World : Type} {prisma : PrismaClient World}
  {formats : ZodFormats}.

(** [schema.parse(req.body)] *)
Definition parse {A : Type} (schema : JsValue -> ZodResult A)
  (body : JsValue) : M World A :=
  match schema body with
  | inr data => ret data
  | inl issues => throw (ZodError issues)
  end.

(** [try { ... successResponse(...) } catch (error) { ... }] *)
Definition respond {A B : Type} (m : M World A)
  (ok : A -> Response B) (errorCode : string)
  : World -> World * Response B :=
  fun w => match m w with
           | (w', inr a) => (w', ok a)
           | (w', inl error) =>
               if String.eqb (JsError.name error) "ZodError"
               then (w', errorResponse "VALIDATION_ERROR" "Invalid input"
                           422 (Some (JsError.errors error)))
               else (w', errorResponse errorCode (JsError.message error)
                           400 None)
           end.

(** [if (!req.user) { errorResponse(res, 'AUTH_ERROR', ...); return; }] *)
Definition authenticated {B : Type} (req : Request.t)
  (k : AuthUser.t -> World -> World * Response B)
  : World -> World * Response B :=
  fun w => match Request.user req with
           | None => (w, errorResponse "AUTH_ERROR"
                           "User not authenticated" 401 None)
           | Some user => k user w
           end.

Definition createScore (req : Request.t)
  : World -> World * Response Score.t :=
  authenticated req (fun user =>
    respond
      (validatedData <- parse createScoreSchema (Request.body req) ;;
       GradingService.createScore validatedData (AuthUser.userId user))
      (fun score => successResponse score "Score created successfully"
                      (Some 201))
      "CREATE_SCORE_ERROR").

Definition bulkCreateScores (req : Request.t)
  : World -> World * Response (list Score.t * nat) :=
  authenticated req (fun user =>
    respond
      (validatedData <- parse bulkCreateScoresSchema (Request.body req) ;;
       GradingService.bulkCreateScores validatedData
         (AuthUser.userId user))
      (fun scores =>
         successResponse (scores, List.length scores)
           (NilEmpty.string_of_uint (Nat.to_uint (List.length scores))
            ++ " scores created successfully")%string
           (Some 201))
      "BULK_CREATE_SCORES_ERROR").

Definition updateScore (req : Request.t)
  : World -> World * Response Score.t :=
  authenticated req (fun user =>
    respond
      (validatedData <- parse updateScoreSchema (Request.body req) ;;
       GradingService.updateScore (Request.id req) validatedData
         (AuthUser.userId user))
      (fun score => successResponse score "Score updated successfully"
                      None)
      "UPDATE_SCORE_ERROR").

(** [try { ... successResponse(...) } catch (error) { errorResponse(res,
    code, error.message, status) }] *)
Definition respondWith {A B : Type} (m : M World A)
  (ok : A -> Response B) (errorCode : string) (status : Z)
  : World -> World * Response B :=
  fun w => match m w with
           | (w', inr a) => (w', ok a)
           | (w', inl error) =>
               (w', errorResponse errorCode (JsError.message error)
                      status None)
           end.

Definition getScoreById (req : Request.t)
  : World -> World * Response Score.t :=
  respondWith (GradingService.getScoreById (Request.id req))
    (fun score => successResponse score "Score retrieved successfully" None)
    "GET_SCORE_ERROR" 404.

Definition getStudentGrades (req : HttpRequest.t)
  : World -> World * Response (list SubjectGrade.t) :=
  let studentId := HttpRequest.param req in
  let semesterId := JsObject.get (HttpRequest.query req) "semesterId" in
  respondWith (GradingService.getStudentGrades studentId semesterId)
    (fun grades =>
       successResponse grades "Student grades retrieved successfully" None)
    "GET_STUDENT_GRADES_ERROR" 400.

Definition getClassSubjectScores (req : HttpRequest.t)
  : World -> World * Response Gradebook.t :=
  let classSubjectId := HttpRequest.param req in
  respondWith (GradingService.getClassSubjectScores classSubjectId)
    (fun result =>
       successResponse result "Class subject scores retrieved successfully"
         None)
    "GET_CLASS_SUBJECT_SCORES_ERROR" 400.

Context {prismaDelete : PrismaScoreDelete World}.

Definition deleteScore (req : Request.t)
  : World -> World * Response DeleteResult.t :=
  authenticated req (fun user =>
    respondWith
      (GradingService.deleteScore (Request.id req) (AuthUser.userId user))
      (fun result => successResponse result "Score deleted successfully"
                       None)
      "DELETE_SCORE_ERROR" 400).
End Controller.
End GradingController.

(** ** The middleware and the router (auth.middleware.ts,
    role.middleware.ts, grading.routes.ts) *)

(** [verifyAccessToken] of utils/jwt.util: the payload of the token, or
    [None] when the verification throws. *)
Class JwtUtil := {
  verifyAccessToken : string -> option AuthUser.t
}.

(** [s.split(c)] for a separator of one character. *)
Fixpoint split (c : Ascii.ascii) (s : string) : list string :=
  match s with
  | EmptyString => [""]
  | String a s' =>
      if Ascii.eqb a c then "" :: split c s'
      else match split c s' with
           | part :: parts => String a part :: parts
           | [] => [String a ""]
           end
  end.

Section Middleware.
Context {World : Type} {jwt : JwtUtil}.

(** [authenticate]: a header that is missing, empty or without the prefix
    is refused; the token is the second part of the header cut at the
    spaces; [req.user] is set from its payload and the chain goes on.  What
    [verifyAccessToken] throws is caught. *)
Definition authenticate {A : Type} (req : HttpRequest.t)
  (next : HttpRequest.t -> World -> World * Response A)
  : World -> World * Response A :=
  fun w =>
    match HttpRequest.authorization req with
    | Some authHeader =>
        if String.prefix "Bearer " authHeader then
          match option_map verifyAccessToken
                  (nth_error (split Ascii.Space authHeader) 1) with
          | Some (Some payload) =>
              next (HttpRequest.mk (HttpRequest.authorization req)
                      (Some (AuthUser.mk (AuthUser.userId payload)
                               (AuthUser.email payload)
                               (AuthUser.role payload)))
                      (HttpRequest.param req) (HttpRequest.query req)
                      (HttpRequest.body req)) w
          | _ => (w, errorResponse "AUTH_ERROR" "Invalid or expired token"
                       401 None)
          end
        else (w, errorResponse "AUTH_ERROR" "No token provided" 401 None)
    | None => (w, errorResponse "AUTH_ERROR" "No token provided" 401 None)
    end.

(** [authorize(...allowedRoles)] *)
Definition authorize {A : Type} (allowedRoles : list string)
  (req : HttpRequest.t)
  (next : HttpRequest.t -> World -> World * Response A)
  : World -> World * Response A :=
  fun w =>
    match HttpRequest.user req with
    | None => (w, errorResponse "AUTH_ERROR" "User not authenticated"
                    401 None)
    | Some user =>
        if existsb (String.eqb (AuthUser.role user)) allowedRoles
        then next req w
        else (w, errorResponse "FORBIDDEN"
                   "You do not have permission to access this resource"
                   403 None)
    end.
End Middleware.

Module GradingRoutes.
Section Routes.
Context {World : Type} {prisma : PrismaClient World}
  {prismaDelete : PrismaScoreDelete World} {formats : ZodFormats}
  {jwt : JwtUtil}.

(** What the controllers of the score routes read of a request. *)
Definition request (req : HttpRequest.t) : Request.t :=
  Request.mk (HttpRequest.user req) (HttpRequest.param req)
    (HttpRequest.body req).

(** A route: [router.use(authenticate)], then the [authorize(...)] of the
    route, then its handler.  The routes follow, but for GET /scores, whose
    controller reads numbers off the query string. *)
Definition route {A : Type} (allowedRoles : list string)
  (handler : HttpRequest.t -> World -> World * Response A)
  (req : HttpRequest.t) : World -> World * Response A :=
  authenticate req (fun req => authorize allowedRoles req handler).

(** GET /scores/:id *)
Definition getScore :=
  route ["ADMIN"; "TEACHER"]
    (fun req => GradingController.getScoreById (request req)).

(** POST /scores *)
Definition postScore :=
  route ["ADMIN"; "TEACHER"]
    (fun req => GradingController.createScore (request req)).

(** POST /scores/bulk *)
Definition postScoresBulk :=
  route ["ADMIN"; "TEACHER"]
    (fun req => GradingController.bulkCreateScores (request req)).

(** PUT /scores/:id *)
Definition putScore :=
  route ["ADMIN"; "TEACHER"]
    (fun req => GradingController.updateScore (request req)).

(** DELETE /scores/:id *)
Definition deleteScore :=
  route ["ADMIN"; "TEACHER"]
    (fun req => GradingController.deleteScore (request req)).

(** GET /students/:studentId/grades *)
Definition getStudentGrades :=
  route ["ADMIN"; "TEACHER"; "STUDENT"; "PARENT"]
    (fun req => GradingController.getStudentGrades req).

(** GET /class-subjects/:classSubjectId/scores *)
Definition getClassSubjectScores :=
  route ["ADMIN"; "TEACHER"]
    (fun req => GradingController.getClassSubjectScores req).
End Routes.
End GradingRoutes.

(** ** Groups, and the aggregation as the specification words it *)

(** The ids of a list, each once, in the order of their first occurrence. *)
Definition addKey (seen : list string) (k : string) : list string :=
  if existsb (String.eqb k) seen then seen else seen ++ [k].

Definition firstSeen (ks : list string) : list string :=
  fold_left addKey ks [].

(** The records of the group [k], in the order of the query. *)
Definition groupOf (key : Score.t -> string) (k : string)
  (scores : list Score.t) : list Score.t :=
  filter (fun s => String.eqb (key s) k) scores.

(** The unrounded contribution of a record:
    [(rawScore / maxScore) * 100 * weight]. *)
Definition contribution (s : Score.t) : Js.number :=
  (Number (Score.score s) / Number (Score.maxScore s) * 100
   * Number (Score.weight s))%float.

(** Sums run over the records in order, from 0. *)
Definition sumOf (f : Score.t -> Js.number) (g : list Score.t) : Js.number :=
  fold_left (fun acc s => (acc + f s)%float) g 0%float.

Definition totalWeightedScoreOf (g : list Score.t) : Js.number :=
  sumOf contribution g.

Definition totalWeightOf (g : list Score.t) : Js.number :=
  sumOf (fun s => Number (Score.weight s)) g.

(** [finalGrade = totalWeight > 0 ? round2(totalWeightedScore / totalWeight) : 0] *)
Definition aggregateFinalGrade (g : list Score.t) : Js.number :=
  if Js.gt (totalWeightOf g) 0%float
  then round2 (totalWeightedScoreOf g / totalWeightOf g)%float
  else 0%float.

(** The accumulator of a group after its records went through the loop of
    the report card; [None] for a group without records, which the loop
    never creates. *)
Definition accumulateSubject (g : list Score.t) : option SubjectData.t :=
  fold_left
    (fun acc s =>
       Some (pushScore (match acc with
                        | Some d => d
                        | None => newSubjectData s
                        end) s))
    g None.

(** The student of the last enrollment of [k], whose object is the one the
    enrollment loop leaves under that key. *)
Definition enrolledStudent (enrollments : list Enrollment.t) (k : string)
  : option Student.t :=
  fold_left
    (fun acc e =>
       if String.eqb (Student.id (Enrollment.student e)) k
       then Some (Enrollment.student e) else acc)
    enrollments None.

Definition enrolledIds (enrollments : list Enrollment.t) : list string :=
  firstSeen (map (fun e => Student.id (Enrollment.student e)) enrollments).

(** A stored row as the validation boundary and the column types leave it:
    [0 <= score], [0 < maxScore], [0 <= weight <= 1], within
    [DECIMAL(5,2)]. *)
Definition validated (s : Score.t) : Prop :=
  0 <= Score.score s <= 99999 /\
  0 < Score.maxScore s <= 99999 /\
  0 <= Score.weight s <= 100.

(** ** Definitions used by the statements and their proofs *)

(** The sign bit is clear, or the value is NaN. *)
Definition sfUnsigned (x : spec_float) : bool :=
  match x with
  | S754_zero s | S754_infinity s | S754_finite s _ _ => negb s
  | S754_nan => true
  end.

(** Zero or a positive finite value with exponent at most [E]. *)
Definition sfFiniteUpTo (E : Z) (x : spec_float) : Prop :=
  match x with
  | S754_zero s => s = false
  | S754_finite s _ e => s = false /\ e <= E
  | _ => False
  end.

(** [f] holds on [c], [c + 1], ..., [c + n - 1]. *)
Fixpoint forallFrom (n : nat) (c : Z) (f : Z -> bool) : bool :=
  match n with
  | O => true
  | S n' => f c && forallFrom n' (c + 1) f
  end.

(** The number of a positive decimal is positive and finite, with an
    exponent between -60 and -43. *)
Definition positiveNumber (c : Z) : bool :=
  match Prim2SF (Number c) with
  | S754_finite false _ e => (-60 <=? e) && (e <=? -43)
  | _ => false
  end.

(** The sign bit is clear and the value is not NaN. *)
Definition sfNonneg (x : spec_float) : bool :=
  match x with
  | S754_zero s | S754_infinity s | S754_finite s _ _ => negb s
  | S754_nan => false
  end.

(** The number of a positive weight of at most 1.00 is positive and
    finite, with an exponent between -60 and -52. *)
Definition weightNumber (c : Z) : bool :=
  match Prim2SF (Number c) with
  | S754_finite false _ e => (-60 <=? e) && (e <=? -52)
  | _ => false
  end.

(** The entry of the grade book for the student [st] and the rows [grp]. *)
Definition studentEntry (st : Student.t) (grp : list Score.t)
  : StudentGrade.t :=
  StudentGrade.mk st (map gradebookScore grp)
    (aggregateFinalGrade grp) (letterGradeOf (aggregateFinalGrade grp)).

(** The final grade and the letter grade the report card gives the subject
    [k], if it lists it. *)
Definition gradeOfSubject (scores : list Score.t) (k : string)
  : option (Js.number * string) :=
  option_map
    (fun d => (SubjectGrade.finalGrade (subjectGrade d),
               SubjectGrade.letterGrade (subjectGrade d)))
    (JsObject.get (groupBySubject scores) k).

(** The shape of a UUID: 8-4-4-4-12 hexadecimal digits. *)
Definition isHex (c : Ascii.ascii) : bool :=
  let n := Ascii.nat_of_ascii c in
  ((48 <=? n) && (n <=? 57) || (65 <=? n) && (n <=? 70)
   || (97 <=? n) && (n <=? 102))%nat.

Fixpoint uuidFrom (i : nat) (s : string) : bool :=
  match s with
  | EmptyString => Nat.eqb i 36
  | String c s' =>
      (if (Nat.eqb i 8 || Nat.eqb i 13 || Nat.eqb i 18 || Nat.eqb i 23)%bool
       then Nat.eqb (Ascii.nat_of_ascii c) 45 else isHex c)
      && uuidFrom (S i) s'
  end.

(** Formats for the examples: UUIDs by their shape, any non-empty text as
    a date. *)
Definition exampleFormats : ZodFormats :=
  {| isUuid := uuidFrom 0; isDatetime := fun s => negb (String.eqb s "") |}.

(** A request body for score creation with the three numbers given. *)
Definition scoreBody (studentId classSubjectId subjectId : string)
  (score maxScore weight : Js.number) : JsValue :=
  JObj [("studentId", JStr studentId);
        ("classSubjectId", JStr classSubjectId);
        ("subjectId", JStr subjectId);
        ("scoreType", JStr "QUIZ");
        ("score", JNum score);
        ("maxScore", JNum maxScore);
        ("weight", JNum weight)].

(** [r] is a failed parse whose issues include [i]. *)
Definition rejects {A : Type} (r : ZodResult A) (i : ZodIssue.t) : Prop :=
  exists issues, r = inl issues /\ In i issues.

(** The body object [o] carries a number the schemas refuse, and [i] is the
    issue raised for it: a non-positive [maxScore], a negative [score], or a
    [weight] below 0 or above 1. *)
Definition invalidScoreField (o : list (string * JsValue)) (i : ZodIssue.t)
  : Prop :=
  (exists x, field o "maxScore" = JNum x /\ Js.le x 0%float = true /\
             i = ZodIssue.mk [Key "maxScore"] too_small
                   (Some "Max score must be positive")) \/
  (exists x, field o "score" = JNum x /\ Js.lt x 0%float = true /\
             i = ZodIssue.mk [Key "score"] too_small
                   (Some "Score cannot be negative")) \/
  (exists x, field o "weight" = JNum x /\ Js.lt x 0%float = true /\
             i = ZodIssue.mk [Key "weight"] too_small None) \/
  (exists x, field o "weight" = JNum x /\ Js.gt x 1%float = true /\
             i = ZodIssue.mk [Key "weight"] too_big
                   (Some "Weight must be between 0 and 1")).

(** The same for a bulk body: [maxScore] and [weight] are its own keys, the
    scores are those of the elements of [scores]. *)
Definition invalidBulkField (o : list (string * JsValue)) (i : ZodIssue.t)
  : Prop :=
  (exists x, field o "maxScore" = JNum x /\ Js.le x 0%float = true /\
             i = ZodIssue.mk [Key "maxScore"] too_small
                   (Some "Max score must be positive")) \/
  (exists x, field o "weight" = JNum x /\ Js.lt x 0%float = true /\
             i = ZodIssue.mk [Key "weight"] too_small None) \/
  (exists x, field o "weight" = JNum x /\ Js.gt x 1%float = true /\
             i = ZodIssue.mk [Key "weight"] too_big
                   (Some "Weight must be between 0 and 1")) \/
  (exists items n element x,
     field o "scores" = JArr items /\
     nth_error items n = Some (JObj element) /\
     field element "score" = JNum x /\ Js.lt x 0%float = true /\
     i = ZodIssue.mk [Key "scores"; Index n; Key "score"] too_small
           (Some "Score cannot be negative")).

(** *** A store in memory, for the examples

    The state is the list of the score rows; one student, one class subject
    and one subject exist.  A created row receives the numbers rounded to
    hundredths, as the [DECIMAL] columns hold them. *)

(** The hundredths nearest to a number (0 for what is not finite). *)
Definition hundredths (x : Js.number) : Decimal :=
  match Prim2SF x with
  | S754_finite s m e =>
      let v := match e with
               | Zneg k => (200 * Zpos m + Z.pow_pos 2 k)
                           / (2 * Z.pow_pos 2 k)
               | _ => 100 * Zpos m * 2 ^ e
               end in
      if s then - v else v
  | _ => 0
  end.

Definition theStudent : Student.t :=
  Student.mk "5f0c1a9e-7b1d-4c3a-9e2f-0a1b2c3d4e5f" "Ada" "Lee".

Definition theSubject : Subject.t :=
  Subject.mk "a1b2c3d4-e5f6-4789-8abc-def012345678" "Mathematics".

Definition theClassSubject : ClassSubject.t :=
  ClassSubject.mk "0d9c8b7a-6f5e-4d3c-8b2a-19f8e7d6c5b4"
    (Class.mk "class-1" "1A")
    [Enrollment.mk "enrollment-1" theStudent "class-1" "year-2024" "ACTIVE"]
    theSubject (Semester.mk "semester-1" "S1").

Definition matches (expected : option string) (actual : string) : bool :=
  match expected with
  | Some e => String.eqb e actual
  | None => true
  end.

Definition lookup {A : Type} (a : A) (id key : string) : option A :=
  if String.eqb id key then Some a else None.

Definition memoryStore : PrismaClient (list Score.t) :=
  {| student_findUnique := fun _ k => lookup theStudent (Student.id theStudent) k;
     student_findMany := fun _ ks =>
       if existsb (String.eqb (Student.id theStudent)) ks
       then [theStudent] else [];
     classSubject_findUnique := fun _ k =>
       lookup theClassSubject (ClassSubject.id theClassSubject) k;
     subject_findUnique := fun _ k => lookup theSubject (Subject.id theSubject) k;
     score_findUnique := fun w k =>
       find (fun r => String.eqb (Score.id r) k) w;
     score_findMany := fun w q =>
       filter (fun r =>
                 matches (ScoreQuery.studentId q) (Score.studentId r)
                 && matches (ScoreQuery.classSubjectId q)
                      (Score.classSubjectId r)
                 && matches (ScoreQuery.semesterId q)
                      (Semester.id (Score.semester r))) w;
     score_create := fun w d =>
       let row :=
         Score.mk
           ("score-" ++ NilEmpty.string_of_uint (Nat.to_uint (List.length w)))
           (ScoreCreate.studentId d) (ScoreCreate.classSubjectId d)
           (ScoreCreate.subjectId d) (ScoreCreate.scoreType d)
           (hundredths (ScoreCreate.score d))
           (hundredths (ScoreCreate.maxScore d))
           (hundredths (ScoreCreate.weight d))
           (ScoreCreate.notes d) (ScoreCreate.dateRecorded d)
           theSubject (ClassSubject.class theClassSubject)
           (ClassSubject.semester theClassSubject) in
       (w ++ [row], inr row);
     score_update := fun w k d =>
       match find (fun r => String.eqb (Score.id r) k) w with
       | None => (w, inl (Error "Record to update not found."))
       | Some r =>
           let pick := fun (o : option Js.number) (old : Decimal) =>
             match o with Some x => hundredths x | None => old end in
           let row :=
             Score.mk (Score.id r) (Score.studentId r)
               (Score.classSubjectId r) (Score.subjectId r)
               (Score.scoreType r)
               (pick (UpdateScoreInput.score d) (Score.score r))
               (pick (UpdateScoreInput.maxScore d) (Score.maxScore r))
               (pick (UpdateScoreInput.weight d) (Score.weight r))
               (match UpdateScoreInput.notes d with
                | Some n => Some n
                | None => Score.notes r
                end)
               (Score.dateRecorded r) (Score.subject r) (Score.class r)
               (Score.semester r) in
           (map (fun r' => if String.eqb (Score.id r') k then row else r') w,
            inr row)
       end;
     auditLog_create := fun w _ => (w, inr tt);
     Date_now := fun _ => 0;
     Date_parse := fun _ => 0 |}.

(** *** Bands and stored rows, for the statements on the letters *)

(** The bands of the specification on a final grade and its letter; the
    last band takes what is below 60 and what is not a number. *)
Definition banded (finalGrade : Js.number) (letterGrade : string) : Prop :=
  (letterGrade = "A" <-> Js.ge finalGrade 90%float = true) /\
  (letterGrade = "B" <->
     Js.ge finalGrade 80%float = true /\ Js.lt finalGrade 90%float = true) /\
  (letterGrade = "C" <->
     Js.ge finalGrade 70%float = true /\ Js.lt finalGrade 80%float = true) /\
  (letterGrade = "D" <->
     Js.ge finalGrade 60%float = true /\ Js.lt finalGrade 70%float = true) /\
  (letterGrade = "F" <->
     Js.lt finalGrade 60%float = true \/ is_nan finalGrade = true).

(** A row of the student, the class subject and the subject of the store in
    memory, with its three numbers in hundredths. *)
Definition storedRow (id : string) (score maxScore weight : Decimal)
  : Score.t :=
  Score.mk id (Student.id theStudent) (ClassSubject.id theClassSubject)
    (Subject.id theSubject) QUIZ score maxScore weight None 0 theSubject
    (ClassSubject.class theClassSubject)
    (ClassSubject.semester theClassSubject).

(** *** Definitions used by the further properties *)

(** The rows whose student has an enrollment among [es]. *)
Definition ofEnrolled (es : list Enrollment.t) (scores : list Score.t)
  : list Score.t :=
  filter (fun s =>
            existsb (String.eqb (Score.studentId s))
              (map (fun e => Student.id (Enrollment.student e)) es))
    scores.

(** The letters from worst to best. *)
Definition letterRank (letter : string) : nat :=
  if String.eqb letter "A" then 4
  else if String.eqb letter "B" then 3
  else if String.eqb letter "C" then 2
  else if String.eqb letter "D" then 1
  else 0.

(** A row with the weight of [s] and a score of 0 out of 0.01. *)
Definition weightOnly (s : Score.t) : Score.t :=
  Score.mk (Score.id s) (Score.studentId s) (Score.classSubjectId s)
    (Score.subjectId s) (Score.scoreType s) 0 1 (Score.weight s)
    (Score.notes s) (Score.dateRecorded s) (Score.subject s) (Score.class s)
    (Score.semester s).

(** The value of an optional string key after a successful parse. *)
Definition optionalString (s : option string) : JsValue :=
  match s with
  | Some s => JStr s
  | None => JUndefined
  end.

(** [v] is a number that passed [scoreSchema], [maxScoreSchema],
    [weightSchema]. *)
Definition validScore (v : JsValue) (x : Js.number) : Prop :=
  v = JNum x /\ Js.ge x 0%float = true.

Definition validMaxScore (v : JsValue) (x : Js.number) : Prop :=
  v = JNum x /\ Js.gt x 0%float = true.

Definition validWeight (v : JsValue) (x : Js.number) : Prop :=
  v = JNum x /\ Js.ge x 0%float = true /\ Js.le x 1%float = true.

(** An optional key: absent, or present and valid. *)
Definition optionally {A : Type} (valid : JsValue -> A -> Prop)
  (v : JsValue) (a : option A) : Prop :=
  match a with
  | Some a => valid v a
  | None => v = JUndefined
  end.

(** An element of [scores] that passed the element schema. *)
Definition validBulkScore {formats : ZodFormats} (v : JsValue)
  (data : BulkScore.t) : Prop :=
  exists element,
    v = JObj element /\
    (field element "studentId" = JStr (BulkScore.studentId data) /\
     isUuid (BulkScore.studentId data) = true) /\
    validScore (field element "score") (BulkScore.score data) /\
    field element "notes" = optionalString (BulkScore.notes data).

(** [v] is not a number: it is missing, [null], a string, a boolean, an
    array, an object, or NaN. *)
Definition notANumber (v : JsValue) : Prop :=
  forall x, v = JNum x -> is_nan x = true.

(** The request carries a header that [authenticate] reads the token [token]
    from. *)
Definition bearer (req : HttpRequest.t) (token : string) : Prop :=
  exists authHeader,
    HttpRequest.authorization req = Some authHeader /\
    String.prefix "Bearer " authHeader = true /\
    nth_error (split Ascii.Space authHeader) 1 = Some token.

(** The request carries a token that verifies as [user]. *)
Definition verified {jwt : JwtUtil} (req : HttpRequest.t) (user : AuthUser.t)
  : Prop :=
  exists token, bearer req token /\ verifyAccessToken token = Some user.

(** The request carries no token, or one that does not verify; [message]
    is the message of the refusal. *)
Definition unverified {jwt : JwtUtil} (req : HttpRequest.t) (message : string)
  : Prop :=
  match HttpRequest.authorization req with
  | None => message = "No token provided"
  | Some authHeader =>
      if String.prefix "Bearer " authHeader
      then message = "Invalid or expired token" /\
           forall token,
             nth_error (split Ascii.Space authHeader) 1 = Some token ->
             verifyAccessToken token = None
      else message = "No token provided"
  end.

Definition isStaff (user : AuthUser.t) : Prop :=
  AuthUser.role user = "ADMIN" \/ AuthUser.role user = "TEACHER".

(** The request with the user that [authenticate] attaches. *)
Definition withUser (req : HttpRequest.t) (user : AuthUser.t)
  : HttpRequest.t :=
  HttpRequest.mk (HttpRequest.authorization req) (Some user)
    (HttpRequest.param req) (HttpRequest.query req) (HttpRequest.body req).

(** No character of [s] is a space. *)
Fixpoint noSpace (s : string) : bool :=
  match s with
  | EmptyString => true
  | String a s' => negb (Ascii.eqb a Ascii.Space) && noSpace s'
  end.

Definition memoryDelete : PrismaScoreDelete (list Score.t) :=
  {| score_delete := fun w k =>
       match find (fun r => String.eqb (Score.id r) k) w with
       | Some r =>
           (filter (fun r' => negb (String.eqb (Score.id r') k)) w, inr r)
       | None => (w, inl (Error "Record to delete does not exist."))
       end |}.

(** The store in memory when the audit log refuses every entry. *)
Definition memoryStoreWithoutAudit : PrismaClient (list Score.t) :=
  {| student_findUnique := student_findUnique (PrismaClient := memoryStore);
     student_findMany := student_findMany (PrismaClient := memoryStore);
     classSubject_findUnique :=
       classSubject_findUnique (PrismaClient := memoryStore);
     subject_findUnique := subject_findUnique (PrismaClient := memoryStore);
     score_findUnique := score_findUnique (PrismaClient := memoryStore);
     score_findMany := score_findMany (PrismaClient := memoryStore);
     score_create := score_create (PrismaClient := memoryStore);
     score_update := score_update (PrismaClient := memoryStore);
     auditLog_create := fun w _ => (w, inl (Error "audit log unavailable"));
     Date_now := Date_now (PrismaClient := memoryStore);
     Date_parse := Date_parse (PrismaClient := memoryStore) |}.

Definition exampleJwt : JwtUtil :=
  {| verifyAccessToken := fun token =>
       if String.eqb token "teacher-token"
       then Some (AuthUser.mk "user-1" "t@school.la" "TEACHER")
       else if String.eqb token "student-token"
       then Some (AuthUser.mk "user-2" "s@school.la" "STUDENT")
       else None |}.

(** The [data] of the [score.create] of [createScore] in the state [w]. *)
Definition createData {World : Type} {prisma : PrismaClient World}
  (input : CreateScoreInput.t) (w : World) : ScoreCreate.t :=
  ScoreCreate.mk (CreateScoreInput.studentId input)
    (CreateScoreInput.classSubjectId input)
    (CreateScoreInput.subjectId input)
    (CreateScoreInput.scoreType input)
    (CreateScoreInput.score input)
    (CreateScoreInput.maxScore input)
    (CreateScoreInput.weight input)
    (CreateScoreInput.notes input)
    (match CreateScoreInput.dateRecorded input with
     | Some s => if String.eqb s "" then Date_now w else Date_parse s
     | None => Date_now w
     end).

(** The natural number a number holds, if it holds one. *)
Definition toNat (x : Js.number) : option nat :=
  match Prim2SF x with
  | S754_zero _ => Some 0%nat
  | S754_finite false m (Zneg k) =>
      if Zpos m mod Z.pow_pos 2 k =? 0
      then Some (Z.to_nat (Zpos m / Z.pow_pos 2 k))
      else None
  | S754_finite false m e => Some (Z.to_nat (Zpos m * 2 ^ e))
  | _ => None
  end.

(** The rows from the latest [dateRecorded] to the earliest. *)
Fixpoint insertByDate (r : Score.t) (rows : list Score.t) : list Score.t :=
  match rows with
  | [] => [r]
  | r' :: rows' =>
      if Score.dateRecorded r' <? Score.dateRecorded r
      then r :: rows
      else r' :: insertByDate r rows'
  end.

Definition latestFirst (rows : list Score.t) : list Score.t :=
  fold_right insertByDate [] rows.

Definition scoreTypeEqb (a b : ScoreType) : bool :=
  String.eqb (scoreTypeName a) (scoreTypeName b).

Definition selects (where' : ScoreWhere.t) (r : Score.t) : bool :=
  matches (ScoreWhere.studentId where') (Score.studentId r)
  && matches (ScoreWhere.classSubjectId where') (Score.classSubjectId r)
  && matches (ScoreWhere.subjectId where') (Score.subjectId r)
  && match ScoreWhere.scoreType where' with
     | Some t => scoreTypeEqb t (Score.scoreType r)
     | None => true
     end.

(** The paged reads of the store in memory; it accepts natural numbers as
    [skip] and [take]. *)
Definition memoryList : PrismaScoreList (list Score.t) :=
  {| score_findManyPage := fun w where' skip take =>
       match toNat skip, toNat take with
       | Some s, Some t =>
           inr (firstn t (skipn s (latestFirst (filter (selects where') w))))
       | _, _ => inl (Error "Invalid value for skip or take")
       end;
     score_count := fun w where' => List.length (filter (selects where') w) |}.

(** ** Facts on objects and groups *)

Section ObjectFacts.
Context {V : Type}.
Implicit Types (o : JsObject.t V) (k : string) (v : V).

Lemma get_set o k v k' :
  JsObject.get (JsObject.set o k v) k' =
  if String.eqb k k' then Some v else JsObject.get o k'.
Proof.
  induction o as [|[k0 v0] o IH]; simpl.
  - reflexivity.
  - destruct (String.eqb_spec k0 k) as [->|Hne]; simpl.
    + destruct (String.eqb k k'); reflexivity.
    + rewrite IH.
      destruct (String.eqb_spec k0 k') as [->|Hne'].
      * destruct (String.eqb_spec k k'); congruence.
      * reflexivity.
Qed.

Lemma existsb_eqb_In k (ks : list string) :
  existsb (String.eqb k) ks = true <-> In k ks.
Proof.
  rewrite existsb_exists. split.
  - intros (x & Hx & Heq). apply String.eqb_eq in Heq. now subst.
  - intros H. exists k. split; [assumption | apply String.eqb_refl].
Qed.

Lemma keys_set o k v :
  JsObject.keys (JsObject.set o k v) = addKey (JsObject.keys o) k.
Proof.
  unfold addKey.
  induction o as [|[k0 v0] o IH]; simpl.
  - reflexivity.
  - rewrite (String.eqb_sym k k0).
    destruct (String.eqb_spec k0 k) as [->|Hne]; simpl.
    + reflexivity.
    + fold (JsObject.keys o). rewrite IH.
      destruct (existsb (String.eqb k) (JsObject.keys o)); reflexivity.
Qed.

Lemma get_None_keys o k :
  JsObject.get o k = None <-> ~ In k (JsObject.keys o).
Proof.
  induction o as [|[k0 v0] o IH]; simpl.
  - tauto.
  - destruct (String.eqb_spec k0 k) as [->|Hne].
    + split; [discriminate | tauto].
    + rewrite IH. tauto.
Qed.

(** An object is its keys with the values [get] finds under them. *)
Lemma values_by_keys {A : Type} (h : V -> A) (g : string -> A) o :
  NoDup (JsObject.keys o) ->
  (forall k, In k (JsObject.keys o) ->
             option_map h (JsObject.get o k) = Some (g k)) ->
  map h (JsObject.values o) = map g (JsObject.keys o).
Proof.
  induction o as [|[k0 v0] o IH]; simpl; intros Hnd Hget.
  - reflexivity.
  - inversion Hnd as [|? ? Hnotin Hnd']; subst.
    f_equal.
    + specialize (Hget k0 (or_introl eq_refl)).
      rewrite String.eqb_refl in Hget. simpl in Hget. congruence.
    + apply IH; [assumption|].
      intros k Hk. specialize (Hget k (or_intror Hk)).
      destruct (String.eqb_spec k0 k) as [->|Hne]; [contradiction|].
      exact Hget.
Qed.
End ObjectFacts.

Lemma addKey_In seen k k' :
  In k' (addKey seen k) <-> In k' seen \/ k' = k.
Proof.
  unfold addKey.
  destruct (existsb (String.eqb k) seen) eqn:E.
  - apply existsb_eqb_In in E. split; [tauto|]. intros [H| ->]; assumption.
  - rewrite in_app_iff. simpl. intuition congruence.
Qed.

Lemma addKey_NoDup seen k : NoDup seen -> NoDup (addKey seen k).
Proof.
  intros H. unfold addKey.
  destruct (existsb (String.eqb k) seen) eqn:E; [assumption|].
  apply NoDup_app; [assumption | repeat constructor; simpl; tauto |].
  intros x Hx [<-|[]].
  apply existsb_eqb_In in Hx. congruence.
Qed.

Lemma firstSeen_snoc ks k : firstSeen (ks ++ [k]) = addKey (firstSeen ks) k.
Proof. unfold firstSeen. now rewrite fold_left_app. Qed.

Lemma firstSeen_In ks k : In k (firstSeen ks) <-> In k ks.
Proof.
  induction ks as [|k0 ks IH] using rev_ind.
  - reflexivity.
  - rewrite firstSeen_snoc, addKey_In, in_app_iff, IH. simpl. intuition.
Qed.

Lemma firstSeen_NoDup ks : NoDup (firstSeen ks).
Proof.
  induction ks as [|k0 ks IH] using rev_ind.
  - constructor.
  - rewrite firstSeen_snoc. now apply addKey_NoDup.
Qed.

Lemma groupOf_snoc key k scores s :
  groupOf key k (scores ++ [s]) =
  groupOf key k scores ++ (if String.eqb (key s) k then [s] else []).
Proof.
  unfold groupOf. rewrite filter_app. simpl.
  destruct (String.eqb (key s) k); reflexivity.
Qed.

Lemma groupOf_nil_iff key k scores :
  groupOf key k scores = [] <-> ~ In k (map key scores).
Proof.
  unfold groupOf. induction scores as [|s scores IH]; simpl.
  - tauto.
  - destruct (String.eqb_spec (key s) k) as [->|Hne].
    + split; [discriminate | tauto].
    + rewrite IH. tauto.
Qed.

(** ** The grouping loops, group by group *)

Lemma sumOf_snoc f g s : sumOf f (g ++ [s]) = (sumOf f g + f s)%float.
Proof. unfold sumOf. now rewrite fold_left_app. Qed.

Lemma accumulateSubject_snoc g s :
  accumulateSubject (g ++ [s]) =
  Some (pushScore (match accumulateSubject g with
                   | Some d => d
                   | None => newSubjectData s
                   end) s).
Proof. unfold accumulateSubject. now rewrite fold_left_app. Qed.

(** The accumulator of a group holds the views of its records in order and
    the two running sums; its relations are those of the first record. *)
Lemma accumulateSubject_eq g :
  accumulateSubject g =
  match g with
  | [] => None
  | s0 :: _ =>
      Some (SubjectData.mk (Score.subject s0) (Score.class s0)
              (Score.semester s0) (map scoreView g)
              (totalWeightedScoreOf g) (totalWeightOf g))
  end.
Proof.
  induction g as [|s g IH] using rev_ind.
  - reflexivity.
  - rewrite accumulateSubject_snoc, IH.
    unfold totalWeightedScoreOf, totalWeightOf.
    destruct g as [|s0 g]; simpl app.
    + reflexivity.
    + unfold pushScore; simpl.
      rewrite map_app.
      change (s0 :: g ++ [s]) with ((s0 :: g) ++ [s]).
      rewrite !sumOf_snoc. reflexivity.
Qed.

Lemma groupBySubject_snoc scores s :
  groupBySubject (scores ++ [s]) = groupStep (groupBySubject scores) s.
Proof. unfold groupBySubject. now rewrite fold_left_app. Qed.

Lemma groupBySubject_keys scores :
  JsObject.keys (groupBySubject scores) =
  firstSeen (map Score.subjectId scores).
Proof.
  induction scores as [|s scores IH] using rev_ind.
  - reflexivity.
  - rewrite groupBySubject_snoc, map_app.
    change (map Score.subjectId [s]) with [Score.subjectId s].
    rewrite firstSeen_snoc.
    unfold groupStep. now rewrite keys_set, IH.
Qed.

Lemma groupBySubject_get scores k :
  JsObject.get (groupBySubject scores) k =
  accumulateSubject (groupOf Score.subjectId k scores).
Proof.
  induction scores as [|s scores IH] using rev_ind.
  - reflexivity.
  - rewrite groupBySubject_snoc, groupOf_snoc.
    unfold groupStep. rewrite get_set.
    destruct (String.eqb_spec (Score.subjectId s) k) as [<-|Hne].
    + now rewrite accumulateSubject_snoc, IH.
    + now rewrite app_nil_r.
Qed.

(** A field of the report card, read off the groups. *)
Lemma studentGrades_field {A : Type} (h : SubjectGrade.t -> A)
  (g : list Score.t -> A) :
  (forall s0 grp,
     h (subjectGrade
          (SubjectData.mk (Score.subject s0) (Score.class s0)
             (Score.semester s0) (map scoreView (s0 :: grp))
             (totalWeightedScoreOf (s0 :: grp)) (totalWeightOf (s0 :: grp))))
     = g (s0 :: grp)) ->
  forall scores,
    map h (studentGrades scores) =
    map (fun k => g (groupOf Score.subjectId k scores))
      (firstSeen (map Score.subjectId scores)).
Proof.
  intros Hh scores. unfold studentGrades.
  rewrite map_map, <- groupBySubject_keys.
  apply values_by_keys.
  - rewrite groupBySubject_keys. apply firstSeen_NoDup.
  - intros k Hk. rewrite groupBySubject_get, accumulateSubject_eq.
    rewrite groupBySubject_keys, firstSeen_In in Hk.
    destruct (groupOf Score.subjectId k scores) as [|s0 grp] eqn:E.
    + apply groupOf_nil_iff in E. contradiction.
    + cbn [option_map]. now rewrite Hh.
Qed.

Lemma fold_pushStudentScore grp st views tws tw :
  fold_left pushStudentScore grp (StudentData.mk st views tws tw) =
  StudentData.mk st (views ++ map gradebookScore grp)
    (fold_left (fun acc s => (acc + contribution s)%float) grp tws)
    (fold_left (fun acc s => (acc + Number (Score.weight s))%float) grp tw).
Proof.
  revert views tws tw.
  induction grp as [|s grp IH]; intros views tws tw; simpl.
  - now rewrite app_nil_r.
  - unfold pushStudentScore at 2; simpl.
    rewrite IH, <- app_assoc. reflexivity.
Qed.

Lemma enrollments_keys es :
  JsObject.keys (fold_left enrollStep es JsObject.empty) = enrolledIds es.
Proof.
  unfold enrolledIds.
  induction es as [|e es IH] using rev_ind.
  - reflexivity.
  - rewrite fold_left_app, map_app. cbn [map fold_left].
    rewrite firstSeen_snoc.
    unfold enrollStep at 1. now rewrite keys_set, IH.
Qed.

Lemma enrollments_get es k :
  JsObject.get (fold_left enrollStep es JsObject.empty) k =
  option_map (fun st => StudentData.mk st [] 0%float 0%float)
    (enrolledStudent es k).
Proof.
  unfold enrolledStudent.
  induction es as [|e es IH] using rev_ind.
  - reflexivity.
  - rewrite !fold_left_app. cbn [fold_left].
    unfold enrollStep at 1. rewrite get_set.
    destruct (String.eqb (Student.id (Enrollment.student e)) k);
      [reflexivity | exact IH].
Qed.

Lemma studentStep_keys o s :
  JsObject.keys (studentStep o s) = JsObject.keys o.
Proof.
  unfold studentStep.
  destruct (JsObject.get o (Score.studentId s)) as [d|] eqn:E;
    [|reflexivity].
  rewrite keys_set. unfold addKey.
  destruct (existsb (String.eqb (Score.studentId s)) (JsObject.keys o)) eqn:X;
    [reflexivity|].
  assert (H : ~ In (Score.studentId s) (JsObject.keys o)).
  { intros H. apply existsb_eqb_In in H. congruence. }
  apply get_None_keys in H. congruence.
Qed.

Lemma groupByStudent_keys es scores :
  JsObject.keys (groupByStudent es scores) = enrolledIds es.
Proof.
  unfold groupByStudent.
  induction scores as [|s scores IH] using rev_ind.
  - apply enrollments_keys.
  - rewrite fold_left_app. cbn [fold_left]. now rewrite studentStep_keys.
Qed.

Lemma groupByStudent_get es scores k :
  JsObject.get (groupByStudent es scores) k =
  option_map
    (fun st =>
       fold_left pushStudentScore (groupOf Score.studentId k scores)
         (StudentData.mk st [] 0%float 0%float))
    (enrolledStudent es k).
Proof.
  unfold groupByStudent.
  induction scores as [|s scores IH] using rev_ind.
  - cbn [fold_left groupOf filter]. rewrite enrollments_get.
    now destruct (enrolledStudent es k).
  - rewrite fold_left_app, groupOf_snoc. cbn [fold_left].
    unfold studentStep at 1.
    destruct (JsObject.get _ (Score.studentId s)) as [d|] eqn:E.
    + rewrite get_set.
      destruct (String.eqb_spec (Score.studentId s) k) as [<-|Hne].
      * rewrite IH in E.
        destruct (enrolledStudent es (Score.studentId s)); simpl in *;
          [|discriminate].
        injection E as <-. now rewrite fold_left_app.
      * now rewrite app_nil_r.
    + destruct (String.eqb_spec (Score.studentId s) k) as [<-|Hne].
      * rewrite E. rewrite IH in E.
        now destruct (enrolledStudent es (Score.studentId s)).
      * now rewrite app_nil_r.
Qed.

Lemma enrolledStudent_Some es k :
  In k (enrolledIds es) -> exists st, enrolledStudent es k = Some st.
Proof.
  intros H. rewrite <- enrollments_keys in H.
  destruct (enrolledStudent es k) as [st|] eqn:E; [now exists st|].
  exfalso. revert H. apply get_None_keys.
  now rewrite enrollments_get, E.
Qed.

(** A field of the grade book that does not read the student, read off the
    groups. *)
Lemma classSubjectScores_field {A : Type} (h : StudentGrade.t -> A)
  (g : list Score.t -> A) :
  (forall st grp,
     h (studentGrade
          (StudentData.mk st (map gradebookScore grp)
             (totalWeightedScoreOf grp) (totalWeightOf grp)))
     = g grp) ->
  forall cs scores,
    map h (Gradebook.students (classSubjectScores cs scores)) =
    map (fun k => g (groupOf Score.studentId k scores))
      (enrolledIds (ClassSubject.enrollments cs)).
Proof.
  intros Hh cs scores. unfold classSubjectScores. simpl.
  rewrite map_map, <- (groupByStudent_keys _ scores).
  apply values_by_keys.
  - rewrite groupByStudent_keys. apply firstSeen_NoDup.
  - intros k Hk. rewrite groupByStudent_keys in Hk.
    rewrite groupByStudent_get.
    destruct (enrolledStudent_Some _ _ Hk) as [st ->].
    cbn [option_map]. rewrite fold_pushStudentScore.
    cbn [app]. now rewrite <- (Hh st).
Qed.

(** ** Binary64 facts

    The primitive operations are specified by the standard library on
    [spec_float], the sign/mantissa/exponent view of a binary64 value. *)

Lemma digits2_pos_bounds p :
  2 ^ (Zpos (digits2_pos p) - 1) <= Zpos p < 2 ^ Zpos (digits2_pos p).
Proof.
  induction p as [p IH|p IH|]; cbn [digits2_pos].
  - rewrite Pos2Z.inj_succ. change (Zpos p~1) with (2 * Zpos p + 1).
    replace (Z.succ (Zpos (digits2_pos p)) - 1)
      with (Z.succ (Zpos (digits2_pos p) - 1)) by lia.
    rewrite !Z.pow_succ_r by lia. lia.
  - rewrite Pos2Z.inj_succ. change (Zpos p~0) with (2 * Zpos p).
    replace (Z.succ (Zpos (digits2_pos p)) - 1)
      with (Z.succ (Zpos (digits2_pos p) - 1)) by lia.
    rewrite !Z.pow_succ_r by lia. lia.
  - simpl. lia.
Qed.

Lemma Zdigits2_nonneg m : 0 <= Zdigits2 m.
Proof. destruct m; simpl; lia. Qed.

Lemma Zdigits2_le m k : 0 <= k -> 0 <= m < 2 ^ k -> Zdigits2 m <= k.
Proof.
  intros Hk [Hm Hlt]. destruct m as [|p|p]; simpl; try lia.
  destruct (Z_le_gt_dec (Zpos (digits2_pos p)) k) as [|Hgt]; [assumption|].
  pose proof (digits2_pos_bounds p) as [Hlo _].
  assert (2 ^ k <= 2 ^ (Zpos (digits2_pos p) - 1))
    by (apply Z.pow_le_mono_r; lia).
  lia.
Qed.

Lemma Zdigits2_lt_pow m : 0 <= m -> m < 2 ^ Zdigits2 m.
Proof.
  destruct m as [|p|p]; simpl; try lia.
  intros _. apply digits2_pos_bounds.
Qed.

Lemma Zdigits2_mono a b : 0 <= a <= b -> Zdigits2 a <= Zdigits2 b.
Proof.
  intros [Ha Hab]. apply Zdigits2_le.
  - apply Zdigits2_nonneg.
  - split; [assumption|].
    apply Z.le_lt_trans with b; [assumption|].
    apply Zdigits2_lt_pow. lia.
Qed.

Lemma Zdigits2_succ m : 0 <= m -> Zdigits2 (m + 1) <= Zdigits2 m + 1.
Proof.
  intros Hm. pose proof (Zdigits2_nonneg m) as Hd.
  apply Zdigits2_le; [lia|].
  pose proof (Zdigits2_lt_pow m Hm).
  assert (0 < 2 ^ Zdigits2 m) by (apply Z.pow_pos_nonneg; lia).
  rewrite Z.pow_add_r, Z.pow_1_r by lia. lia.
Qed.

Lemma iter_pos_invariant {A : Type} (P : A -> Prop) (f : A -> A) :
  (forall x, P x -> P (f x)) -> forall p x, P x -> P (iter_pos f p x).
Proof.
  intros Hf. induction p as [p IH|p IH|]; intros x Hx; simpl; auto.
Qed.

Lemma shr_1_bounded D mrs :
  0 <= shr_m mrs /\ Zdigits2 (shr_m mrs) <= D ->
  0 <= shr_m (shr_1 mrs) /\ Zdigits2 (shr_m (shr_1 mrs)) <= D.
Proof.
  destruct mrs as [m r s].
  destruct m as [|[p|p|]|[p|p|]]; simpl; intros [H1 H2]; split; lia.
Qed.

(** Shifting a mantissa to its format keeps it non-negative, does not add
    digits, and leaves an exponent bounded by the one of the format. *)
Lemma shr_fexp_bounded m e l D E :
  0 <= m -> Zdigits2 m <= D -> e <= E ->
  0 <= shr_m (fst (shr_fexp prec emax m e l)) /\
  Zdigits2 (shr_m (fst (shr_fexp prec emax m e l))) <= D /\
  snd (shr_fexp prec emax m e l) <= Z.max E (Z.max (D + E - 53) (-1074)).
Proof.
  intros Hm Hd He. unfold shr_fexp, shr.
  assert (Hrec : 0 <= shr_m (shr_record_of_loc m l) /\
                 Zdigits2 (shr_m (shr_record_of_loc m l)) <= D).
  { destruct l as [|[ | | ]]; simpl; auto. }
  assert (Hf : fexp prec emax (Zdigits2 m + e) <=
               Z.max (D + E - 53) (-1074)).
  { unfold fexp, SpecFloat.emin, prec, emax. lia. }
  destruct (fexp prec emax (Zdigits2 m + e) - e) as [|p|p] eqn:En;
    simpl fst; simpl snd.
  - repeat split; try tauto; lia.
  - repeat split.
    + apply (iter_pos_invariant _ _ (shr_1_bounded D)), Hrec.
    + apply (iter_pos_invariant _ _ (shr_1_bounded D)), Hrec.
    + lia.
  - repeat split; try tauto; lia.
Qed.

Lemma round_nearest_even_bounded m l D :
  0 <= m -> Zdigits2 m <= D ->
  0 <= round_nearest_even m l /\ Zdigits2 (round_nearest_even m l) <= D + 1.
Proof.
  intros Hm Hd. pose proof (Zdigits2_succ m Hm).
  destruct l as [|[ | | ]]; simpl; try (split; lia).
  destruct (Z.even m); split; lia.
Qed.

(** Rounding a non-negative mantissa of at most [D] digits, under an
    exponent of at most [E], gives zero or a finite value of the same sign
    when the bound [2 * D + E - 105] on its exponent fits the format. *)
Lemma binary_round_aux_finite sx mx ex lx D E :
  0 <= mx -> Zdigits2 mx <= D -> 53 <= D -> ex <= E -> -1074 <= E ->
  2 * D + E - 105 <= 971 ->
  match binary_round_aux prec emax sx mx ex lx with
  | S754_zero s => s = sx
  | S754_finite s _ e => s = sx /\ e <= 2 * D + E - 105
  | _ => False
  end.
Proof.
  intros Hm Hd HD He HE Hfit. unfold binary_round_aux.
  pose proof (shr_fexp_bounded mx ex lx D E Hm Hd He) as (H1 & H2 & H3).
  destruct (shr_fexp prec emax mx ex lx) as [mrs' e'].
  simpl fst in *; simpl snd in *.
  pose proof (round_nearest_even_bounded (shr_m mrs')
                (loc_of_shr_record mrs') D H1 H2) as [R1 R2].
  pose proof (shr_fexp_bounded _ e' loc_Exact (D + 1) (D + E - 53)
                R1 R2 ltac:(lia)) as (S1 & S2 & S3).
  destruct (shr_fexp prec emax _ e' loc_Exact) as [mrs'' e''].
  simpl fst in *; simpl snd in *.
  destruct (shr_m mrs'') as [|m|m].
  - reflexivity.
  - destruct (Z.leb_spec e'' (emax - prec)) as [Hle|Hgt].
    + split; [reflexivity | lia].
    + unfold emax, prec in Hgt. lia.
  - lia.
Qed.

Lemma valid_binary_digits s m e :
  valid_binary (S754_finite s m e) = true -> Zpos (digits2_pos m) <= 53.
Proof.
  simpl. unfold bounded, canonical_mantissa. intros H.
  apply andb_prop in H as [H _]. apply Z.eqb_eq in H.
  unfold fexp, SpecFloat.emin, prec, emax in H. lia.
Qed.

Lemma Zdigits2_mul_pos m1 m2 :
  Zpos (digits2_pos m1) <= 53 -> Zpos (digits2_pos m2) <= 53 ->
  Zdigits2 (Zpos (m1 * m2)) <= 106.
Proof.
  intros H1 H2. apply Zdigits2_le; [lia|].
  pose proof (digits2_pos_bounds m1) as [_ B1].
  pose proof (digits2_pos_bounds m2) as [_ B2].
  assert (P1 : 2 ^ Zpos (digits2_pos m1) <= 2 ^ 53)
    by (apply Z.pow_le_mono_r; lia).
  assert (P2 : 2 ^ Zpos (digits2_pos m2) <= 2 ^ 53)
    by (apply Z.pow_le_mono_r; lia).
  rewrite Pos2Z.inj_mul.
  change (2 ^ 106) with (2 ^ 53 * 2 ^ 53). nia.
Qed.

(** The product of two non-negative finite values is zero or finite while
    the exponents stay away from the ends of the format. *)
Lemma SFmul_finite x y E1 E2 :
  valid_binary x = true -> valid_binary y = true ->
  sfFiniteUpTo E1 x -> sfFiniteUpTo E2 y ->
  -1074 <= E1 + E2 -> E1 + E2 + 107 <= 971 ->
  sfFiniteUpTo (E1 + E2 + 107) (SFmul prec emax x y).
Proof.
  intros Vx Vy Hx Hy Hlo Hhi.
  destruct x as [sx|sx| |sx mx ex], y as [sy|sy| |sy my ey];
    simpl in Hx, Hy; try contradiction.
  - subst. reflexivity.
  - destruct Hy as [-> _]. subst. reflexivity.
  - destruct Hx as [-> _]. subst. reflexivity.
  - destruct Hx as [-> Hx], Hy as [-> Hy]. cbn [SFmul xorb].
    pose proof (binary_round_aux_finite false (Zpos (mx * my)) (ex + ey)
                  loc_Exact 106 (E1 + E2)) as H.
    specialize (H ltac:(lia)
                  (Zdigits2_mul_pos _ _ (valid_binary_digits _ _ _ Vx)
                     (valid_binary_digits _ _ _ Vy))
                  ltac:(lia) ltac:(lia) Hlo ltac:(lia)).
    destruct (binary_round_aux prec emax false (Zpos (mx * my)) (ex + ey)
                loc_Exact); simpl; try assumption.
    split; [tauto | lia].
Qed.

Lemma SFdiv_core_bounded m1 e1 m2 e2 :
  Zpos (digits2_pos m1) <= 53 -> Zpos (digits2_pos m2) <= 53 ->
  let r := SFdiv_core_binary prec emax (Zpos m1) e1 (Zpos m2) e2 in
  0 <= fst (fst r) /\ Zdigits2 (fst (fst r)) <= 106 /\ snd (fst r) <= e1 - e2.
Proof.
  intros H1 H2. unfold SFdiv_core_binary.
  set (e' := Z.min (fexp prec emax
                      (Zdigits2 (Zpos m1) + e1 - (Zdigits2 (Zpos m2) + e2)))
               (e1 - e2)).
  set (m' := match e1 - e2 - e' with
             | Zpos _ => Z.shiftl (Zpos m1) (e1 - e2 - e')
             | Z0 => Zpos m1
             | Zneg _ => 0
             end).
  assert (He' : e' <= e1 - e2) by (unfold e'; lia).
  assert (Hm' : 0 <= m' /\ Zdigits2 m' <= 106).
  { unfold m'. destruct (e1 - e2 - e') as [|p|p] eqn:Es.
    - simpl. lia.
    - rewrite Z.shiftl_mul_pow2 by lia. split; [lia|].
      apply Zdigits2_le; [lia|]. split; [lia|].
      pose proof (digits2_pos_bounds m1) as [_ B1].
      assert (Hp : Zpos (digits2_pos m1) + Zpos p <= 106).
      { unfold e', fexp, SpecFloat.emin, prec, emax in Es. simpl Zdigits2 in Es.
        pose proof (Pos2Z.is_pos (digits2_pos m2)). lia. }
      assert (2 ^ (Zpos (digits2_pos m1) + Zpos p) <= 2 ^ 106)
        by (apply Z.pow_le_mono_r; lia).
      rewrite Z.pow_add_r in H by lia.
      assert (0 < 2 ^ Zpos p) by (apply Z.pow_pos_nonneg; lia).
      nia.
    - simpl. lia. }
  pose proof (Z_div_mod m' (Zpos m2) ltac:(lia)) as Hdiv.
  destruct (Z.div_eucl m' (Zpos m2)) as [q r]. simpl.
  destruct Hdiv as [Heq Hr]. destruct Hm' as [Hm0 Hmd].
  assert (Hq : 0 <= q <= m') by nia.
  repeat split; try lia.
  apply Z.le_trans with (Zdigits2 m'); [|assumption].
  apply Zdigits2_mono. lia.
Qed.

(** The quotient of a non-negative finite value by a positive finite one is
    zero or finite while the exponents stay away from the ends of the
    format. *)
Lemma SFdiv_finite x s my ey E1 L2 :
  valid_binary x = true -> valid_binary (S754_finite s my ey) = true ->
  sfFiniteUpTo E1 x -> s = false -> L2 <= ey ->
  -1074 <= E1 - L2 -> E1 - L2 + 107 <= 971 ->
  sfFiniteUpTo (E1 - L2 + 107) (SFdiv prec emax x (S754_finite s my ey)).
Proof.
  intros Vx Vy Hx -> Hy Hlo Hhi.
  destruct x as [sx|sx| |sx mx ex]; simpl in Hx; try contradiction.
  - subst. reflexivity.
  - destruct Hx as [-> Hx]. cbn [SFdiv xorb].
    pose proof (SFdiv_core_bounded mx ex my ey
                  (valid_binary_digits _ _ _ Vx)
                  (valid_binary_digits _ _ _ Vy)) as Hc.
    destruct (SFdiv_core_binary prec emax (Zpos mx) ex (Zpos my) ey)
      as [[mz ez] lz].
    simpl in Hc. destruct Hc as (C1 & C2 & C3).
    pose proof (binary_round_aux_finite false mz ez lz 106 (E1 - L2)
                  C1 C2 ltac:(lia) ltac:(lia) Hlo ltac:(lia)) as H.
    destruct (binary_round_aux prec emax false mz ez lz); simpl;
      try assumption.
    split; [tauto | lia].
Qed.

(** *** The numbers of stored decimals *)

Lemma forallFrom_spec n f : forall c,
  forallFrom n c f = true ->
  forall x, c <= x < c + Z.of_nat n -> f x = true.
Proof.
  induction n as [|n IH]; intros c H x Hx.
  - simpl in Hx. lia.
  - cbn [forallFrom] in H. apply andb_prop in H as [Hc Hrest].
    destruct (Z.eq_dec x c) as [->|Hne]; [assumption|].
    apply (IH (c + 1) Hrest). lia.
Qed.

Lemma positiveNumber_all :
  forallFrom (Z.to_nat 99999) 1 positiveNumber = true.
Proof. vm_compute. reflexivity. Qed.

Lemma Number_positive c :
  1 <= c <= 99999 ->
  exists m e, Prim2SF (Number c) = S754_finite false m e /\ -60 <= e <= -43.
Proof.
  intros Hc.
  pose proof (forallFrom_spec _ _ _ positiveNumber_all c ltac:(lia)) as H.
  unfold positiveNumber in H.
  destruct (Prim2SF (Number c)) as [ | | |[|] m e]; try discriminate.
  exists m, e. split; [reflexivity | lia].
Qed.

Lemma Number_0 : Number 0 = 0%float.
Proof. reflexivity. Qed.

Lemma Prim2SF_0 : Prim2SF 0%float = S754_zero false.
Proof. reflexivity. Qed.

Lemma Prim2SF_100 :
  Prim2SF 100%float = S754_finite false 7036874417766400 (-46).
Proof. reflexivity. Qed.

Lemma Number_finite c :
  0 <= c <= 99999 -> sfFiniteUpTo (-43) (Prim2SF (Number c)).
Proof.
  intros Hc. destruct (Z.eq_dec c 0) as [->|Hne].
  - rewrite Number_0, Prim2SF_0. reflexivity.
  - destruct (Number_positive c ltac:(lia)) as (m & e & -> & He).
    simpl. split; [reflexivity | lia].
Qed.

(** The percentage of a validated row is zero or a positive finite number. *)
Lemma percentage_finite s :
  validated s -> sfFiniteUpTo 185 (Prim2SF (percentage s)).
Proof.
  intros (Hs & Hm & _). unfold percentage.
  rewrite FloatAxioms.mul_spec, FloatAxioms.div_spec.
  pose proof (Prim2SF_valid (Number (Score.score s) /
                             Number (Score.maxScore s))) as Vq.
  rewrite FloatAxioms.div_spec in Vq.
  pose proof (Prim2SF_valid (Number (Score.score s))) as Vs.
  pose proof (Prim2SF_valid (Number (Score.maxScore s))) as Vm.
  pose proof (Number_finite _ Hs) as Fs.
  destruct (Number_positive (Score.maxScore s) ltac:(lia))
    as (m & e & Em & He).
  rewrite Em in *.
  pose proof (SFdiv_finite _ false m e (-43) (-60) Vs Vm Fs eq_refl
                ltac:(lia) ltac:(lia) ltac:(lia)) as Fq.
  rewrite Prim2SF_100.
  apply (SFmul_finite _ (S754_finite false 7036874417766400 (-46)) 124 (-46));
    [exact Vq | reflexivity | exact Fq | simpl; lia | lia | lia].
Qed.

(** *** Signs *)

Lemma binary_round_aux_unsigned m e l :
  sfUnsigned (binary_round_aux prec emax false m e l) = true.
Proof.
  unfold binary_round_aux.
  destruct (shr_fexp prec emax m e l) as [mrs' e'].
  destruct (shr_fexp prec emax _ e' loc_Exact) as [mrs'' e''].
  destruct (shr_m mrs''); [reflexivity| |reflexivity].
  destruct (e'' <=? emax - prec); reflexivity.
Qed.

Lemma binary_round_unsigned m e :
  sfUnsigned (binary_round prec emax false m e) = true.
Proof.
  unfold binary_round.
  destruct (shl_align m e _) as [mz ez].
  apply binary_round_aux_unsigned.
Qed.

Lemma binary_normalize_unsigned m e :
  0 <= m -> sfUnsigned (binary_normalize prec emax m e false) = true.
Proof.
  intros Hm. destruct m as [|p|p]; [reflexivity| |lia].
  apply binary_round_unsigned.
Qed.

Lemma SFadd_unsigned x y :
  sfUnsigned x = true -> sfUnsigned y = true ->
  sfUnsigned (SFadd prec emax x y) = true.
Proof.
  destruct x as [[|]|[|]| |[|] mx ex], y as [[|]|[|]| |[|] my ey];
    simpl; try discriminate; try reflexivity.
  intros _ _. apply binary_round_unsigned.
Qed.

Lemma SFmul_unsigned x y :
  sfUnsigned x = true -> sfUnsigned y = true ->
  sfUnsigned (SFmul prec emax x y) = true.
Proof.
  destruct x as [[|]|[|]| |[|] mx ex], y as [[|]|[|]| |[|] my ey];
    simpl; try discriminate; try reflexivity.
  intros _ _. apply binary_round_aux_unsigned.
Qed.

Lemma SFdiv_unsigned x y :
  sfUnsigned x = true -> sfUnsigned y = true ->
  sfUnsigned (SFdiv prec emax x y) = true.
Proof.
  destruct x as [[|]|[|]| |[|] mx ex], y as [[|]|[|]| |[|] my ey];
    simpl; try discriminate; try reflexivity.
  intros _ _.
  destruct (SFdiv_core_binary prec emax (Zpos mx) ex (Zpos my) ey)
    as [[mz ez] lz].
  apply binary_round_aux_unsigned.
Qed.

Lemma ofZ_unsigned z : 0 <= z -> sfUnsigned (Prim2SF (Js.ofZ z)) = true.
Proof.
  intros Hz. destruct z as [|p|p]; [reflexivity| |lia].
  unfold Js.ofZ. rewrite of_uint63_spec.
  apply binary_normalize_unsigned.
  apply Uint63.to_Z_bounded.
Qed.

Lemma Number_unsigned c : 0 <= c -> sfUnsigned (Prim2SF (Number c)) = true.
Proof.
  intros Hc. unfold Number. rewrite FloatAxioms.div_spec.
  apply SFdiv_unsigned; [now apply ofZ_unsigned | now rewrite Prim2SF_100].
Qed.

Lemma contribution_unsigned s :
  validated s -> sfUnsigned (Prim2SF (contribution s)) = true.
Proof.
  intros (Hs & Hm & Hw). unfold contribution.
  rewrite !FloatAxioms.mul_spec, FloatAxioms.div_spec.
  repeat first [ apply SFmul_unsigned | apply SFdiv_unsigned
               | apply Number_unsigned ]; try lia.
  now rewrite Prim2SF_100.
Qed.

Lemma sumOf_unsigned f g :
  Forall (fun s => sfUnsigned (Prim2SF (f s)) = true) g ->
  sfUnsigned (Prim2SF (sumOf f g)) = true.
Proof.
  induction g as [|s g IH] using rev_ind; intros H.
  - reflexivity.
  - rewrite sumOf_snoc, FloatAxioms.add_spec. apply Forall_app in H as [Hg Hs].
    apply SFadd_unsigned; [now apply IH | now inversion Hs].
Qed.

(** Adding [+0] to a number whose sign bit is clear leaves it as it is. *)
Lemma add_zero_r x :
  sfUnsigned (Prim2SF x) = true -> (x + 0)%float = x.
Proof.
  intros H. apply Prim2SF_inj. rewrite FloatAxioms.add_spec, Prim2SF_0.
  destruct (Prim2SF x) as [[|]|[|]| |[|] m e]; try discriminate; reflexivity.
Qed.

(** The contribution of a validated row of weight zero is [+0]. *)
Lemma contribution_weight_0 s :
  validated s -> Score.weight s = 0 -> contribution s = 0%float.
Proof.
  intros Hv Hw. apply Prim2SF_inj.
  change (contribution s) with (percentage s * Number (Score.weight s))%float.
  rewrite Hw, Number_0, FloatAxioms.mul_spec, Prim2SF_0.
  pose proof (percentage_finite s Hv) as H.
  destruct (Prim2SF (percentage s)) as [sx|sx| |sx m e]; simpl in H;
    try contradiction.
  - now subst.
  - destruct H as [-> _]. reflexivity.
Qed.

(** *** Comparisons *)

Ltac sf_compare_cases :=
  repeat match goal with
    | |- context [Pos.compare_cont Eq ?a ?b] =>
        change (Pos.compare_cont Eq a b) with (Pos.compare a b)
    | H : context [Pos.compare_cont Eq ?a ?b] |- _ =>
        change (Pos.compare_cont Eq a b) with (Pos.compare a b) in H
    end;
  repeat match goal with
    | |- context [Z.compare ?a ?b] => destruct (Z.compare_spec a b)
    | H : context [Z.compare ?a ?b] |- _ => destruct (Z.compare_spec a b)
    | |- context [Pos.compare ?a ?b] => destruct (Pos.compare_spec a b)
    | H : context [Pos.compare ?a ?b] |- _ => destruct (Pos.compare_spec a b)
    end.

Lemma is_nan_Prim2SF x : is_nan x = false -> Prim2SF x <> S754_nan.
Proof.
  unfold is_nan. rewrite FloatAxioms.eqb_spec. intros H E.
  rewrite E in H. discriminate.
Qed.

(** On numbers, [y <= x] fails exactly when [x < y] holds. *)
Lemma SFleb_negb_SFltb x y :
  x <> S754_nan -> y <> S754_nan -> SFleb y x = negb (SFltb x y).
Proof.
  intros Hx Hy. unfold SFleb, SFltb.
  destruct x as [[|]|[|]| |[|] mx ex], y as [[|]|[|]| |[|] my ey];
    try congruence; try reflexivity; simpl;
    sf_compare_cases; subst; try reflexivity; lia.
Qed.

Lemma SFleb_trans x y z :
  SFleb x y = true -> SFleb y z = true -> SFleb x z = true.
Proof.
  unfold SFleb.
  destruct x as [[|]|[|]| |[|] mx ex], y as [[|]|[|]| |[|] my ey],
           z as [[|]|[|]| |[|] mz ez];
    simpl; try discriminate; try reflexivity;
    intros H1 H2; sf_compare_cases; subst;
    try discriminate; try reflexivity; lia.
Qed.

Lemma ge_lt x c :
  is_nan x = false -> is_nan c = false -> Js.lt x c = negb (Js.ge x c).
Proof.
  intros Hx Hc. unfold Js.lt, Js.ge.
  rewrite FloatAxioms.ltb_spec, FloatAxioms.leb_spec.
  rewrite (SFleb_negb_SFltb _ _ (is_nan_Prim2SF _ Hx) (is_nan_Prim2SF _ Hc)).
  now rewrite negb_involutive.
Qed.

Lemma ge_trans x c c' :
  Js.ge c c' = true -> Js.ge x c = true -> Js.ge x c' = true.
Proof.
  unfold Js.ge. rewrite !FloatAxioms.leb_spec. apply SFleb_trans.
Qed.

Lemma SFleb_not_nan x y : SFleb x y = true -> x <> S754_nan.
Proof. intros H ->. discriminate. Qed.

Lemma SFltb_not_nan x y : SFltb x y = true -> x <> S754_nan.
Proof. intros H ->. discriminate. Qed.

Lemma Prim2SF_not_nan x : Prim2SF x <> S754_nan -> is_nan x = false.
Proof.
  intros H. unfold is_nan. rewrite FloatAxioms.eqb_spec. unfold SFeqb.
  destruct (Prim2SF x) as [s|s| |s m e]; try congruence;
    try (now destruct s).
  simpl. rewrite Z.compare_refl, Pos.compare_cont_refl. now destruct s.
Qed.

Lemma le_not_nan x y : Js.le x y = true -> is_nan x = false.
Proof.
  unfold Js.le. rewrite FloatAxioms.leb_spec. intros H.
  apply Prim2SF_not_nan. eapply SFleb_not_nan, H.
Qed.

Lemma lt_not_nan x y : Js.lt x y = true -> is_nan x = false.
Proof.
  unfold Js.lt. rewrite FloatAxioms.ltb_spec. intros H.
  apply Prim2SF_not_nan. eapply SFltb_not_nan, H.
Qed.

Lemma gt_not_nan x y : Js.gt x y = true -> is_nan x = false.
Proof.
  unfold Js.gt. rewrite FloatAxioms.ltb_spec. intros H.
  apply Prim2SF_not_nan. intros E. rewrite E in H.
  unfold SFltb in H. now destruct (Prim2SF y).
Qed.

Lemma ge_not_nan x c : Js.ge x c = true -> is_nan x = false.
Proof.
  unfold Js.ge. rewrite FloatAxioms.leb_spec. intros H.
  apply Prim2SF_not_nan. intros E. rewrite E in H.
  unfold SFleb in H. now destruct (Prim2SF c).
Qed.

(** *** Exact shifts and the sum of the weights *)

Lemma shr_1_m mrs : 0 <= shr_m mrs -> shr_m (shr_1 mrs) = shr_m mrs / 2.
Proof.
  destruct mrs as [m r s]. simpl shr_m at 1 3.
  destruct m as [|[p|p|]|[p|p|]]; intros H; simpl shr_m; try lia; try reflexivity.
  - apply (Z.div_unique (Zpos p~1) 2 (Zpos p) 1); lia.
  - apply (Z.div_unique (Zpos p~0) 2 (Zpos p) 0); lia.
Qed.

Lemma shr_1_r mrs : 0 <= shr_m mrs -> shr_r (shr_1 mrs) = Z.odd (shr_m mrs).
Proof.
  destruct mrs as [m r s]. simpl shr_m.
  destruct m as [|[p|p|]|[p|p|]]; intros H; simpl; try lia; reflexivity.
Qed.

Lemma iter_pos_indexed {A : Type} (P : Z -> A -> Prop) (f : A -> A) :
  (forall k x, 0 <= k -> P k x -> P (k + 1) (f x)) ->
  forall p k x, 0 <= k -> P k x -> P (k + Zpos p) (iter_pos f p x).
Proof.
  intros Hf. induction p as [p IH|p IH|]; intros k x Hk Hx; simpl.
  - replace (k + Zpos p~1) with (k + 1 + Zpos p + Zpos p) by lia.
    apply IH; [lia|]. apply IH; [lia|]. now apply Hf.
  - replace (k + Zpos p~0) with (k + Zpos p + Zpos p) by lia.
    apply IH; [lia|]. now apply IH.
  - now apply Hf.
Qed.

(** After [p] halvings the mantissa is [m / 2^p] and the round bit is the
    last bit shifted out. *)
Lemma iter_shr_1 m r s p :
  0 <= m ->
  let mrs := iter_pos shr_1 p (Build_shr_record m r s) in
  shr_m mrs = m / 2 ^ Zpos p /\ shr_r mrs = Z.odd (m / 2 ^ (Zpos p - 1)).
Proof.
  intros Hm.
  pose (P := fun k x =>
    0 <= shr_m x /\ shr_m x = m / 2 ^ k /\
    (1 <= k -> shr_r x = Z.odd (m / 2 ^ (k - 1)))).
  assert (H : P (0 + Zpos p) (iter_pos shr_1 p (Build_shr_record m r s))).
  { apply iter_pos_indexed; [|lia|].
    - intros k x Hk (H0 & H1 & H2). unfold P.
      rewrite shr_1_m, shr_1_r by assumption.
      assert (0 < 2 ^ k) by (apply Z.pow_pos_nonneg; lia).
      repeat split.
      + apply Z.div_pos; lia.
      + rewrite H1, Z.div_div by lia.
        now rewrite Z.pow_add_r, Z.pow_1_r by lia.
      + intros _. rewrite H1. f_equal. f_equal. f_equal. lia.
    - unfold P. simpl. rewrite Z.div_1_r. repeat split; try lia. }
  destruct H as (_ & H1 & H2). simpl in H1. split; [exact H1|].
  apply H2. lia.
Qed.

Lemma Zdigits2_shift m n :
  0 <= m -> 0 <= n -> Zdigits2 (m / 2 ^ n) <= Z.max 0 (Zdigits2 m - n).
Proof.
  intros Hm Hn.
  pose proof (Zdigits2_nonneg m) as Hd.
  pose proof (Zdigits2_lt_pow m Hm) as Hlt.
  assert (Hp : 0 < 2 ^ n) by (apply Z.pow_pos_nonneg; lia).
  destruct (Z_le_gt_dec (Zdigits2 m) n) as [Hle|Hgt].
  - assert (2 ^ Zdigits2 m <= 2 ^ n) by (apply Z.pow_le_mono_r; lia).
    rewrite Z.div_small by lia. simpl. lia.
  - apply Zdigits2_le; [lia|]. split; [apply Z.div_pos; lia|].
    apply Z.div_lt_upper_bound; [lia|].
    rewrite <- Z.pow_add_r by lia.
    replace (n + Z.max 0 (Zdigits2 m - n)) with (Zdigits2 m) by lia.
    assumption.
Qed.

(** The first shift of a rounding leaves at most 53 digits. *)
Lemma shr_fexp_first m e l :
  0 <= m ->
  0 <= shr_m (fst (shr_fexp prec emax m e l)) /\
  Zdigits2 (shr_m (fst (shr_fexp prec emax m e l))) <= 53 /\
  snd (shr_fexp prec emax m e l)
    <= Z.max e (Z.max (Zdigits2 m + e - 53) (-1074)).
Proof.
  intros Hm. unfold shr_fexp, shr.
  pose proof (Zdigits2_nonneg m) as Hd.
  assert (Hf : fexp prec emax (Zdigits2 m + e) =
               Z.max (Zdigits2 m + e - 53) (-1074)) by reflexivity.
  destruct (fexp prec emax (Zdigits2 m + e) - e) as [|p|p] eqn:En;
    simpl fst; simpl snd.
  - assert (Hrec : shr_m (shr_record_of_loc m l) = m)
      by (destruct l as [|[ | | ]]; reflexivity).
    rewrite Hrec. repeat split; lia.
  - assert (Hrec : exists r s, shr_record_of_loc m l = Build_shr_record m r s)
      by (destruct l as [|[ | | ]]; simpl; eauto).
    destruct Hrec as (r & s & ->).
    destruct (iter_shr_1 m r s p Hm) as [H1 _]. rewrite H1.
    assert (Hp : 0 < 2 ^ Zpos p) by (apply Z.pow_pos_nonneg; lia).
    repeat split.
    + apply Z.div_pos; lia.
    + pose proof (Zdigits2_shift m (Zpos p) Hm ltac:(lia)). lia.
    + lia.
  - assert (Hrec : shr_m (shr_record_of_loc m l) = m)
      by (destruct l as [|[ | | ]]; reflexivity).
    rewrite Hrec. repeat split; lia.
Qed.

(** Rounding a non-negative mantissa gives zero or a finite value of the
    same sign whose exponent exceeds the one of the format by at most 1. *)
Lemma binary_round_aux_tight sx mx ex lx :
  0 <= mx ->
  Z.max ex (Z.max (Zdigits2 mx + ex - 53) (-1074)) + 1 <= 971 ->
  match binary_round_aux prec emax sx mx ex lx with
  | S754_zero s => s = sx
  | S754_finite s _ e =>
      s = sx /\ e <= Z.max ex (Z.max (Zdigits2 mx + ex - 53) (-1074)) + 1
  | _ => False
  end.
Proof.
  intros Hm Hfit. unfold binary_round_aux.
  pose proof (shr_fexp_first mx ex lx Hm) as (H1 & H2 & H3).
  destruct (shr_fexp prec emax mx ex lx) as [mrs' e'].
  simpl fst in *; simpl snd in *.
  pose proof (round_nearest_even_bounded (shr_m mrs')
                (loc_of_shr_record mrs') 53 H1 H2) as [R1 R2].
  pose proof (shr_fexp_bounded _ e' loc_Exact 54 e' R1 R2 ltac:(lia))
    as (S1 & S2 & S3).
  destruct (shr_fexp prec emax _ e' loc_Exact) as [mrs'' e''].
  simpl fst in *; simpl snd in *.
  destruct (shr_m mrs'') as [|m|m].
  - reflexivity.
  - destruct (Z.leb_spec e'' (emax - prec)) as [Hle|Hgt].
    + split; [reflexivity | lia].
    + unfold emax, prec in Hgt. lia.
  - lia.
Qed.

Lemma Pos_iter_xO p d : Zpos (Pos.iter xO p d) = Zpos p * 2 ^ Zpos d.
Proof.
  induction d as [|d IH] using Pos.peano_ind.
  - simpl. lia.
  - rewrite Pos.iter_succ, Pos2Z.inj_succ, Z.pow_succ_r by lia.
    change (Zpos (Pos.iter xO p d)~0) with (2 * Zpos (Pos.iter xO p d)).
    rewrite IH. lia.
Qed.

Lemma shl_align_value m e e' :
  e' <= e -> Zpos (fst (shl_align m e e')) = Zpos m * 2 ^ (e - e').
Proof.
  intros H. unfold shl_align.
  destruct (e' - e) as [|d|d] eqn:E; simpl fst; try lia.
  - replace (e - e') with 0 by lia. simpl. lia.
  - rewrite Pos_iter_xO. f_equal. f_equal. lia.
Qed.

(** Aligning to a lower exponent keeps the value: the exponent does not
    grow and the position of the leading digit stays. *)
Lemma shl_align_digits m e e' :
  snd (shl_align m e e') <= e /\
  Zpos (digits2_pos (fst (shl_align m e e'))) + snd (shl_align m e e')
  = Zpos (digits2_pos m) + e.
Proof.
  unfold shl_align.
  destruct (e' - e) as [|d|d] eqn:E; simpl fst; simpl snd; try lia.
  split; [lia|].
  assert (Hd : Zpos (digits2_pos (Pos.iter xO m d)) = Zpos (digits2_pos m) + Zpos d).
  { clear E. induction d as [|d IH] using Pos.peano_ind.
    - simpl. lia.
    - rewrite Pos.iter_succ. cbn [digits2_pos]. lia. }
  lia.
Qed.

Lemma valid_binary_exponent s m e :
  valid_binary (S754_finite s m e) = true -> -1074 <= e <= 971.
Proof.
  simpl. unfold bounded, canonical_mantissa. intros H.
  apply andb_prop in H as [H1 H2].
  apply Z.eqb_eq in H1. apply Z.leb_le in H2.
  unfold fexp, SpecFloat.emin, prec, emax in *. lia.
Qed.

(** The sum of two positive finite values is zero or finite, with an
    exponent at most 2 above the larger of theirs. *)
Lemma SFadd_finite mx ex my ey :
  valid_binary (S754_finite false mx ex) = true ->
  valid_binary (S754_finite false my ey) = true ->
  Z.max ex ey + 2 <= 971 ->
  sfFiniteUpTo (Z.max ex ey + 2)
    (SFadd prec emax (S754_finite false mx ex) (S754_finite false my ey)).
Proof.
  intros Vx Vy Hfit.
  pose proof (valid_binary_digits _ _ _ Vx) as Dx.
  pose proof (valid_binary_digits _ _ _ Vy) as Dy.
  pose proof (valid_binary_exponent _ _ _ Vx) as Ex.
  pose proof (valid_binary_exponent _ _ _ Vy) as Ey.
  cbn [SFadd cond_Zopp]. set (ez := Z.min ex ey).
  pose proof (shl_align_value mx ex ez ltac:(unfold ez; lia)) as Hx.
  pose proof (shl_align_value my ey ez ltac:(unfold ez; lia)) as Hy.
  destruct (shl_align mx ex ez) as [mx' ex'].
  destruct (shl_align my ey ez) as [my' ey'].
  simpl fst in *.
  change (Zpos mx' + Zpos my') with (Zpos (mx' + my')).
  cbn [binary_normalize]. unfold binary_round.
  assert (Hsum : Zpos (digits2_pos (mx' + my')) + ez <= 54 + Z.max ex ey).
  { assert (Hs : Zdigits2 (Zpos (mx' + my')) <= 54 + Z.max ex ey - ez);
      [|simpl Zdigits2 in Hs; lia].
    apply Zdigits2_le; [unfold ez; lia|]. split; [lia|].
    rewrite Pos2Z.inj_add, Hx, Hy.
    pose proof (digits2_pos_bounds mx) as [_ Bx].
    pose proof (digits2_pos_bounds my) as [_ By].
    assert (Px : 2 ^ Zpos (digits2_pos mx) <= 2 ^ 53)
      by (apply Z.pow_le_mono_r; lia).
    assert (Py : 2 ^ Zpos (digits2_pos my) <= 2 ^ 53)
      by (apply Z.pow_le_mono_r; lia).
    assert (Qx : 2 ^ (ex - ez) <= 2 ^ (Z.max ex ey - ez))
      by (apply Z.pow_le_mono_r; unfold ez; lia).
    assert (Qy : 2 ^ (ey - ez) <= 2 ^ (Z.max ex ey - ez))
      by (apply Z.pow_le_mono_r; unfold ez; lia).
    assert (0 < 2 ^ (ex - ez)) by (apply Z.pow_pos_nonneg; unfold ez; lia).
    assert (0 < 2 ^ (ey - ez)) by (apply Z.pow_pos_nonneg; unfold ez; lia).
    replace (54 + Z.max ex ey - ez) with (1 + 53 + (Z.max ex ey - ez)) by lia.
    rewrite !Z.pow_add_r by (unfold ez; lia). rewrite Z.pow_1_r.
    nia. }
  pose proof (shl_align_digits (mx' + my') ez
                (fexp prec emax (Zpos (digits2_pos (mx' + my')) + ez)))
    as [A1 A2].
  destruct (shl_align (mx' + my') ez _) as [mz ez'].
  simpl fst in *; simpl snd in *.
  pose proof (binary_round_aux_tight false (Zpos mz) ez' loc_Exact
                ltac:(lia)) as H.
  simpl Zdigits2 in H.
  specialize (H ltac:(unfold ez in *; lia)).
  destruct (binary_round_aux prec emax false (Zpos mz) ez' loc_Exact);
    simpl; try assumption.
  split; [tauto | unfold ez in *; lia].
Qed.

Lemma Zdigits2_unique m k :
  1 <= k -> 2 ^ (k - 1) <= m < 2 ^ k -> Zdigits2 m = k.
Proof.
  intros Hk [Hlo Hhi].
  assert (Hp : 0 < 2 ^ (k - 1)) by (apply Z.pow_pos_nonneg; lia).
  assert (Hle : Zdigits2 m <= k) by (apply Zdigits2_le; lia).
  destruct (Z_le_gt_dec k (Zdigits2 m)) as [|Hgt]; [lia|].
  pose proof (Zdigits2_lt_pow m ltac:(lia)) as Hlt.
  pose proof (Zdigits2_nonneg m).
  assert (2 ^ Zdigits2 m <= 2 ^ (k - 1)) by (apply Z.pow_le_mono_r; lia).
  lia.
Qed.

(** A number of at least 2^54 absorbs a number of at most 1: their sum
    rounds back to the larger one. *)
Lemma SFadd_absorb mx ex mw ew :
  valid_binary (S754_finite false mx ex) = true ->
  valid_binary (S754_finite false mw ew) = true ->
  2 <= ex -> ew <= -52 ->
  SFadd prec emax (S754_finite false mx ex) (S754_finite false mw ew) =
  S754_finite false mx ex.
Proof.
  intros Vx Vw Hex Hew.
  pose proof (valid_binary_digits _ _ _ Vw) as Dw.
  pose proof (valid_binary_exponent _ _ _ Vx) as Ex.
  assert (Dx : Zpos (digits2_pos mx) = 53).
  { simpl in Vx. unfold bounded, canonical_mantissa in Vx.
    apply andb_prop in Vx as [H _]. apply Z.eqb_eq in H.
    unfold fexp, SpecFloat.emin, prec, emax in H. lia. }
  pose proof (digits2_pos_bounds mx) as [Bx1 Bx2]. rewrite Dx in Bx1, Bx2.
  pose proof (digits2_pos_bounds mw) as [_ Bw].
  assert (Bw' : Zpos mw < 2 ^ 53).
  { apply Z.lt_le_trans with (2 ^ Zpos (digits2_pos mw)); [assumption|].
    apply Z.pow_le_mono_r; lia. }
  set (d := ex - ew).
  assert (Hd : 54 <= d) by (unfold d; lia).
  assert (Hpd : 2 ^ 53 * 2 <= 2 ^ d).
  { change (2 ^ 53 * 2) with (2 ^ 54). apply Z.pow_le_mono_r; lia. }
  assert (Hpd1 : 2 ^ d = 2 * 2 ^ (d - 1)).
  { replace d with (Z.succ (d - 1)) at 1 by lia.
    rewrite Z.pow_succ_r by lia. reflexivity. }
  cbn [SFadd cond_Zopp]. replace (Z.min ex ew) with ew by lia.
  pose proof (shl_align_value mx ex ew ltac:(lia)) as Hx. fold d in Hx.
  pose proof (shl_align_value mw ew ew ltac:(lia)) as Hw.
  rewrite Z.sub_diag, Z.pow_0_r, Z.mul_1_r in Hw.
  destruct (shl_align mx ex ew) as [mx' ex'].
  destruct (shl_align mw ew ew) as [mw' ew'].
  simpl fst in *.
  change (Zpos mx' + Zpos mw') with (Zpos (mx' + mw')).
  cbn [binary_normalize]. unfold binary_round.
  assert (HM : Zpos (mx' + mw') = Zpos mx * 2 ^ d + Zpos mw)
    by (rewrite Pos2Z.inj_add; lia).
  assert (DM : Zpos (digits2_pos (mx' + mw')) = 53 + d).
  { change (Zpos (digits2_pos (mx' + mw'))) with (Zdigits2 (Zpos (mx' + mw'))).
    apply Zdigits2_unique; [lia|]. rewrite HM.
    replace (53 + d - 1) with (52 + d) by lia.
    rewrite !Z.pow_add_r by lia. change (53 - 1) with 52 in Bx1. nia. }
  rewrite DM.
  assert (Hfexp : fexp prec emax (53 + d + ew) = ex).
  { unfold fexp, SpecFloat.emin, prec, emax, d. lia. }
  rewrite Hfexp.
  assert (Hal : shl_align (mx' + mw') ew ex = (mx' + mw', ew)%positive).
  { unfold shl_align. destruct (ex - ew) eqn:E; try reflexivity. lia. }
  rewrite Hal. unfold binary_round_aux, shr_fexp at 1.
  cbn [Zdigits2]. rewrite DM, Hfexp. fold d.
  destruct d as [|dp|dp] eqn:Ed; try lia.
  cbn [shr shr_record_of_loc].
  destruct (iter_shr_1 (Zpos (mx' + mw')) false false dp ltac:(lia))
    as [Hm Hr].
  destruct (iter_pos shr_1 dp _) as [m' r' s'].
  cbn [shr_m shr_r] in Hm, Hr.
  assert (Hm' : m' = Zpos mx).
  { rewrite Hm, HM. symmetry.
    apply (Z.div_unique _ _ (Zpos mx) (Zpos mw)); lia. }
  assert (Hr' : r' = false).
  { rewrite Hr, HM.
    replace ((Zpos mx * 2 ^ Zpos dp + Zpos mw) / 2 ^ (Zpos dp - 1))
      with (2 * Zpos mx).
    - now rewrite Z.odd_mul.
    - apply (Z.div_unique _ _ (2 * Zpos mx) (Zpos mw)); [|lia].
      left. split; [lia|]. lia. }
  clear Hm Hr. subst m' r'.
  assert (Hrne : round_nearest_even (Zpos mx)
                   (loc_of_shr_record (Build_shr_record (Zpos mx) false s'))
                 = Zpos mx) by (destruct s'; reflexivity).
  cbn [shr_m]. rewrite Hrne.
  replace (ew + Zpos dp) with ex by lia.
  unfold shr_fexp. cbn [Zdigits2]. rewrite Dx.
  assert (Hf2 : fexp prec emax (53 + ex) - ex = 0).
  { unfold fexp, SpecFloat.emin, prec, emax. lia. }
  rewrite Hf2. cbn [shr shr_record_of_loc shr_m].
  assert (Hle : (ex <=? emax - prec) = true).
  { apply Z.leb_le. unfold emax, prec. lia. }
  now rewrite Hle.
Qed.

Lemma weightNumber_all : forallFrom (Z.to_nat 100) 1 weightNumber = true.
Proof. vm_compute. reflexivity. Qed.

Lemma Number_weight c :
  0 <= c <= 100 ->
  Prim2SF (Number c) = S754_zero false \/
  exists m e, Prim2SF (Number c) = S754_finite false m e /\ -60 <= e <= -52.
Proof.
  intros Hc. destruct (Z.eq_dec c 0) as [->|Hne]; [now left|right].
  pose proof (forallFrom_spec _ _ _ weightNumber_all c ltac:(lia)) as H.
  unfold weightNumber in H.
  destruct (Prim2SF (Number c)) as [ | | |[|] m e]; try discriminate.
  exists m, e. split; [reflexivity | lia].
Qed.

(** The total weight of validated rows is zero or a positive finite number:
    once the running sum reaches 2^54 a further weight no longer changes
    it. *)
Lemma totalWeight_finite g :
  Forall validated g -> sfFiniteUpTo 3 (Prim2SF (totalWeightOf g)).
Proof.
  unfold totalWeightOf.
  induction g as [|s g IH] using rev_ind; intros H.
  - reflexivity.
  - apply Forall_app in H as [Hg Hs]. inversion Hs as [|? ? Hv _]; subst.
    destruct Hv as (_ & _ & Hw). specialize (IH Hg).
    rewrite sumOf_snoc, FloatAxioms.add_spec.
    pose proof (Prim2SF_valid (sumOf (fun s => Number (Score.weight s)) g))
      as Va.
    pose proof (Prim2SF_valid (Number (Score.weight s))) as Vw.
    destruct (Number_weight _ Hw) as [Ew|(mw & ew & Ew & Hew)];
      rewrite Ew in *;
      destruct (Prim2SF (sumOf (fun s => Number (Score.weight s)) g))
        as [sa|sa| |sa ma ea]; simpl in IH; try contradiction; subst;
      try reflexivity.
    + destruct IH as [-> He]. simpl. split; [reflexivity | lia].
    + simpl. split; [reflexivity | lia].
    + destruct IH as [-> He].
      destruct (Z_le_gt_dec 2 ea) as [Hbig|Hsmall].
      * unfold SF64add. rewrite (SFadd_absorb _ _ _ _ Va Vw Hbig ltac:(lia)).
        simpl. split; [reflexivity | lia].
      * pose proof (SFadd_finite _ _ _ _ Va Vw ltac:(lia)) as Hadd.
        unfold SF64add.
        destruct (SFadd prec emax _ _); simpl in *; try assumption.
        split; [tauto | lia].
Qed.

Lemma binary_round_aux_nonneg m e l :
  0 <= m -> sfNonneg (binary_round_aux prec emax false m e l) = true.
Proof.
  intros Hm. unfold binary_round_aux.
  pose proof (shr_fexp_bounded m e l (Zdigits2 m) e Hm ltac:(lia) ltac:(lia))
    as (H1 & H2 & _).
  destruct (shr_fexp prec emax m e l) as [mrs' e'].
  simpl fst in *.
  pose proof (round_nearest_even_bounded (shr_m mrs')
                (loc_of_shr_record mrs') _ H1 H2) as [R1 R2].
  pose proof (shr_fexp_bounded _ e' loc_Exact _ e' R1 R2 ltac:(lia))
    as (S1 & _ & _).
  destruct (shr_fexp prec emax _ e' loc_Exact) as [mrs'' e''].
  simpl fst in *.
  destruct (shr_m mrs''); [reflexivity| |lia].
  destruct (e'' <=? emax - prec); reflexivity.
Qed.

Lemma binary_round_nonneg m e :
  sfNonneg (binary_round prec emax false m e) = true.
Proof.
  unfold binary_round. destruct (shl_align m e _) as [mz ez].
  apply binary_round_aux_nonneg. lia.
Qed.

Lemma SFadd_nonneg x y :
  sfNonneg x = true -> sfNonneg y = true ->
  sfNonneg (SFadd prec emax x y) = true.
Proof.
  destruct x as [[|]|[|]| |[|] mx ex], y as [[|]|[|]| |[|] my ey];
    simpl; try discriminate; try reflexivity.
  intros _ _. apply binary_round_nonneg.
Qed.

(** A number that is not negative times a positive finite number. *)
Lemma SFmul_nonneg x my ey :
  sfNonneg x = true ->
  sfNonneg (SFmul prec emax x (S754_finite false my ey)) = true.
Proof.
  destruct x as [[|]|[|]| |[|] mx ex]; simpl; try discriminate;
    try reflexivity.
  intros _. apply binary_round_aux_nonneg. lia.
Qed.

(** The product of two finite numbers that are not negative. *)
Lemma SFmul_finite_nonneg x y E1 E2 :
  sfFiniteUpTo E1 x -> sfFiniteUpTo E2 y ->
  sfNonneg (SFmul prec emax x y) = true.
Proof.
  destruct x as [sx|sx| |sx mx ex], y as [sy|sy| |sy my ey];
    simpl; try contradiction.
  - now intros -> ->.
  - now intros -> [-> _].
  - now intros [-> _] ->.
  - intros [-> _] [-> _]. apply binary_round_aux_nonneg. lia.
Qed.

Lemma SFdiv_core_nonneg m1 e1 m2 e2 :
  0 <= fst (fst (SFdiv_core_binary prec emax (Zpos m1) e1 (Zpos m2) e2)).
Proof.
  unfold SFdiv_core_binary.
  set (e' := Z.min _ _).
  set (m' := match e1 - e2 - e' with
             | Zpos _ => Z.shiftl (Zpos m1) (e1 - e2 - e')
             | Z0 => Zpos m1
             | Zneg _ => 0
             end).
  assert (Hm' : 0 <= m').
  { unfold m'. destruct (e1 - e2 - e') as [|p|p]; try lia.
    rewrite Z.shiftl_mul_pow2 by lia.
    assert (0 < 2 ^ Zpos p) by (apply Z.pow_pos_nonneg; lia). lia. }
  pose proof (Z_div_mod m' (Zpos m2) ltac:(lia)) as Hdiv.
  destruct (Z.div_eucl m' (Zpos m2)) as [q r]. simpl.
  destruct Hdiv as [Heq Hr]. nia.
Qed.

(** A number that is not negative divided by a positive finite number. *)
Lemma SFdiv_nonneg x my ey :
  sfNonneg x = true ->
  sfNonneg (SFdiv prec emax x (S754_finite false my ey)) = true.
Proof.
  destruct x as [[|]|[|]| |[|] mx ex]; simpl; try discriminate;
    try reflexivity.
  intros _. pose proof (SFdiv_core_nonneg mx ex my ey) as H.
  destruct (SFdiv_core_binary prec emax (Zpos mx) ex (Zpos my) ey)
    as [[mz ez] lz].
  now apply binary_round_aux_nonneg.
Qed.

Lemma ofZ_nonneg z : 0 <= z -> sfNonneg (Prim2SF (Js.ofZ z)) = true.
Proof.
  intros Hz. destruct z as [|p|p]; [reflexivity| |lia].
  unfold Js.ofZ. rewrite of_uint63_spec.
  pose proof (Uint63.to_Z_bounded (Uint63.of_Z (Zpos p))) as [Hb _].
  destruct (Uint63.to_Z (Uint63.of_Z (Zpos p))) as [|q|q];
    [reflexivity| |lia].
  apply binary_round_nonneg.
Qed.

Lemma Math_round_nonneg x :
  sfNonneg (Prim2SF x) = true -> sfNonneg (Prim2SF (Js.Math_round x)) = true.
Proof.
  intros H. unfold Js.Math_round.
  destruct (Prim2SF x) as [s|s| |[|] m [|k|k]] eqn:E;
    try discriminate; rewrite ?E; try assumption.
  apply ofZ_nonneg.
  assert (0 < Z.pow_pos 2 k)
    by (change (Z.pow_pos 2 k) with (2 ^ Zpos k);
        apply Z.pow_pos_nonneg; lia).
  apply Z.div_pos; lia.
Qed.

Lemma round2_nonneg x :
  sfNonneg (Prim2SF x) = true -> sfNonneg (Prim2SF (round2 x)) = true.
Proof.
  intros H. unfold round2.
  rewrite FloatAxioms.div_spec, Prim2SF_100.
  apply SFdiv_nonneg, Math_round_nonneg.
  rewrite FloatAxioms.mul_spec, Prim2SF_100.
  now apply SFmul_nonneg.
Qed.

Lemma sumOf_nonneg f g :
  Forall (fun s => sfNonneg (Prim2SF (f s)) = true) g ->
  sfNonneg (Prim2SF (sumOf f g)) = true.
Proof.
  induction g as [|s g IH] using rev_ind; intros H.
  - reflexivity.
  - rewrite sumOf_snoc, FloatAxioms.add_spec. apply Forall_app in H as [Hg Hs].
    apply SFadd_nonneg; [now apply IH | now inversion Hs].
Qed.

Lemma contribution_nonneg s :
  validated s -> sfNonneg (Prim2SF (contribution s)) = true.
Proof.
  intros Hv.
  change (contribution s) with (percentage s * Number (Score.weight s))%float.
  rewrite FloatAxioms.mul_spec.
  apply (SFmul_finite_nonneg _ _ 185 (-43)).
  - now apply percentage_finite.
  - apply Number_finite. destruct Hv as (_ & _ & Hw). lia.
Qed.

Lemma sfNonneg_is_number x : sfNonneg (Prim2SF x) = true -> is_nan x = false.
Proof.
  intros H. apply Prim2SF_not_nan. intros E. now rewrite E in H.
Qed.

(** The final grade of a group of validated rows is a number, never NaN. *)
Lemma finalGrade_is_a_number g :
  Forall validated g -> is_nan (aggregateFinalGrade g) = false.
Proof.
  intros Hg. unfold aggregateFinalGrade.
  destruct (Js.gt (totalWeightOf g) 0%float) eqn:Hgt; [|reflexivity].
  apply sfNonneg_is_number, round2_nonneg.
  rewrite FloatAxioms.div_spec.
  pose proof (totalWeight_finite g Hg) as Hw.
  unfold Js.gt in Hgt. rewrite FloatAxioms.ltb_spec, Prim2SF_0 in Hgt.
  destruct (Prim2SF (totalWeightOf g)) as [sw|sw| |sw mw ew];
    simpl in Hw; try contradiction.
  - subst. discriminate.
  - destruct Hw as [-> _].
    apply SFdiv_nonneg, sumOf_nonneg.
    eapply Forall_impl; [|exact Hg]. apply contribution_nonneg.
Qed.

(** ** The properties of the specification *)

(** C1.  In both views the final grade of every group is
    [round2 (totalWeightedScore / totalWeight)] when [totalWeight > 0] and
    [0] otherwise, where [totalWeightedScore] sums the unrounded
    contributions [(rawScore / maxScore) * 100 * weight] of the records of
    the group and [totalWeight] sums their weights.  The groups of the
    report card are the subject ids of the rows, those of the grade book the
    student ids of the enrollments; it holds for every row, validated or
    not.  Written out on binary64 numbers, with the decimals of a row
    converted by [Number], the final grade is
    [Math.round(totalWeightedScore / totalWeight * 100) / 100]: the two sums
    start at 0 and add in the order of the rows, and nothing is rounded to
    hundredths before the quotient.  The records 80/100 of weight 0.3 and
    70/100 of weight 0.7 give, in both views, the final grade 73 and the
    letter 'C', with percentages 80 and 70 and a total weight of 1.  Two
    records 1/3 of weight 0.5 give 33.33, although the weighted score
    reported for each of them is the rounded 16.67: twice that would be
    33.34. *)
Theorem finalGrade_is_rounded_weighted_average :
  forall (scores : list Score.t) (cs : ClassSubject.t),
    map SubjectGrade.finalGrade (studentGrades scores) =
    map (fun k => aggregateFinalGrade (groupOf Score.subjectId k scores))
      (firstSeen (map Score.subjectId scores))
    /\
    map StudentGrade.finalGrade
      (Gradebook.students (classSubjectScores cs scores)) =
    map (fun k => aggregateFinalGrade (groupOf Score.studentId k scores))
      (enrolledIds (ClassSubject.enrollments cs))
    /\
    (forall g : list Score.t,
       let value := fun d : Decimal => (Js.ofZ d / 100)%float in
       let totalWeightedScore :=
         fold_left
           (fun acc s =>
              (acc + value (Score.score s) / value (Score.maxScore s) * 100
                     * value (Score.weight s))%float)
           g 0%float in
       let totalWeight :=
         fold_left (fun acc s => (acc + value (Score.weight s))%float)
           g 0%float in
       aggregateFinalGrade g =
       if (0 <? totalWeight)%float
       then (Js.Math_round (totalWeightedScore / totalWeight * 100) / 100)%float
       else 0%float)
    /\
    (let rows := [storedRow "score-1" 8000 10000 30;
                  storedRow "score-2" 7000 10000 70] in
     map (fun r => (map ScoreView.percentage (SubjectGrade.scores r),
                    SubjectGrade.totalWeight r,
                    SubjectGrade.finalGrade r, SubjectGrade.letterGrade r))
       (studentGrades rows) = [([80%float; 70%float], 1%float, 73%float, "C")]
     /\
     map (fun r => (StudentGrade.finalGrade r, StudentGrade.letterGrade r))
       (Gradebook.students (classSubjectScores theClassSubject rows))
     = [(73%float, "C")])
    /\
    (let rows := [storedRow "score-1" 100 300 50;
                  storedRow "score-2" 100 300 50] in
     map (fun r => (map ScoreView.weightedScore (SubjectGrade.scores r),
                    SubjectGrade.finalGrade r))
       (studentGrades rows) =
     [([Number 1667; Number 1667], Number 3333)]).
Proof.
  intros scores cs. split; [|split; [|split; [|split]]].
  - apply (studentGrades_field SubjectGrade.finalGrade aggregateFinalGrade).
    reflexivity.
  - apply (classSubjectScores_field StudentGrade.finalGrade
             aggregateFinalGrade).
    reflexivity.
  - reflexivity.
  - split; vm_compute; reflexivity.
  - vm_compute. reflexivity.
Qed.

Lemma not_a_number_compares_false x c :
  is_nan x = true -> Js.ge x c = false /\ Js.lt x c = false.
Proof.
  intros H. split.
  - destruct (Js.ge x c) eqn:E; [|reflexivity].
    apply ge_not_nan in E. congruence.
  - destruct (Js.lt x c) eqn:E; [|reflexivity].
    apply lt_not_nan in E. congruence.
Qed.

(** The cascade yields the bands, for a final grade that is a number and
    for NaN. *)
Lemma letterGradeOf_banded x : banded x (letterGradeOf x).
Proof.
  unfold banded, letterGradeOf.
  destruct (is_nan x) eqn:Hx.
  - destruct (not_a_number_compares_false x 90%float Hx) as [-> ->].
    destruct (not_a_number_compares_false x 80%float Hx) as [-> ->].
    destruct (not_a_number_compares_false x 70%float Hx) as [-> ->].
    destruct (not_a_number_compares_false x 60%float Hx) as [-> ->].
    repeat split; intros; try discriminate; try tauto;
      try (destruct H; discriminate).
  - pose proof (ge_lt x 90%float Hx eq_refl) as L90.
    pose proof (ge_lt x 80%float Hx eq_refl) as L80.
    pose proof (ge_lt x 70%float Hx eq_refl) as L70.
    pose proof (ge_lt x 60%float Hx eq_refl) as L60.
    pose proof (ge_trans x 90%float 80%float eq_refl) as T90.
    pose proof (ge_trans x 80%float 70%float eq_refl) as T80.
    pose proof (ge_trans x 70%float 60%float eq_refl) as T70.
    rewrite L90, L80, L70, L60.
    destruct (Js.ge x 90%float), (Js.ge x 80%float), (Js.ge x 70%float),
      (Js.ge x 60%float); simpl;
      try (specialize (T90 eq_refl)); try (specialize (T80 eq_refl));
      try (specialize (T70 eq_refl)); try discriminate;
      repeat split; intros; try discriminate; try tauto;
      try (destruct H; discriminate);
      try (destruct H as [H|H]; discriminate).
Qed.

Lemma groupOf_validated key k scores :
  Forall validated scores -> Forall validated (groupOf key k scores).
Proof.
  unfold groupOf. rewrite !Forall_forall. intros H s Hs.
  apply filter_In in Hs. now apply H.
Qed.

(** C2.  In both views the letter of every entry follows from its final
    grade by the fixed bands with inclusive lower bounds: 'A' iff
    [finalGrade >= 90], 'B' iff [80 <= finalGrade < 90], 'C' iff
    [70 <= finalGrade < 80], 'D' iff [60 <= finalGrade < 70], and 'F'
    otherwise, that is iff [finalGrade < 60] or the final grade is NaN.  On
    validated rows no final grade is NaN, and 'F' is then the letter of the
    final grades below 60 and of no other.  At the boundaries, for a single
    record of weight 1: 90.00 gives 'A', 89.99 gives 'B', 60.00 gives 'D'
    and 59.99 gives 'F'. *)
Theorem letterGrade_bands :
  forall (scores : list Score.t) (cs : ClassSubject.t),
    Forall (fun r => banded (SubjectGrade.finalGrade r)
                       (SubjectGrade.letterGrade r))
      (studentGrades scores) /\
    Forall (fun r => banded (StudentGrade.finalGrade r)
                       (StudentGrade.letterGrade r))
      (Gradebook.students (classSubjectScores cs scores)) /\
    (Forall validated scores ->
     Forall (fun r => is_nan (SubjectGrade.finalGrade r) = false /\
                      (SubjectGrade.letterGrade r = "F" <->
                       Js.lt (SubjectGrade.finalGrade r) 60%float = true))
       (studentGrades scores) /\
     Forall (fun r => is_nan (StudentGrade.finalGrade r) = false /\
                      (StudentGrade.letterGrade r = "F" <->
                       Js.lt (StudentGrade.finalGrade r) 60%float = true))
       (Gradebook.students (classSubjectScores cs scores))) /\
    (let grade := fun hundredths =>
       map (fun r => (SubjectGrade.finalGrade r, SubjectGrade.letterGrade r))
         (studentGrades [storedRow "score-1" hundredths 10000 100]) in
     grade 9000 = [(Number 9000, "A")] /\
     grade 8999 = [(Number 8999, "B")] /\
     grade 6000 = [(Number 6000, "D")] /\
     grade 5999 = [(Number 5999, "F")]).
Proof.
  intros scores cs.
  assert (Hr : Forall (fun r => SubjectGrade.letterGrade r =
                                letterGradeOf (SubjectGrade.finalGrade r))
                 (studentGrades scores)).
  { unfold studentGrades. apply Forall_map, Forall_forall.
    intros d _. reflexivity. }
  assert (Hb : Forall (fun r => StudentGrade.letterGrade r =
                                letterGradeOf (StudentGrade.finalGrade r))
                 (Gradebook.students (classSubjectScores cs scores))).
  { unfold classSubjectScores. cbn [Gradebook.students].
    apply Forall_map, Forall_forall. intros d _. reflexivity. }
  split; [|split; [|split]].
  - eapply Forall_impl; [|exact Hr]. cbv beta. intros r ->.
    apply letterGradeOf_banded.
  - eapply Forall_impl; [|exact Hb]. cbv beta. intros r ->.
    apply letterGradeOf_banded.
  - intros Hv.
    assert (Hnr : Forall (fun x => is_nan x = false)
                    (map SubjectGrade.finalGrade (studentGrades scores))).
    { rewrite (studentGrades_field SubjectGrade.finalGrade
                 aggregateFinalGrade) by reflexivity.
      apply Forall_map, Forall_forall. intros k _.
      now apply finalGrade_is_a_number, groupOf_validated. }
    assert (Hnb : Forall (fun x => is_nan x = false)
                    (map StudentGrade.finalGrade
                       (Gradebook.students (classSubjectScores cs scores)))).
    { rewrite (classSubjectScores_field StudentGrade.finalGrade
                 aggregateFinalGrade) by reflexivity.
      apply Forall_map, Forall_forall. intros k _.
      now apply finalGrade_is_a_number, groupOf_validated. }
    apply Forall_map in Hnr, Hnb.
    rewrite Forall_forall in Hr, Hb, Hnr, Hnb.
    split; apply Forall_forall; intros r Hin.
    + specialize (Hr r Hin). specialize (Hnr r Hin).
      split; [exact Hnr|]. rewrite Hr.
      destruct (letterGradeOf_banded (SubjectGrade.finalGrade r))
        as (_ & _ & _ & _ & HF).
      rewrite HF, Hnr. split; [intros [H|H]; [exact H|discriminate]|tauto].
    + specialize (Hb r Hin). specialize (Hnb r Hin).
      split; [exact Hnb|]. rewrite Hb.
      destruct (letterGradeOf_banded (StudentGrade.finalGrade r))
        as (_ & _ & _ & _ & HF).
      rewrite HF, Hnb. split; [intros [H|H]; [exact H|discriminate]|tauto].
  - repeat split.
Qed.

(** The final grade of a single validated row 89.99 / 100 of weight 1 lies
    in band B and is a number. *)
Lemma letterGrade_bands_witness :
  let rows := [storedRow "score-1" 8999 10000 100] in
  Forall validated rows /\
  Forall (fun r => is_nan (SubjectGrade.finalGrade r) = false /\
                   (SubjectGrade.letterGrade r = "F" <->
                    Js.lt (SubjectGrade.finalGrade r) 60%float = true))
    (studentGrades rows).
Proof.
  intros rows.
  assert (Hv : Forall validated rows)
    by (repeat constructor; simpl; lia).
  split; [exact Hv|].
  exact (proj1 (proj1 (proj2 (proj2 (letterGrade_bands rows theClassSubject)))
                  Hv)).
Defined.

(** A maximum of 0.004 is positive and passes the schema; the column holds
    it as 0.00.  With a score of 0 the row is 0 / 0: its final grade is NaN,
    its letter is 'F', and NaN is not below 60. *)
Lemma zero_over_zero_is_graded_F :
  let body := scoreBody (Student.id theStudent)
                (ClassSubject.id theClassSubject) (Subject.id theSubject)
                0%float (4 / 1000)%float 1%float in
  exists row grades,
    GradingController.createScore (prisma := memoryStore)
      (formats := exampleFormats)
      (Request.mk (Some (AuthUser.mk "user-1" "t@school.la" "TEACHER")) ""
         body) [] =
    ([row], successResponse row "Score created successfully" (Some 201)) /\
    (Score.score row, Score.maxScore row, Score.weight row) = (0, 0, 100) /\
    GradingService.getStudentGrades (prisma := memoryStore)
      (Student.id theStudent) None [row] = ([row], inr grades) /\
    map (fun r => (is_nan (SubjectGrade.finalGrade r),
                   SubjectGrade.letterGrade r,
                   Js.lt (SubjectGrade.finalGrade r) 60%float))
      grades = [(true, "F", false)].
Proof.
  intros body. eexists. eexists.
  split; [reflexivity|]. split; [reflexivity|].
  split; [reflexivity|]. reflexivity.
Qed.

Lemma Math_round_half_up x :
  match Prim2SF x with
  | S754_finite false m (Zneg k) =>
      exists n, Js.Math_round x = Js.ofZ n /\
                2 * n * 2 ^ Zpos k <= 2 * Zpos m + 2 ^ Zpos k
                  < 2 * (n + 1) * 2 ^ Zpos k
  | _ => True
  end.
Proof.
  unfold Js.Math_round.
  destruct (Prim2SF x) as [s|s| |[|] m [|k|k]]; try exact I.
  exists ((2 * Zpos m + Z.pow_pos 2 k) / (2 * Z.pow_pos 2 k)).
  split; [reflexivity|].
  change (Z.pow_pos 2 k) with (2 ^ Zpos k).
  assert (Hd : 0 < 2 ^ Zpos k) by (apply Z.pow_pos_nonneg; lia).
  pose proof (Z.div_mod (2 * Zpos m + 2 ^ Zpos k) (2 * 2 ^ Zpos k)
                ltac:(lia)) as Hdm.
  pose proof (Z.mod_pos_bound (2 * Zpos m + 2 ^ Zpos k) (2 * 2 ^ Zpos k)
                ltac:(lia)) as Hmod.
  nia.
Qed.

(** C3.  In both views the percentage reported for a record is
    [(rawScore / maxScore) * 100] rounded by [Math.round(x * 100) / 100],
    and [Math.round] rounds a half up on positive numbers; the record
    [{rawScore: 45, maxScore: 50, weight: 1}] alone in its group is reported
    with percentage 90, final grade 90 and letter grade 'A'. *)
Theorem percentage_is_rounded_to_two_decimals :
  forall (scores : list Score.t) (cs : ClassSubject.t),
    (map (fun r => map ScoreView.percentage (SubjectGrade.scores r))
       (studentGrades scores) =
     map (fun k =>
            map (fun s =>
                   round2 (Number (Score.score s) / Number (Score.maxScore s)
                           * 100)%float)
              (groupOf Score.subjectId k scores))
       (firstSeen (map Score.subjectId scores)))
    /\
    (map (fun r => map GradebookScore.percentage (StudentGrade.scores r))
       (Gradebook.students (classSubjectScores cs scores)) =
     map (fun k =>
            map (fun s =>
                   round2 (Number (Score.score s) / Number (Score.maxScore s)
                           * 100)%float)
              (groupOf Score.studentId k scores))
       (enrolledIds (ClassSubject.enrollments cs)))
    /\
    (forall x : Js.number,
       round2 x = (Js.Math_round (x * 100) / 100)%float /\
       match Prim2SF x with
       | S754_finite false m (Zneg k) =>
           exists n, Js.Math_round x = Js.ofZ n /\
                     2 * n * 2 ^ Zpos k <= 2 * Zpos m + 2 ^ Zpos k
                       < 2 * (n + 1) * 2 ^ Zpos k
       | _ => True
       end)
    /\
    (forall id studentId classSubjectId subjectId scoreType notes date
            subject class semester,
       let s := Score.mk id studentId classSubjectId subjectId scoreType
                  4500 5000 100 notes date subject class semester in
       map (fun r => (map ScoreView.percentage (SubjectGrade.scores r),
                      SubjectGrade.finalGrade r, SubjectGrade.letterGrade r))
         (studentGrades [s]) = [([90%float], 90%float, "A")]).
Proof.
  intros scores cs. repeat split.
  - apply (studentGrades_field
             (fun r => map ScoreView.percentage (SubjectGrade.scores r))
             (map (fun s => round2 (percentage s)))).
    intros s0 grp. cbn [subjectGrade SubjectGrade.scores SubjectData.scores].
    now rewrite map_map.
  - apply (classSubjectScores_field
             (fun r => map GradebookScore.percentage (StudentGrade.scores r))
             (map (fun s => round2 (percentage s)))).
    intros st grp. cbn [studentGrade StudentGrade.scores StudentData.scores].
    now rewrite map_map.
  - apply Math_round_half_up.
Qed.

(** *** The two views, entry by entry *)

Lemma map_Some_inj {A : Type} (l1 l2 : list A) :
  map Some l1 = map Some l2 -> l1 = l2.
Proof.
  revert l2. induction l1 as [|a l1 IH]; intros [|b l2] H;
    try discriminate; [reflexivity|].
  simpl in H. injection H as -> H. f_equal. now apply IH.
Qed.

(** The report card has one entry per subject id of the rows, in the order
    the ids are first met, each computed from the rows of that subject. *)
Lemma studentGrades_entries scores :
  map Some (studentGrades scores) =
  map (fun k => option_map subjectGrade
                  (accumulateSubject (groupOf Score.subjectId k scores)))
    (firstSeen (map Score.subjectId scores)).
Proof.
  unfold studentGrades. rewrite map_map, <- groupBySubject_keys.
  apply values_by_keys.
  - rewrite groupBySubject_keys. apply firstSeen_NoDup.
  - intros k Hk. rewrite groupBySubject_get, accumulateSubject_eq.
    rewrite groupBySubject_keys, firstSeen_In in Hk.
    destruct (groupOf Score.subjectId k scores) eqn:E; [|reflexivity].
    apply groupOf_nil_iff in E. contradiction.
Qed.

(** The grade book has one entry per student id of the enrollments, in the
    order the ids are first met, each computed from the rows of that
    student. *)
Lemma classSubjectScores_entries cs scores :
  map Some (Gradebook.students (classSubjectScores cs scores)) =
  map (fun k => option_map
                  (fun st => studentEntry st (groupOf Score.studentId k scores))
                  (enrolledStudent (ClassSubject.enrollments cs) k))
    (enrolledIds (ClassSubject.enrollments cs)).
Proof.
  unfold classSubjectScores. cbn [Gradebook.students].
  rewrite map_map, <- (groupByStudent_keys _ scores).
  apply values_by_keys.
  - rewrite groupByStudent_keys. apply firstSeen_NoDup.
  - intros k Hk. rewrite groupByStudent_keys in Hk.
    rewrite groupByStudent_get.
    destruct (enrolledStudent_Some _ _ Hk) as [st ->].
    cbn [option_map]. now rewrite fold_pushStudentScore.
Qed.

Lemma enrolledStudent_id es k st :
  enrolledStudent es k = Some st -> Student.id st = k.
Proof.
  unfold enrolledStudent.
  induction es as [|e es IH] using rev_ind; [discriminate|].
  rewrite fold_left_app. cbn [fold_left].
  destruct (String.eqb_spec (Student.id (Enrollment.student e)) k) as [E|E].
  - now intros [= <-].
  - exact IH.
Qed.

Lemma enrolledIds_In es k :
  In k (enrolledIds es) <->
  exists e, In e es /\ Student.id (Enrollment.student e) = k.
Proof.
  unfold enrolledIds. rewrite firstSeen_In, in_map_iff.
  split; intros (e & H1 & H2); exists e; tauto.
Qed.

Lemma In_map_Some {A : Type} (a : A) (l : list A) :
  In (Some a) (map Some l) -> In a l.
Proof.
  rewrite in_map_iff. now intros (x & [= ->] & H).
Qed.

(** Ids that are pairwise distinct are first met in their own order. *)
Lemma firstSeen_NoDup_id ks : NoDup ks -> firstSeen ks = ks.
Proof.
  induction ks as [|k ks IH] using rev_ind; intros H; [reflexivity|].
  rewrite firstSeen_snoc. apply NoDup_remove_2 in H as Hk.
  rewrite app_nil_r in Hk.
  apply NoDup_remove_1 in H. rewrite app_nil_r in H.
  rewrite (IH H). unfold addKey.
  destruct (existsb (String.eqb k) ks) eqn:E; [|reflexivity].
  apply existsb_eqb_In in E. contradiction.
Qed.

(** C4.  An empty group aggregates to final grade 0, letter grade 'F' and
    an empty per-record list.  In the grade book every student with an
    ACTIVE enrollment and no score row gets such an entry, and the service
    call raises nothing once the class subject exists: it returns the grade
    book and leaves the store as it was. *)
Theorem empty_group_is_zero_F :
  (aggregateFinalGrade [] = 0%float /\
   letterGradeOf (aggregateFinalGrade []) = "F" /\
   forall st, studentEntry st [] = StudentGrade.mk st [] 0%float "F") /\
  (forall (cs : ClassSubject.t) (scores : list Score.t) (e : Enrollment.t),
     In e (ClassSubject.enrollments cs) ->
     isActive e = true ->
     (forall s, In s scores ->
                Score.studentId s <> Student.id (Enrollment.student e)) ->
     exists st,
       Student.id st = Student.id (Enrollment.student e) /\
       In (StudentGrade.mk st [] 0%float "F")
         (Gradebook.students
            (classSubjectScores (withActiveEnrollments cs) scores))) /\
  (forall (World : Type) (prisma : PrismaClient World) (w : World)
          (classSubjectId : string),
     match classSubject_findUnique w classSubjectId with
     | Some cs =>
         GradingService.getClassSubjectScores classSubjectId w =
         (w, inr (classSubjectScores (withActiveEnrollments cs)
                    (score_findMany w
                       (ScoreQuery.mk None (Some classSubjectId) None
                          [ScoreQuery.StudentLastNameAsc;
                           ScoreQuery.ScoreTypeAsc]))))
     | None =>
         GradingService.getClassSubjectScores classSubjectId w =
         (w, inl (Error "Class subject not found"))
     end).
Proof.
  split; [|split].
  - repeat split.
  - intros cs scores e He Hact Hnone.
    set (k := Student.id (Enrollment.student e)).
    assert (Hk : In k (enrolledIds (activeEnrollments cs))).
    { apply enrolledIds_In. exists e. split; [|reflexivity].
      apply filter_In. now split. }
    destruct (enrolledStudent_Some _ _ Hk) as [st Hst].
    exists st. split; [exact (enrolledStudent_id _ _ _ Hst)|].
    apply In_map_Some. rewrite classSubjectScores_entries.
    apply in_map_iff. exists k. split; [|exact Hk].
    cbn [withActiveEnrollments ClassSubject.enrollments].
    rewrite Hst. cbn [option_map].
    replace (groupOf Score.studentId k scores) with (@nil Score.t);
      [reflexivity|].
    symmetry. apply groupOf_nil_iff. rewrite in_map_iff.
    intros (s & Hs & Hin). exact (Hnone s Hin Hs).
  - intros World prisma w classSubjectId.
    unfold GradingService.getClassSubjectScores, bind, found, read, ret.
    destruct (classSubject_findUnique w classSubjectId) as [cs|];
      reflexivity.
Qed.

(** A class with one ACTIVE enrollment and no score row. *)
Lemma empty_group_is_zero_F_witness :
  let e := Enrollment.mk "enrollment-1" (Student.mk "student-1" "Ada" "Lee")
             "class-1" "year-1" "ACTIVE" in
  let cs := ClassSubject.mk "class-subject-1" (Class.mk "class-1" "1A") [e]
              (Subject.mk "subject-1" "Mathematics")
              (Semester.mk "semester-1" "S1") in
  exists st,
    Student.id st = "student-1" /\
    In (StudentGrade.mk st [] 0%float "F")
      (Gradebook.students (classSubjectScores (withActiveEnrollments cs) [])).
Proof.
  intros e cs.
  apply (proj1 (proj2 empty_group_is_zero_F) cs [] e).
  - left. reflexivity.
  - reflexivity.
  - intros s [].
Defined.

Lemma Forall2_of_map_Some {A B : Type} (f : A -> option B) ks l :
  map Some l = map f ks -> Forall2 (fun k r => f k = Some r) ks l.
Proof.
  revert l. induction ks as [|k ks IH]; intros [|r l] H; try discriminate.
  - constructor.
  - simpl in H. injection H as Hr Hl. constructor; [now symmetry | now apply IH].
Qed.

Lemma Forall2_Forall_r {A B : Type} (P : A -> B -> Prop) (Q : B -> Prop)
  ks l :
  (forall k r, P k r -> Q r) -> Forall2 P ks l -> Forall Q l.
Proof.
  intros HPQ H. induction H; constructor; eauto.
Qed.

(** C8.  The report card has exactly one entry per subject id that occurs
    in the rows of the query, in the order the ids are first met; the entry
    carries the relations of the first row of the subject and the views of
    all its rows.  A subject without a row has no entry, so no entry has an
    empty record list. *)
Theorem report_card_lists_subjects_with_scores :
  forall scores : list Score.t,
    Forall2
      (fun k r =>
         exists s0 g,
           groupOf Score.subjectId k scores = s0 :: g /\
           SubjectGrade.subject r = Score.subject s0 /\
           SubjectGrade.scores r = map scoreView (s0 :: g))
      (firstSeen (map Score.subjectId scores)) (studentGrades scores) /\
    NoDup (firstSeen (map Score.subjectId scores)) /\
    (forall k, In k (firstSeen (map Score.subjectId scores)) <->
               exists s, In s scores /\ Score.subjectId s = k) /\
    Forall (fun r => SubjectGrade.scores r <> []) (studentGrades scores).
Proof.
  intros scores.
  assert (H : Forall2
      (fun k r =>
         exists s0 g,
           groupOf Score.subjectId k scores = s0 :: g /\
           SubjectGrade.subject r = Score.subject s0 /\
           SubjectGrade.scores r = map scoreView (s0 :: g))
      (firstSeen (map Score.subjectId scores)) (studentGrades scores)).
  { eapply Forall2_impl;
      [|apply Forall2_of_map_Some, studentGrades_entries].
    intros k r. cbv beta. rewrite accumulateSubject_eq.
    destruct (groupOf Score.subjectId k scores) as [|s0 g]; [discriminate|].
    intros [= <-]. exists s0, g. repeat split. }
  repeat split.
  - exact H.
  - apply firstSeen_NoDup.
  - rewrite firstSeen_In, in_map_iff.
    intros (s & Hs & Hin). now exists s.
  - intros (s & Hin & Hs). rewrite firstSeen_In, in_map_iff. now exists s.
  - eapply Forall2_Forall_r; [|exact H].
    intros k r (s0 & g & _ & _ & ->). discriminate.
Qed.

Lemma Forall2_map_eq {A B : Type} (g : B -> A) ks l :
  Forall2 (fun k r => g r = k) ks l -> map g l = ks.
Proof. intros H. induction H; simpl; congruence. Qed.

Lemma enrolledStudent_NoDup es e :
  NoDup (map (fun e => Student.id (Enrollment.student e)) es) ->
  In e es ->
  enrolledStudent es (Student.id (Enrollment.student e)) =
  Some (Enrollment.student e).
Proof.
  unfold enrolledStudent.
  induction es as [|e' es IH] using rev_ind; intros Hnd Hin; [contradiction|].
  rewrite fold_left_app. cbn [fold_left].
  rewrite map_app in Hnd. cbn [map] in Hnd.
  apply in_app_iff in Hin as [Hin|[<-|[]]].
  - destruct (String.eqb_spec (Student.id (Enrollment.student e'))
                (Student.id (Enrollment.student e))) as [E|E].
    + exfalso. apply NoDup_remove_2 in Hnd. apply Hnd.
      rewrite app_nil_r, E.
      exact (in_map (fun e => Student.id (Enrollment.student e)) es e Hin).
    + apply IH; [|assumption].
      apply NoDup_remove_1 in Hnd. now rewrite app_nil_r in Hnd.
  - now rewrite String.eqb_refl.
Qed.

Lemma groupOf_filter_enrolled key ks k scores :
  In k ks ->
  groupOf key k (filter (fun s => existsb (String.eqb (key s)) ks) scores) =
  groupOf key k scores.
Proof.
  intros Hk. unfold groupOf.
  induction scores as [|s scores IH]; [reflexivity|].
  cbn [filter].
  destruct (String.eqb_spec (key s) k) as [E|E].
  - assert (X : existsb (String.eqb (key s)) ks = true)
      by (apply existsb_eqb_In; now rewrite E).
    rewrite X. cbn [filter].
    destruct (String.eqb_spec (key s) k); [|contradiction].
    now rewrite IH.
  - destruct (existsb (String.eqb (key s)) ks); [|exact IH].
    cbn [filter]. destruct (String.eqb_spec (key s) k); [contradiction|].
    exact IH.
Qed.

(** C9, as the code has it.  The grade book has exactly one entry per
    student id among the ACTIVE enrollments of the class, in the order the
    ids are first met (one per ACTIVE enrollment when no student has two of
    them); each entry lists the rows of its own student, and the rows of
    students without an ACTIVE enrollment change nothing in the output. *)
Theorem gradebook_one_entry_per_enrolled_student :
  forall (cs : ClassSubject.t) (scores : list Score.t),
    let es := activeEnrollments cs in
    let out :=
      Gradebook.students (classSubjectScores (withActiveEnrollments cs) scores)
    in
    map (fun r => Student.id (StudentGrade.student r)) out = enrolledIds es /\
    NoDup (enrolledIds es) /\
    (forall k, In k (enrolledIds es) <->
               exists e, In e (ClassSubject.enrollments cs) /\
                         isActive e = true /\
                         Student.id (Enrollment.student e) = k) /\
    (NoDup (map (fun e => Student.id (Enrollment.student e)) es) ->
     map StudentGrade.student out = map Enrollment.student es) /\
    map StudentGrade.scores out =
      map (fun k => map gradebookScore (groupOf Score.studentId k scores))
        (enrolledIds es) /\
    out =
      Gradebook.students
        (classSubjectScores (withActiveEnrollments cs)
           (filter (fun s => existsb (String.eqb (Score.studentId s))
                               (enrolledIds es))
              scores)).
Proof.
  intros cs scores es out.
  pose proof (classSubjectScores_entries (withActiveEnrollments cs) scores)
    as Hent.
  cbn [withActiveEnrollments ClassSubject.enrollments] in Hent.
  fold es in Hent. fold out in Hent.
  repeat split.
  - apply Forall2_map_eq.
    eapply Forall2_impl; [|apply Forall2_of_map_Some, Hent].
    intros k r. cbv beta.
    destruct (enrolledStudent es k) as [st|] eqn:E; [|discriminate].
    intros [= <-]. exact (enrolledStudent_id _ _ _ E).
  - apply firstSeen_NoDup.
  - intros Hk. apply enrolledIds_In in Hk as (e & He & Hid).
    apply filter_In in He as [He Hact]. now exists e.
  - intros (e & He & Hact & Hid). apply enrolledIds_In.
    exists e. split; [|assumption]. apply filter_In. now split.
  - intros Hnd.
    assert (Hout : out =
              map (fun e => studentEntry (Enrollment.student e)
                              (groupOf Score.studentId
                                 (Student.id (Enrollment.student e)) scores))
                es).
    { apply map_Some_inj. rewrite Hent. unfold enrolledIds.
      rewrite (firstSeen_NoDup_id _ Hnd), !map_map.
      apply map_ext_in. intros e He.
      now rewrite (enrolledStudent_NoDup es e Hnd He). }
    rewrite Hout, map_map. reflexivity.
  - apply (classSubjectScores_field StudentGrade.scores
             (map gradebookScore)).
    reflexivity.
  - apply map_Some_inj. rewrite Hent.
    rewrite (classSubjectScores_entries (withActiveEnrollments cs)).
    cbn [withActiveEnrollments ClassSubject.enrollments]. fold es.
    apply map_ext_in. intros k Hk.
    now rewrite groupOf_filter_enrolled.
Qed.

(** A student enrolled twice: the uniqueness of an enrollment is per
    student, class and academic year, so one class can hold two ACTIVE
    enrollments of one student.  The grade book then has a single entry. *)
Lemma two_enrollments_one_entry :
  let st := Student.mk "student-1" "Ada" "Lee" in
  let cs :=
    ClassSubject.mk "class-subject-1" (Class.mk "class-1" "1A")
      [Enrollment.mk "enrollment-1" st "class-1" "year-2024" "ACTIVE";
       Enrollment.mk "enrollment-2" st "class-1" "year-2025" "ACTIVE"]
      (Subject.mk "subject-1" "Mathematics") (Semester.mk "semester-1" "S1")
  in
  List.length (activeEnrollments cs) = 2%nat /\
  List.length
    (Gradebook.students (classSubjectScores (withActiveEnrollments cs) []))
  = 1%nat.
Proof. split; reflexivity. Qed.

(** Two students, one of them enrolled as INACTIVE with a score row of her
    own: one entry, and the row is dropped. *)
Lemma gradebook_one_entry_per_enrolled_student_witness :
  let ada := Student.mk "student-1" "Ada" "Lee" in
  let bob := Student.mk "student-2" "Bob" "Ray" in
  let cs :=
    ClassSubject.mk "class-subject-1" (Class.mk "class-1" "1A")
      [Enrollment.mk "enrollment-1" ada "class-1" "year-2024" "ACTIVE";
       Enrollment.mk "enrollment-2" bob "class-1" "year-2024" "INACTIVE"]
      (Subject.mk "subject-1" "Mathematics") (Semester.mk "semester-1" "S1")
  in
  let row :=
    Score.mk "score-1" "student-2" "class-subject-1" "subject-1" QUIZ
      4500 5000 100 None 0 (Subject.mk "subject-1" "Mathematics")
      (Class.mk "class-1" "1A") (Semester.mk "semester-1" "S1")
  in
  NoDup (map (fun e => Student.id (Enrollment.student e))
           (activeEnrollments cs)) /\
  map StudentGrade.student
    (Gradebook.students (classSubjectScores (withActiveEnrollments cs) [row]))
  = map Enrollment.student (activeEnrollments cs).
Proof.
  intros ada bob cs row.
  assert (H : NoDup (map (fun e => Student.id (Enrollment.student e))
                       (activeEnrollments cs))).
  { repeat constructor. simpl. tauto. }
  split; [exact H|].
  exact (proj1 (proj2 (proj2 (proj2
           (gradebook_one_entry_per_enrolled_student cs [row])))) H).
Defined.

Lemma gradeOfSubject_eq scores k :
  gradeOfSubject scores k =
  match groupOf Score.subjectId k scores with
  | [] => None
  | g => Some (aggregateFinalGrade g, letterGradeOf (aggregateFinalGrade g))
  end.
Proof.
  unfold gradeOfSubject.
  rewrite groupBySubject_get, accumulateSubject_eq.
  now destruct (groupOf Score.subjectId k scores).
Qed.

Lemma sumOf_app f g1 g2 :
  sumOf f (g1 ++ g2) = fold_left (fun acc s => (acc + f s)%float) g2 (sumOf f g1).
Proof. unfold sumOf. now rewrite fold_left_app. Qed.

(** A record that contributes [+0] may be inserted anywhere after records
    whose contributions have a clear sign bit: the sum is the same. *)
Lemma sumOf_insert_zero f g1 z g2 :
  Forall (fun s => sfUnsigned (Prim2SF (f s)) = true) g1 ->
  f z = 0%float ->
  sumOf f (g1 ++ z :: g2) = sumOf f (g1 ++ g2).
Proof.
  intros H1 Hz. rewrite !sumOf_app. cbn [fold_left].
  now rewrite Hz, (add_zero_r _ (sumOf_unsigned f g1 H1)).
Qed.

Lemma aggregate_insert_zero g1 z g2 :
  Forall validated g1 -> validated z -> Score.weight z = 0 ->
  aggregateFinalGrade (g1 ++ z :: g2) = aggregateFinalGrade (g1 ++ g2).
Proof.
  intros H1 Hz Hw.
  assert (Hws : totalWeightedScoreOf (g1 ++ z :: g2) =
                totalWeightedScoreOf (g1 ++ g2)).
  { apply sumOf_insert_zero.
    - eapply Forall_impl; [|exact H1]. apply contribution_unsigned.
    - now apply contribution_weight_0. }
  assert (Hwt : totalWeightOf (g1 ++ z :: g2) = totalWeightOf (g1 ++ g2)).
  { apply sumOf_insert_zero.
    - eapply Forall_impl; [|exact H1].
      intros s (_ & _ & Hs). apply Number_unsigned. lia.
    - now rewrite Hw. }
  unfold aggregateFinalGrade. now rewrite Hws, Hwt.
Qed.

Lemma totalWeightOf_zero g :
  Forall (fun s => Score.weight s = 0) g -> totalWeightOf g = 0%float.
Proof.
  unfold totalWeightOf. induction g as [|s g IH] using rev_ind; intros H.
  - reflexivity.
  - apply Forall_app in H as [Hg Hs]. inversion Hs as [|? ? Hw _]; subst.
    now rewrite sumOf_snoc, (IH Hg), Hw.
Qed.

Lemma groupOf_app key k l1 l2 :
  groupOf key k (l1 ++ l2) = groupOf key k l1 ++ groupOf key k l2.
Proof. apply filter_app. Qed.

(** C6.  Adding (or removing) a validated record of weight 0 anywhere among
    the rows of the report card leaves the final grade and the letter grade
    of every subject as they were, provided the rows before it are
    validated; a subject that exists only through that record gets 0 and
    'F', like the empty group.  A group whose records all have weight 0 has
    total weight 0, final grade 0 and letter grade 'F'. *)
Theorem zero_weight_neutrality :
  forall (before after : list Score.t) (z : Score.t) (k : string),
    Forall validated before -> validated z -> Score.weight z = 0 ->
    gradeOfSubject (before ++ z :: after) k =
      match gradeOfSubject (before ++ after) k with
      | Some grade => Some grade
      | None => if String.eqb (Score.subjectId z) k
                then Some (0%float, "F") else None
      end
    /\
    forall g : list Score.t,
      g <> [] ->
      Forall (fun s => Score.subjectId s = k /\ Score.weight s = 0) g ->
      totalWeightOf g = 0%float /\
      gradeOfSubject g k = Some (0%float, "F").
Proof.
  intros before after z k Hb Hz Hw. split.
  - rewrite !gradeOfSubject_eq, !groupOf_app.
    cbn [groupOf filter]. fold (groupOf Score.subjectId k after).
    destruct (String.eqb_spec (Score.subjectId z) k) as [E|E].
    + assert (Hg : Forall validated (groupOf Score.subjectId k before)).
      { apply Forall_forall. intros s Hs. apply filter_In in Hs as [Hs _].
        revert s Hs. now apply Forall_forall. }
      pose proof (aggregate_insert_zero _ z (groupOf Score.subjectId k after)
                    Hg Hz Hw) as Hagg.
      destruct (groupOf Score.subjectId k before) as [|b gb];
        destruct (groupOf Score.subjectId k after) as [|a ga];
        cbn [app] in *; rewrite ?Hagg; reflexivity.
    + now destruct (groupOf Score.subjectId k before ++
                    groupOf Score.subjectId k after).
  - intros g Hne Hg.
    assert (Hw0 : totalWeightOf g = 0%float).
    { apply totalWeightOf_zero. eapply Forall_impl; [|exact Hg].
      now intros s [_ H]. }
    split; [exact Hw0|].
    rewrite gradeOfSubject_eq.
    replace (groupOf Score.subjectId k g) with g.
    + destruct g as [|s g']; [contradiction|].
      unfold aggregateFinalGrade. rewrite Hw0. reflexivity.
    + unfold groupOf. symmetry. apply forallb_filter_id.
      apply forallb_forall. intros s Hs.
      apply String.eqb_eq. revert s Hs. apply Forall_forall.
      eapply Forall_impl; [|exact Hg]. now intros s [H _].
Qed.

(** Two validated rows of a subject and a validated row of weight 0 between
    them. *)
Lemma zero_weight_neutrality_witness :
  let row := fun id sc w =>
    Score.mk id "student-1" "class-subject-1" "subject-1" QUIZ sc 10000 w
      None 0 (Subject.mk "subject-1" "Mathematics") (Class.mk "class-1" "1A")
      (Semester.mk "semester-1" "S1") in
  gradeOfSubject ([row "score-1" 8000 30] ++ row "score-2" 5000 0
                    :: [row "score-3" 7000 70]) "subject-1" =
  Some (73%float, "C").
Proof.
  intros row.
  refine (eq_trans
            (proj1 (zero_weight_neutrality [row "score-1" 8000 30]
                      [row "score-3" 7000 70] (row "score-2" 5000 0)
                      "subject-1" _ _ _)) _).
  - repeat constructor; simpl; lia.
  - repeat constructor; simpl; lia.
  - reflexivity.
  - reflexivity.
Defined.

(** *** Validation *)

(** C10.  Nothing at the validation boundary compares the score with the
    maximum: a body with score 150, maxScore 100 and weight 1 is accepted
    as it is, and the row that stores these values, alone in its group, is
    reported with percentage 150 and final grade 150, above 100, and letter
    grade 'A'. *)
Theorem score_above_max_is_accepted :
  forall (formats : ZodFormats) (studentId classSubjectId subjectId : string),
    isUuid studentId = true -> isUuid classSubjectId = true ->
    isUuid subjectId = true ->
    createScoreSchema
      (scoreBody studentId classSubjectId subjectId 150%float 100%float 1%float)
    = inr (CreateScoreInput.mk studentId classSubjectId subjectId QUIZ
             150%float 100%float 1%float None None)
    /\
    (Number 15000 = 150%float /\ Number 10000 = 100%float /\
     Number 100 = 1%float) /\
    (forall id notes date subject class semester,
       map (fun r => (map ScoreView.percentage (SubjectGrade.scores r),
                      SubjectGrade.finalGrade r, SubjectGrade.letterGrade r))
         (studentGrades
            [Score.mk id studentId classSubjectId subjectId QUIZ
               15000 10000 100 notes date subject class semester])
       = [([150%float], 150%float, "A")]) /\
    Js.gt 150%float 100%float = true.
Proof.
  intros formats studentId classSubjectId subjectId H1 H2 H3.
  repeat split.
  unfold createScoreSchema, scoreBody, Zod.string_format.
  cbn [field JsObject.get String.eqb Ascii.eqb Bool.eqb].
  rewrite H1, H2, H3. reflexivity.
Qed.

Lemma score_above_max_is_accepted_witness :
  createScoreSchema (formats := exampleFormats)
    (scoreBody "5f0c1a9e-7b1d-4c3a-9e2f-0a1b2c3d4e5f"
       "0d9c8b7a-6f5e-4d3c-8b2a-19f8e7d6c5b4"
       "a1b2c3d4-e5f6-4789-8abc-def012345678"
       150%float 100%float 1%float)
  = inr (CreateScoreInput.mk "5f0c1a9e-7b1d-4c3a-9e2f-0a1b2c3d4e5f"
           "0d9c8b7a-6f5e-4d3c-8b2a-19f8e7d6c5b4"
           "a1b2c3d4-e5f6-4789-8abc-def012345678"
           QUIZ 150%float 100%float 1%float None None).
Proof.
  exact (proj1 (score_above_max_is_accepted exampleFormats
                  "5f0c1a9e-7b1d-4c3a-9e2f-0a1b2c3d4e5f"
                  "0d9c8b7a-6f5e-4d3c-8b2a-19f8e7d6c5b4"
                  "a1b2c3d4-e5f6-4789-8abc-def012345678"
                  eq_refl eq_refl eq_refl)).
Defined.

Lemma rejects_zap_l {A B : Type} (f : ZodResult (A -> B)) (a : ZodResult A) i :
  rejects f i -> rejects (zap f a) i.
Proof.
  intros (issues & -> & Hin). destruct a as [j|a]; simpl.
  - exists (issues ++ j). split; [reflexivity | apply in_or_app; now left].
  - now exists issues.
Qed.

Lemma rejects_zap_r {A B : Type} (f : ZodResult (A -> B)) (a : ZodResult A) i :
  rejects a i -> rejects (zap f a) i.
Proof.
  intros (issues & -> & Hin). destruct f as [j|f]; simpl.
  - exists (j ++ issues). split; [reflexivity | apply in_or_app; now right].
  - now exists issues.
Qed.

Lemma rejects_optional {A : Type}
  (inner : list PathItem -> JsValue -> ZodResult A) path x i :
  rejects (inner path (JNum x)) i ->
  rejects (Zod.optional inner path (JNum x)) i.
Proof.
  intros (issues & H & Hin). unfold Zod.optional. rewrite H.
  now exists issues.
Qed.

Section SchemaFacts.
Context {formats : ZodFormats}.

Lemma maxScoreSchema_rejects path x :
  Js.le x 0%float = true ->
  rejects (maxScoreSchema path (JNum x))
    (ZodIssue.mk path too_small (Some "Max score must be positive")).
Proof.
  intros H. unfold maxScoreSchema, Zod.number.
  rewrite (le_not_nan _ _ H).
  unfold Zod.runChecks, Zod.positive. cbn [flat_map]. rewrite H.
  eexists. split; [reflexivity | now left].
Qed.

Lemma scoreSchema_rejects path x :
  Js.lt x 0%float = true ->
  rejects (scoreSchema path (JNum x))
    (ZodIssue.mk path too_small (Some "Score cannot be negative")).
Proof.
  intros H. unfold scoreSchema, Zod.number.
  rewrite (lt_not_nan _ _ H).
  unfold Zod.runChecks, Zod.min. cbn [flat_map]. rewrite H.
  eexists. split; [reflexivity | now left].
Qed.

Lemma weightSchema_rejects_low path x :
  Js.lt x 0%float = true ->
  rejects (weightSchema path (JNum x)) (ZodIssue.mk path too_small None).
Proof.
  intros H. unfold weightSchema, Zod.number.
  rewrite (lt_not_nan _ _ H).
  unfold Zod.runChecks, Zod.min. cbn [flat_map]. rewrite H.
  eexists. split; [reflexivity | now left].
Qed.

Lemma weightSchema_rejects_high path x :
  Js.gt x 1%float = true ->
  rejects (weightSchema path (JNum x))
    (ZodIssue.mk path too_big (Some "Weight must be between 0 and 1")).
Proof.
  intros H. unfold weightSchema, Zod.number.
  rewrite (gt_not_nan _ _ H).
  unfold Zod.runChecks, Zod.min, Zod.max. cbn [flat_map]. rewrite H.
  destruct (Js.lt x 0%float); eexists; (split; [reflexivity|]);
    simpl; tauto.
Qed.
End SchemaFacts.

Section ValidationBoundary.
Context {World : Type} {prisma : PrismaClient World} {formats : ZodFormats}.

Lemma arrayItems_rejects {A : Type}
  (element : list PathItem -> JsValue -> ZodResult A) path items :
  forall start n v i,
    nth_error items n = Some v ->
    rejects (element (path ++ [Index (start + n)]) v) i ->
    rejects (Zod.arrayItems element path start items) i.
Proof.
  induction items as [|v0 items IH]; intros start n v i Hn Hr.
  - destruct n; discriminate.
  - cbn [Zod.arrayItems]. destruct n as [|n].
    + injection Hn as ->. rewrite Nat.add_0_r in Hr.
      apply rejects_zap_l, rejects_zap_r, Hr.
    + apply rejects_zap_r. apply (IH (S start) n v i Hn).
      now rewrite Nat.add_succ_comm.
Qed.

Lemma createScoreSchema_rejects o i :
  invalidScoreField o i -> rejects (createScoreSchema (JObj o)) i.
Proof.
  unfold createScoreSchema.
  intros [(x & Hf & Hx & ->)|[(x & Hf & Hx & ->)|[(x & Hf & Hx & ->)
         |(x & Hf & Hx & ->)]]]; rewrite Hf.
  - do 3 apply rejects_zap_l. apply rejects_zap_r.
    now apply maxScoreSchema_rejects.
  - do 4 apply rejects_zap_l. apply rejects_zap_r.
    now apply scoreSchema_rejects.
  - do 2 apply rejects_zap_l. apply rejects_zap_r.
    now apply weightSchema_rejects_low.
  - do 2 apply rejects_zap_l. apply rejects_zap_r.
    now apply weightSchema_rejects_high.
Qed.

Lemma updateScoreSchema_rejects o i :
  invalidScoreField o i -> rejects (updateScoreSchema (JObj o)) i.
Proof.
  unfold updateScoreSchema.
  intros [(x & Hf & Hx & ->)|[(x & Hf & Hx & ->)|[(x & Hf & Hx & ->)
         |(x & Hf & Hx & ->)]]]; rewrite Hf.
  - do 2 apply rejects_zap_l. apply rejects_zap_r, rejects_optional.
    now apply maxScoreSchema_rejects.
  - do 3 apply rejects_zap_l. apply rejects_zap_r, rejects_optional.
    now apply scoreSchema_rejects.
  - do 1 apply rejects_zap_l. apply rejects_zap_r, rejects_optional.
    now apply weightSchema_rejects_low.
  - do 1 apply rejects_zap_l. apply rejects_zap_r, rejects_optional.
    now apply weightSchema_rejects_high.
Qed.

Lemma bulkCreateScoresSchema_rejects o i :
  invalidBulkField o i -> rejects (bulkCreateScoresSchema (JObj o)) i.
Proof.
  unfold bulkCreateScoresSchema.
  intros [(x & Hf & Hx & ->)|[(x & Hf & Hx & ->)|[(x & Hf & Hx & ->)
         |(items & n & el & x & Hf & Hn & Hs & Hx & ->)]]]; rewrite Hf.
  - do 3 apply rejects_zap_l. apply rejects_zap_r.
    now apply maxScoreSchema_rejects.
  - do 2 apply rejects_zap_l. apply rejects_zap_r.
    now apply weightSchema_rejects_low.
  - do 2 apply rejects_zap_l. apply rejects_zap_r.
    now apply weightSchema_rejects_high.
  - do 1 apply rejects_zap_l. apply rejects_zap_r.
    unfold Zod.array.
    apply (arrayItems_rejects _ _ _ 0%nat n (JObj el)); [assumption|].
    unfold bulkScoreSchema. rewrite Hs.
    do 1 apply rejects_zap_l. apply rejects_zap_r.
    cbn [Nat.add app]. now apply scoreSchema_rejects.
Qed.

(** A body the schema refuses never reaches the service: the controller
    answers 422 and the store is the one it was given. *)
Lemma respond_rejected {A B C : Type} (schema : JsValue -> ZodResult A)
  (service : A -> M World B) (ok : B -> Response C) code body issues
  (w : World) :
  schema body = inl issues ->
  GradingController.respond
    (validatedData <- GradingController.parse schema body ;;
     service validatedData) ok code w =
  (w, errorResponse "VALIDATION_ERROR" "Invalid input" 422 (Some issues)).
Proof.
  intros H. unfold GradingController.respond, GradingController.parse, bind.
  rewrite H. reflexivity.
Qed.
End ValidationBoundary.

(** C5.  A creation, bulk-creation or update request (with the user the
    router attached) whose body carries a non-positive [maxScore], a
    negative [score] or a [weight] outside [0, 1] is answered with
    [VALIDATION_ERROR], status 422, whatever the other keys hold; the
    details list the issue of that field, the service is not called and the
    store is left as it was. *)
Theorem invalid_score_is_rejected_with_422 :
  forall (World : Type) (prisma : PrismaClient World) (formats : ZodFormats)
         (w : World) (user : AuthUser.t) (id : string)
         (o : list (string * JsValue)) (i : ZodIssue.t),
    (invalidScoreField o i ->
     (exists issues,
        In i issues /\
        GradingController.createScore (Request.mk (Some user) id (JObj o)) w =
        (w, errorResponse "VALIDATION_ERROR" "Invalid input" 422
              (Some issues))) /\
     (exists issues,
        In i issues /\
        GradingController.updateScore (Request.mk (Some user) id (JObj o)) w =
        (w, errorResponse "VALIDATION_ERROR" "Invalid input" 422
              (Some issues)))) /\
    (invalidBulkField o i ->
     exists issues,
       In i issues /\
       GradingController.bulkCreateScores
         (Request.mk (Some user) id (JObj o)) w =
       (w, errorResponse "VALIDATION_ERROR" "Invalid input" 422
             (Some issues))).
Proof.
  intros World prisma formats w user id o i. split; [intros H; split|intros H].
  - destruct (createScoreSchema_rejects o i H) as (issues & Hs & Hin).
    exists issues. split; [assumption|].
    unfold GradingController.createScore, GradingController.authenticated.
    cbn [Request.user Request.body].
    now apply respond_rejected.
  - destruct (updateScoreSchema_rejects o i H) as (issues & Hs & Hin).
    exists issues. split; [assumption|].
    unfold GradingController.updateScore, GradingController.authenticated.
    cbn [Request.user Request.body].
    now apply respond_rejected.
  - destruct (bulkCreateScoresSchema_rejects o i H) as (issues & Hs & Hin).
    exists issues. split; [assumption|].
    unfold GradingController.bulkCreateScores,
      GradingController.authenticated.
    cbn [Request.user Request.body].
    now apply respond_rejected.
Qed.

(** The store in memory accepts a valid creation: the row is appended. *)
Example valid_score_is_created :
  let ids := scoreBody (Student.id theStudent)
               (ClassSubject.id theClassSubject) (Subject.id theSubject) in
  exists row,
    GradingController.createScore (prisma := memoryStore)
      (formats := exampleFormats)
      (Request.mk (Some (AuthUser.mk "user-1" "t@school.la" "TEACHER")) ""
         (ids 45%float 50%float 1%float)) [] =
    ([row], successResponse row "Score created successfully" (Some 201)) /\
    (Score.score row, Score.maxScore row, Score.weight row)
    = (4500, 5000, 100).
Proof. eexists. split; reflexivity. Qed.

(** The same creation request with [maxScore = 0], on a store that holds a
    row: the answer is 422 and the store still holds that row only. *)
Lemma invalid_score_is_rejected_with_422_witness :
  let o := [("studentId", JStr (Student.id theStudent));
            ("classSubjectId", JStr (ClassSubject.id theClassSubject));
            ("subjectId", JStr (Subject.id theSubject));
            ("scoreType", JStr "QUIZ");
            ("score", JNum 45%float);
            ("maxScore", JNum 0%float);
            ("weight", JNum 1%float)] in
  let i := ZodIssue.mk [Key "maxScore"] too_small
             (Some "Max score must be positive") in
  let stored :=
    [Score.mk "score-0" (Student.id theStudent)
       (ClassSubject.id theClassSubject) (Subject.id theSubject) QUIZ
       4500 5000 100 None 0 theSubject (ClassSubject.class theClassSubject)
       (ClassSubject.semester theClassSubject)] in
  invalidScoreField o i /\
  exists issues,
    In i issues /\
    GradingController.createScore (prisma := memoryStore)
      (formats := exampleFormats)
      (Request.mk (Some (AuthUser.mk "user-1" "t@school.la" "TEACHER"))
         "" (JObj o)) stored =
    (stored,
     errorResponse "VALIDATION_ERROR" "Invalid input" 422 (Some issues)).
Proof.
  intros o i stored.
  assert (H : invalidScoreField o i).
  { left. exists 0%float. repeat split. }
  split; [exact H|].
  exact (proj1 (proj1 (invalid_score_is_rejected_with_422 (list Score.t)
                         memoryStore exampleFormats stored
                         (AuthUser.mk "user-1" "t@school.la" "TEACHER")
                         "" o i) H)).
Defined.

(** Row lists with the same groups have the same keys, in some order. *)
Lemma same_groups_same_keys (key : Score.t -> string) scores scores' :
  (forall k, groupOf key k scores = groupOf key k scores') ->
  Permutation (firstSeen (map key scores)) (firstSeen (map key scores')).
Proof.
  intros Hg.
  apply NoDup_Permutation; try apply firstSeen_NoDup.
  intros k. rewrite !firstSeen_In.
  pose proof (groupOf_nil_iff key k scores) as H1.
  pose proof (groupOf_nil_iff key k scores') as H2.
  rewrite (Hg k) in H1.
  destruct (in_dec string_dec k (map key scores)) as [Hi|Hi],
           (in_dec string_dec k (map key scores')) as [Hj|Hj]; tauto.
Qed.

Lemma Permutation_map_Some {A : Type} (l l' : list A) :
  Permutation (map Some l) (map Some l') -> Permutation l l'.
Proof.
  intros H. apply Permutation_map_inv in H as (l3 & E & HP).
  apply map_Some_inj in E. subst l3. now symmetry.
Qed.

Lemma studentGrades_of_groups scores scores' :
  (forall k, groupOf Score.subjectId k scores =
             groupOf Score.subjectId k scores') ->
  Permutation (studentGrades scores) (studentGrades scores') /\
  (firstSeen (map Score.subjectId scores) =
   firstSeen (map Score.subjectId scores') ->
   studentGrades scores = studentGrades scores').
Proof.
  intros Hg.
  assert (He : map Some (studentGrades scores') =
               map (fun k => option_map subjectGrade
                       (accumulateSubject (groupOf Score.subjectId k scores)))
                 (firstSeen (map Score.subjectId scores'))).
  { rewrite studentGrades_entries. apply map_ext. intros k. now rewrite Hg. }
  split.
  - apply Permutation_map_Some.
    rewrite studentGrades_entries, He.
    apply Permutation_map. now apply same_groups_same_keys.
  - intros Hk. apply map_Some_inj.
    now rewrite studentGrades_entries, He, Hk.
Qed.

Lemma classSubjectScores_of_groups cs scores scores' :
  (forall k, groupOf Score.studentId k scores =
             groupOf Score.studentId k scores') ->
  classSubjectScores cs scores = classSubjectScores cs scores'.
Proof.
  intros Hg.
  assert (Hs : Gradebook.students (classSubjectScores cs scores) =
               Gradebook.students (classSubjectScores cs scores')).
  { apply map_Some_inj. rewrite !classSubjectScores_entries.
    apply map_ext. intros k. now rewrite Hg. }
  unfold classSubjectScores in *. cbn [Gradebook.students] in Hs.
  now rewrite Hs.
Qed.

(** C7.  The report card is a function of the rows its query returns, in
    the order it returns them: the call reads the store and leaves it as it
    was, its result is [studentGrades] of those rows (or the error for an
    unknown student), and two calls in a row from one state of the store
    give the same output, also with a call of the grade book in between;
    the same holds for the grade book.  Of the order of the rows only the
    order within each group matters: two row lists with the same rows of
    every subject, in the same order, give the same entries (in the same
    order when the subjects are first met in the same order), and two row
    lists with the same rows of every student give the same grade book.
    Nothing else (no earlier call, no state kept by the service) enters the
    result. *)
Theorem grade_aggregation_is_deterministic :
  forall (World : Type) (prisma : PrismaClient World)
         (studentId : string) (semesterId : option string)
         (classSubjectId : string) (w : World),
    let report := GradingService.getStudentGrades studentId semesterId in
    let book := GradingService.getClassSubjectScores classSubjectId in
    report w =
      (w, match student_findUnique w studentId with
          | Some _ =>
              inr (studentGrades
                     (score_findMany w
                        (ScoreQuery.mk (Some studentId) None
                           (if truthy semesterId then semesterId else None)
                           [])))
          | None => inl (Error "Student not found")
          end) /\
    (first <- report ;; second <- report ;; ret (first, second)) w =
      (w, match snd (report w) with
          | inr grades => inr (grades, grades)
          | inl error => inl error
          end) /\
    fst (book w) = w /\
    (first <- book ;; second <- book ;; ret (first, second)) w =
      (w, match snd (book w) with
          | inr grades => inr (grades, grades)
          | inl error => inl error
          end) /\
    (first <- report ;; _ <- book ;; second <- report ;; ret (first, second)) w
      = (w, match snd (report w), snd (book w) with
            | inr grades, inr _ => inr (grades, grades)
            | inl error, _ => inl error
            | inr _, inl error => inl error
            end) /\
    (forall scores scores' : list Score.t,
       (forall k, groupOf Score.subjectId k scores =
                  groupOf Score.subjectId k scores') ->
       Permutation (studentGrades scores) (studentGrades scores') /\
       (firstSeen (map Score.subjectId scores) =
        firstSeen (map Score.subjectId scores') ->
        studentGrades scores = studentGrades scores')) /\
    (forall (cs : ClassSubject.t) (scores scores' : list Score.t),
       (forall k, groupOf Score.studentId k scores =
                  groupOf Score.studentId k scores') ->
       classSubjectScores cs scores = classSubjectScores cs scores').
Proof.
  intros World prisma studentId semesterId classSubjectId w report book.
  assert (Hr : report w =
    (w, match student_findUnique w studentId with
        | Some _ =>
            inr (studentGrades
                   (score_findMany w
                      (ScoreQuery.mk (Some studentId) None
                         (if truthy semesterId then semesterId else None)
                         [])))
        | None => inl (Error "Student not found")
        end)).
  { unfold report, GradingService.getStudentGrades, bind, found, read, ret.
    cbv beta. now destruct (student_findUnique w studentId). }
  assert (Hb : exists r, book w = (w, r)).
  { unfold book, GradingService.getClassSubjectScores, bind, found, read, ret.
    cbv beta.
    destruct (classSubject_findUnique w classSubjectId); cbn [option_map];
      eexists; reflexivity. }
  destruct Hb as [rb Hb].
  set (rr := match student_findUnique w studentId with
             | Some _ => _
             | None => _
             end) in *.
  clearbody rr.
  split; [exact Hr|].
  split.
  { unfold bind. rewrite Hr. cbn [snd].
    destruct rr as [e|g]; [reflexivity|].
    rewrite Hr. reflexivity. }
  split; [now rewrite Hb|].
  split.
  { unfold bind. rewrite Hb. cbn [snd].
    destruct rb as [e|g]; [reflexivity|].
    rewrite Hb. reflexivity. }
  split.
  { unfold bind. rewrite Hr. cbn [snd].
    destruct rr as [e|g]; [reflexivity|].
    rewrite Hb. cbn [snd].
    destruct rb as [e|g']; [reflexivity|].
    rewrite Hr. reflexivity. }
  split.
  - apply studentGrades_of_groups.
  - apply classSubjectScores_of_groups.
Qed.

(** Rows of two subjects, met in two interleavings that keep the order
    within each subject: the report card is the same. *)
Lemma grade_aggregation_is_deterministic_witness :
  let other := Subject.mk "subject-2" "Physics" in
  let a := storedRow "score-1" 8657 10000 25 in
  let b := Score.mk "score-2" (Student.id theStudent)
             (ClassSubject.id theClassSubject) (Subject.id other) QUIZ
             7000 10000 100 None 0 other
             (ClassSubject.class theClassSubject)
             (ClassSubject.semester theClassSubject) in
  let c := storedRow "score-3" 8978 10000 50 in
  (forall k, groupOf Score.subjectId k [a; b; c] =
             groupOf Score.subjectId k [a; c; b]) /\
  studentGrades [a; b; c] = studentGrades [a; c; b].
Proof.
  intros other a b c.
  assert (Hg : forall k, groupOf Score.subjectId k [a; b; c] =
                         groupOf Score.subjectId k [a; c; b]).
  { intros k. unfold groupOf. cbn [filter].
    destruct (Score.subjectId a =? k)%string,
             (Score.subjectId b =? k)%string eqn:Eb; try reflexivity.
    all: change (Score.subjectId c) with (Score.subjectId a).
    all: destruct (Score.subjectId a =? k)%string eqn:Ea; try reflexivity.
    all: apply String.eqb_eq in Ea, Eb; rewrite <- Eb in Ea; discriminate. }
  split; [exact Hg|].
  exact (proj2 (proj1 (proj2 (proj2 (proj2 (proj2 (proj2
           (grade_aggregation_is_deterministic (list Score.t) memoryStore
              (Student.id theStudent) None
              (ClassSubject.id theClassSubject) [])))))) _ _ Hg) eq_refl).
Defined.

(** Three validated rows of one subject, stored in two orders: the report
    card of the first store gives 90 and 'A', that of the second 89.99 and
    'B'. *)
Lemma the_order_of_the_rows_decides_the_grade :
  let a := storedRow "score-1" 8657 10000 25 in
  let b := storedRow "score-2" 9385 10000 25 in
  let c := storedRow "score-3" 8978 10000 50 in
  let report := GradingService.getStudentGrades (prisma := memoryStore)
                  (Student.id theStudent) None in
  let grades := fun result : JsError.t + list SubjectGrade.t =>
    match result with
    | inr entries =>
        map (fun r => (SubjectGrade.finalGrade r, SubjectGrade.letterGrade r))
          entries
    | inl _ => []
    end in
  Forall validated [a; b; c] /\
  Permutation [a; b; c] [b; c; a] /\
  grades (snd (report [a; b; c])) = [(Number 9000, "A")] /\
  grades (snd (report [b; c; a])) = [(Number 8999, "B")].
Proof.
  intros a b c report grades. split; [|split; [|split]].
  - repeat constructor; simpl; lia.
  - apply (Permutation_cons_append [b; c] a).
  - reflexivity.
  - reflexivity.
Qed.

(** ** Further properties: the two views *)

Lemma filter_split_Permutation {A : Type} (f : A -> bool) (l : list A) :
  Permutation (filter f l ++ filter (fun x => negb (f x)) l) l.
Proof.
  induction l as [|a l IH]; cbn [filter]; [constructor|].
  destruct (f a); cbn [negb app].
  - now constructor.
  - symmetry. apply Permutation_cons_app. now symmetry.
Qed.

Lemma groupOf_without key k k' (l : list Score.t) :
  k' <> k ->
  groupOf key k' (filter (fun s => negb (String.eqb (key s) k)) l) =
  groupOf key k' l.
Proof.
  intros Hne. unfold groupOf.
  induction l as [|s l IH]; [reflexivity|]. cbn [filter].
  destruct (String.eqb_spec (key s) k) as [E|E]; cbn [negb filter].
  - destruct (String.eqb_spec (key s) k'); [congruence | exact IH].
  - destruct (String.eqb (key s) k'); now rewrite IH.
Qed.

(** Rows whose keys lie among distinct [ks] are, group after group, the rows
    themselves in another order. *)
Lemma groups_Permutation key ks :
  NoDup ks ->
  forall l : list Score.t,
    (forall s, In s l -> In (key s) ks) ->
    Permutation (List.concat (map (fun k => groupOf key k l) ks)) l.
Proof.
  induction 1 as [|k ks Hk Hnd IH]; intros l Hl.
  - destruct l as [|s l]; [constructor|]. destruct (Hl s (or_introl eq_refl)).
  - cbn [map List.concat].
    set (rest := filter (fun s => negb (String.eqb (key s) k)) l).
    assert (Hmap : map (fun k' => groupOf key k' l) ks =
                   map (fun k' => groupOf key k' rest) ks).
    { apply map_ext_in. intros k' Hk'. symmetry. apply groupOf_without.
      intros ->. contradiction. }
    rewrite Hmap.
    eapply Permutation_trans;
      [apply Permutation_app_head, (IH rest) | apply filter_split_Permutation].
    intros s Hs. apply filter_In in Hs as [Hs Hne].
    destruct (Hl s Hs) as [E|H]; [|exact H].
    rewrite <- E, String.eqb_refl in Hne. discriminate.
Qed.

Lemma ofEnrolled_eq es scores :
  ofEnrolled es scores =
  filter (fun s => existsb (String.eqb (Score.studentId s)) (enrolledIds es))
    scores.
Proof.
  unfold ofEnrolled. apply filter_ext. intros s.
  apply eq_true_iff_eq. rewrite !existsb_eqb_In. unfold enrolledIds.
  now rewrite firstSeen_In.
Qed.

(** X1.  The report card loses no row and repeats none: the per-record
    views of its entries, taken together, are the views of the rows of the
    query in another order.  The grade book does the same for the rows whose
    student has an enrollment in the list it was given, and for those
    only. *)
Theorem every_row_is_reported_once :
  forall (scores : list Score.t) (cs : ClassSubject.t),
    Permutation
      (List.concat (map SubjectGrade.scores (studentGrades scores)))
      (map scoreView scores) /\
    Permutation
      (List.concat (map StudentGrade.scores
                 (Gradebook.students (classSubjectScores cs scores))))
      (map gradebookScore (ofEnrolled (ClassSubject.enrollments cs) scores)).
Proof.
  intros scores cs. split.
  - rewrite (studentGrades_field SubjectGrade.scores (map scoreView))
      by reflexivity.
    rewrite <- (map_map (fun k => groupOf Score.subjectId k scores)
                  (map scoreView)), <- List.concat_map.
    apply Permutation_map, groups_Permutation; [apply firstSeen_NoDup|].
    intros s Hs. apply firstSeen_In. now apply in_map.
  - rewrite (classSubjectScores_field StudentGrade.scores (map gradebookScore))
      by reflexivity.
    set (es := ClassSubject.enrollments cs).
    rewrite <- (map_map (fun k => groupOf Score.studentId k scores)
                  (map gradebookScore)), <- List.concat_map.
    apply Permutation_map. rewrite ofEnrolled_eq.
    set (kept := filter _ scores).
    assert (Hmap : map (fun k => groupOf Score.studentId k scores)
                     (enrolledIds es) =
                   map (fun k => groupOf Score.studentId k kept)
                     (enrolledIds es)).
    { apply map_ext_in. intros k Hk. symmetry.
      now apply groupOf_filter_enrolled. }
    rewrite Hmap. apply groups_Permutation; [apply firstSeen_NoDup|].
    intros s Hs. apply filter_In in Hs as [_ Hs].
    now apply existsb_eqb_In.
Qed.

(** *** One more row *)

Section SetFacts.
Context {V : Type}.
Implicit Types (o : JsObject.t V) (k : string) (v : V).

(** Writing under a key replaces its value in place, or adds one at the
    end. *)
Lemma values_set o k v :
  match JsObject.get o k with
  | Some old =>
      exists before after,
        JsObject.values o = before ++ old :: after /\
        JsObject.values (JsObject.set o k v) = before ++ v :: after
  | None => JsObject.values (JsObject.set o k v) = JsObject.values o ++ [v]
  end.
Proof.
  induction o as [|[k0 v0] o IH]; cbn [JsObject.get JsObject.set].
  - reflexivity.
  - destruct (String.eqb k0 k).
    + exists [], (JsObject.values o). split; reflexivity.
    + destruct (JsObject.get o k) as [old|].
      * destruct IH as (before & after & H1 & H2).
        exists (v0 :: before), after.
        unfold JsObject.values in *. cbn [map snd]. rewrite H1, H2.
        split; reflexivity.
      * unfold JsObject.values in *. cbn [map snd]. now rewrite IH.
Qed.
End SetFacts.

(** X2.  One more row at the end of the rows of the query changes one entry
    of the report card.  When its subject has rows already, the entry of
    that subject stays where it is, keeps its subject, class and semester,
    gets the view of the row after the views it had, and its totals are
    those of the longer group; the entries before and after it are the same.
    When its subject is new, the entry of the row alone is added after the
    others. *)
Theorem a_new_row_changes_one_entry :
  forall (scores : list Score.t) (s : Score.t),
    match groupOf Score.subjectId (Score.subjectId s) scores with
    | [] =>
        studentGrades (scores ++ [s]) =
        studentGrades scores ++
        [SubjectGrade.mk (Score.subject s) (Score.class s) (Score.semester s)
           [scoreView s] (aggregateFinalGrade [s])
           (letterGradeOf (aggregateFinalGrade [s])) (totalWeightOf [s])]
    | s0 :: g =>
        exists before old after,
          studentGrades scores = before ++ old :: after /\
          SubjectGrade.scores old = map scoreView (s0 :: g) /\
          studentGrades (scores ++ [s]) =
          before ++
          SubjectGrade.mk (SubjectGrade.subject old) (SubjectGrade.class old)
            (SubjectGrade.semester old)
            (SubjectGrade.scores old ++ [scoreView s])
            (aggregateFinalGrade (s0 :: g ++ [s]))
            (letterGradeOf (aggregateFinalGrade (s0 :: g ++ [s])))
            (totalWeightOf (s0 :: g ++ [s]))
          :: after
    end.
Proof.
  intros scores s. unfold studentGrades.
  rewrite groupBySubject_snoc. unfold groupStep.
  pose proof (values_set (groupBySubject scores) (Score.subjectId s)
                (pushScore
                   (match JsObject.get (groupBySubject scores)
                            (Score.subjectId s) with
                    | Some d => d
                    | None => newSubjectData s
                    end) s)) as H.
  rewrite groupBySubject_get, accumulateSubject_eq in *.
  destruct (groupOf Score.subjectId (Score.subjectId s) scores)
    as [|s0 g] eqn:E.
  - rewrite H, map_app. reflexivity.
  - destruct H as (before & after & H1 & H2).
    eexists (map subjectGrade before), _, (map subjectGrade after).
    rewrite H1, H2, !map_app. cbn [map].
    split; [reflexivity|]. split; [reflexivity|].
    f_equal. f_equal.
    unfold subjectGrade, pushScore, finalGradeOf, aggregateFinalGrade.
    cbn [SubjectData.subject SubjectData.class SubjectData.semester
         SubjectData.scores SubjectData.totalWeightedScore
         SubjectData.totalWeight SubjectGrade.subject SubjectGrade.class
         SubjectGrade.semester SubjectGrade.scores].
    change (s0 :: g ++ [s]) with ((s0 :: g) ++ [s]).
    unfold totalWeightedScoreOf, totalWeightOf.
    rewrite !sumOf_snoc. reflexivity.
Qed.

(** X3.  The report card groups by subject id and by nothing else.  Every
    row is listed in the entry of its subject id, together with all the rows
    of that subject id, whatever their class subject; the entry shows the
    subject, the class and the semester of the first of these rows, the
    plain sum of their weights as [totalWeight], and the final grade of the
    whole group. *)
Theorem report_card_merges_rows_of_a_subject :
  forall (scores : list Score.t) (s : Score.t),
    In s scores ->
    exists r s0 g,
      groupOf Score.subjectId (Score.subjectId s) scores = s0 :: g /\
      In r (studentGrades scores) /\
      SubjectGrade.scores r = map scoreView (s0 :: g) /\
      In (scoreView s) (SubjectGrade.scores r) /\
      SubjectGrade.subject r = Score.subject s0 /\
      SubjectGrade.class r = Score.class s0 /\
      SubjectGrade.semester r = Score.semester s0 /\
      SubjectGrade.totalWeight r = totalWeightOf (s0 :: g) /\
      SubjectGrade.finalGrade r = aggregateFinalGrade (s0 :: g).
Proof.
  intros scores s Hs.
  set (k := Score.subjectId s).
  assert (Hin : In s (groupOf Score.subjectId k scores)).
  { apply filter_In. split; [assumption | apply String.eqb_refl]. }
  destruct (groupOf Score.subjectId k scores) as [|s0 g] eqn:E;
    [contradiction|].
  exists (subjectGrade
            (SubjectData.mk (Score.subject s0) (Score.class s0)
               (Score.semester s0) (map scoreView (s0 :: g))
               (totalWeightedScoreOf (s0 :: g)) (totalWeightOf (s0 :: g)))),
    s0, g.
  repeat split.
  - apply In_map_Some. rewrite studentGrades_entries.
    apply in_map_iff. exists k. split.
    + now rewrite E, accumulateSubject_eq.
    + apply firstSeen_In. now apply in_map.
  - cbn [subjectGrade SubjectGrade.scores SubjectData.scores].
    now apply in_map.
Qed.

Lemma report_card_merges_rows_of_a_subject_witness :
  let row := fun id class semester =>
    Score.mk id "student-1" "class-subject-1" "subject-1" QUIZ 8000 10000 50
      None 0 (Subject.mk "subject-1" "Mathematics") class semester in
  let first := row "score-1" (Class.mk "class-1" "1A")
                 (Semester.mk "semester-1" "S1") in
  let second := row "score-2" (Class.mk "class-2" "2A")
                  (Semester.mk "semester-2" "S2") in
  exists r s0 g,
    groupOf Score.subjectId "subject-1" [first; second] = s0 :: g /\
    In r (studentGrades [first; second]) /\
    SubjectGrade.scores r = map scoreView (s0 :: g) /\
    In (scoreView second) (SubjectGrade.scores r) /\
    SubjectGrade.subject r = Score.subject s0 /\
    SubjectGrade.class r = Score.class s0 /\
    SubjectGrade.semester r = Score.semester s0 /\
    SubjectGrade.totalWeight r = totalWeightOf (s0 :: g) /\
    SubjectGrade.finalGrade r = aggregateFinalGrade (s0 :: g).
Proof.
  intros row first second.
  apply (report_card_merges_rows_of_a_subject [first; second] second).
  right. left. reflexivity.
Defined.

(** *** Monotone letters *)

Lemma ge_of_le x y c :
  Js.le x y = true -> Js.ge x c = true -> Js.ge y c = true.
Proof.
  unfold Js.le, Js.ge. rewrite !FloatAxioms.leb_spec.
  intros H1 H2. eapply SFleb_trans; eassumption.
Qed.

(** X4.  The letter follows the final grade: when [x <= y] the letter of
    [y] is at least as good as the letter of [x], in the order F, D, C, B,
    A. *)
Theorem letterGrade_is_monotone :
  forall x y : Js.number,
    Js.le x y = true ->
    (letterRank (letterGradeOf x) <= letterRank (letterGradeOf y))%nat.
Proof.
  intros x y Hle.
  pose proof (ge_of_le x y 90%float Hle) as H90.
  pose proof (ge_of_le x y 80%float Hle) as H80.
  pose proof (ge_of_le x y 70%float Hle) as H70.
  pose proof (ge_of_le x y 60%float Hle) as H60.
  unfold letterGradeOf.
  destruct (Js.ge x 90%float), (Js.ge x 80%float), (Js.ge x 70%float),
    (Js.ge x 60%float);
    try (rewrite (H90 eq_refl)); try (rewrite (H80 eq_refl));
    try (rewrite (H70 eq_refl)); try (rewrite (H60 eq_refl));
    destruct (Js.ge y 90%float), (Js.ge y 80%float), (Js.ge y 70%float),
      (Js.ge y 60%float); cbv; lia.
Qed.

Lemma letterGrade_is_monotone_witness :
  Js.le (Number 5999) (Number 6000) = true /\
  le (letterRank (letterGradeOf (Number 5999)))
    (letterRank (letterGradeOf (Number 6000))).
Proof.
  split; [reflexivity|].
  apply (letterGrade_is_monotone (Number 5999) (Number 6000)). reflexivity.
Defined.

(** *** Finite numbers *)

Lemma sfFiniteUpTo_le E E' x : E <= E' -> sfFiniteUpTo E x -> sfFiniteUpTo E' x.
Proof. destruct x; simpl; try tauto. intros H [-> He]. split; [reflexivity | lia]. Qed.

Lemma sfFiniteUpTo_nonneg E x : sfFiniteUpTo E x -> sfNonneg x = true.
Proof. destruct x as [s|s| |s m e]; simpl; try tauto; [now intros -> | now intros [-> _]]. Qed.

Lemma sfFiniteUpTo_is_finite E x :
  sfFiniteUpTo E (Prim2SF x) -> is_finite x = true.
Proof.
  intros H. unfold is_finite, is_nan, is_infinity.
  rewrite !FloatAxioms.eqb_spec, abs_spec.
  destruct (Prim2SF x) as [s|s| |s m e]; simpl in H; try contradiction.
  - subst. reflexivity.
  - destruct H as [-> _]. unfold SFeqb. simpl.
    now rewrite Z.compare_refl, Pos.compare_cont_refl.
Qed.

(** An integer below 2^63 converts to zero or a positive finite number. *)
Lemma ofZ_finite z : 0 <= z -> sfFiniteUpTo 11 (Prim2SF (Js.ofZ z)).
Proof.
  intros Hz. destruct z as [|p|p]; [reflexivity| |lia].
  unfold Js.ofZ. rewrite of_uint63_spec.
  pose proof (Uint63.to_Z_bounded (Uint63.of_Z (Zpos p))) as [Hb Hw].
  destruct (Uint63.to_Z (Uint63.of_Z (Zpos p))) as [|q|q];
    [reflexivity| |lia].
  cbn [binary_normalize]. unfold binary_round.
  assert (Dq : Zpos (digits2_pos q) <= 63).
  { change (Zpos (digits2_pos q)) with (Zdigits2 (Zpos q)).
    apply Zdigits2_le; [lia|]. split; [lia | exact Hw]. }
  pose proof (shl_align_digits q 0
                (fexp prec emax (Zpos (digits2_pos q) + 0))) as [A1 A2].
  destruct (shl_align q 0 _) as [mz ez]. simpl fst in *; simpl snd in *.
  pose proof (binary_round_aux_tight false (Zpos mz) ez loc_Exact
                ltac:(lia)) as H.
  simpl Zdigits2 in H. specialize (H ltac:(lia)).
  destruct (binary_round_aux prec emax false (Zpos mz) ez loc_Exact);
    simpl; try assumption.
  split; [tauto | lia].
Qed.

Lemma Math_round_finite E x :
  11 <= E -> sfFiniteUpTo E (Prim2SF x) ->
  sfFiniteUpTo E (Prim2SF (Js.Math_round x)).
Proof.
  intros HE H. unfold Js.Math_round.
  destruct (Prim2SF x) as [s|s| |s m [|k|k]] eqn:Ex;
    rewrite ?Ex; try assumption.
  simpl in H. destruct H as [-> _].
  apply (sfFiniteUpTo_le 11); [assumption|]. apply ofZ_finite.
  assert (0 < Z.pow_pos 2 k)
    by (change (Z.pow_pos 2 k) with (2 ^ Zpos k);
        apply Z.pow_pos_nonneg; lia).
  apply Z.div_pos; lia.
Qed.

Lemma round2_finite E x :
  -1028 <= E <= 600 -> sfFiniteUpTo E (Prim2SF x) ->
  sfFiniteUpTo (Z.max 164 (E + 214)) (Prim2SF (round2 x)).
Proof.
  intros HE H. unfold round2.
  assert (Hm : sfFiniteUpTo (E + 61) (Prim2SF (x * 100)%float)).
  { rewrite FloatAxioms.mul_spec.
    pose proof (Prim2SF_valid x) as Vx.
    replace (E + 61) with (E + (-46) + 107) by lia.
    apply SFmul_finite; try assumption; try reflexivity; try lia.
    rewrite Prim2SF_100. simpl. split; [reflexivity | lia]. }
  apply (sfFiniteUpTo_le _ (Z.max 11 (E + 61))) in Hm; [|lia].
  apply Math_round_finite in Hm; [|lia].
  rewrite FloatAxioms.div_spec, Prim2SF_100.
  pose proof (Prim2SF_valid (Js.Math_round (x * 100)%float)) as Vr.
  eapply sfFiniteUpTo_le;
    [|apply (SFdiv_finite _ false 7036874417766400 (-46)
               (Z.max 11 (E + 61)) (-46) Vr);
      [reflexivity | exact Hm | reflexivity | lia | lia | lia]].
  lia.
Qed.

Lemma ge_0_of_nonneg x : sfNonneg (Prim2SF x) = true -> Js.ge x 0%float = true.
Proof.
  unfold Js.ge. rewrite FloatAxioms.leb_spec, Prim2SF_0.
  now destruct (Prim2SF x) as [[|]|[|]| |[|] m e].
Qed.

Lemma aggregateFinalGrade_nonneg g :
  Forall validated g -> sfNonneg (Prim2SF (aggregateFinalGrade g)) = true.
Proof.
  intros Hg. unfold aggregateFinalGrade.
  destruct (Js.gt (totalWeightOf g) 0%float) eqn:Hgt; [|reflexivity].
  apply round2_nonneg.
  rewrite FloatAxioms.div_spec.
  pose proof (totalWeight_finite g Hg) as Hw.
  unfold Js.gt in Hgt. rewrite FloatAxioms.ltb_spec, Prim2SF_0 in Hgt.
  destruct (Prim2SF (totalWeightOf g)) as [sw|sw| |sw mw ew];
    simpl in Hw; try contradiction.
  - subst. discriminate.
  - destruct Hw as [-> _].
    apply SFdiv_nonneg, sumOf_nonneg.
    eapply Forall_impl; [|exact Hg]. apply contribution_nonneg.
Qed.

(** X5.  On validated rows the numbers of the two views are proper ones:
    every reported percentage is finite and not negative, and the final
    grade of a group is a number (not NaN) that is not negative. *)
Theorem validated_rows_give_proper_numbers :
  forall g : list Score.t,
    Forall validated g ->
    Forall (fun s => is_finite (round2 (percentage s)) = true /\
                     Js.ge (round2 (percentage s)) 0%float = true) g /\
    is_nan (aggregateFinalGrade g) = false /\
    Js.ge (aggregateFinalGrade g) 0%float = true.
Proof.
  intros g Hg. split; [|split].
  - eapply Forall_impl; [|exact Hg]. intros s Hs.
    pose proof (round2_finite 185 _ ltac:(lia) (percentage_finite s Hs)) as H.
    split.
    + eapply sfFiniteUpTo_is_finite, H.
    + eapply ge_0_of_nonneg, sfFiniteUpTo_nonneg, H.
  - now apply finalGrade_is_a_number.
  - now apply ge_0_of_nonneg, aggregateFinalGrade_nonneg.
Qed.

Lemma validated_rows_give_proper_numbers_witness :
  let row := fun id score weight =>
    Score.mk id "student-1" "class-subject-1" "subject-1" QUIZ score 10000
      weight None 0 (Subject.mk "subject-1" "Mathematics")
      (Class.mk "class-1" "1A") (Semester.mk "semester-1" "S1") in
  let g := [row "score-1" 8000 30; row "score-2" 7000 70] in
  Forall validated g /\
  is_nan (aggregateFinalGrade g) = false /\
  Js.ge (aggregateFinalGrade g) 0%float = true.
Proof.
  intros row g.
  assert (H : Forall validated g) by (repeat constructor; simpl; lia).
  split; [exact H|].
  exact (proj2 (validated_rows_give_proper_numbers g H)).
Defined.

(** *** Sums that stay positive *)

(** Shifting a positive mantissa to its format leaves it positive. *)
Lemma shr_fexp_pos m e l :
  0 < m -> -1074 <= e ->
  0 < shr_m (fst (shr_fexp prec emax m e l)) /\
  -1074 <= snd (shr_fexp prec emax m e l).
Proof.
  intros Hm He. unfold shr_fexp, shr.
  assert (Hf : fexp prec emax (Zdigits2 m + e) =
               Z.max (Zdigits2 m + e - 53) (-1074)) by reflexivity.
  assert (Hrec : exists r s, shr_record_of_loc m l = Build_shr_record m r s)
    by (destruct l as [|[ | | ]]; simpl; eauto).
  destruct Hrec as (r & s & ->).
  destruct (fexp prec emax (Zdigits2 m + e) - e) as [|p|p] eqn:En;
    simpl fst; simpl snd; cbn [shr_m]; try (split; lia).
  destruct (iter_shr_1 m r s p ltac:(lia)) as [H1 _]. rewrite H1.
  split; [|lia].
  assert (Hd : Zdigits2 m = Zpos p + 53) by lia.
  destruct m as [|q|q]; try lia.
  pose proof (digits2_pos_bounds q) as [Hlo _].
  simpl Zdigits2 in Hd. rewrite Hd in Hlo.
  assert (Hp : 0 < 2 ^ Zpos p) by (apply Z.pow_pos_nonneg; lia).
  assert (Hle : 2 ^ Zpos p <= 2 ^ (Zpos p + 53 - 1))
    by (apply Z.pow_le_mono_r; lia).
  apply Z.div_str_pos. lia.
Qed.

(** Rounding a positive mantissa never gives zero. *)
Lemma binary_round_aux_not_zero sx m e l s :
  0 < m -> -1074 <= e -> binary_round_aux prec emax sx m e l <> S754_zero s.
Proof.
  intros Hm He. unfold binary_round_aux.
  pose proof (shr_fexp_pos m e l Hm He) as [H1 H2].
  destruct (shr_fexp prec emax m e l) as [mrs' e'].
  simpl fst in *; simpl snd in *.
  assert (R : 0 < round_nearest_even (shr_m mrs') (loc_of_shr_record mrs')).
  { destruct (loc_of_shr_record mrs') as [|[ | | ]]; simpl; try lia.
    destruct (Z.even (shr_m mrs')); lia. }
  pose proof (shr_fexp_pos _ e' loc_Exact R H2) as [S1 _].
  destruct (shr_fexp prec emax _ e' loc_Exact) as [mrs'' e''].
  simpl fst in *.
  destruct (shr_m mrs'') as [|q|q]; try lia.
  destruct (e'' <=? emax - prec); discriminate.
Qed.

Lemma SFadd_pos_not_zero mx ex my ey s :
  valid_binary (S754_finite false mx ex) = true ->
  valid_binary (S754_finite false my ey) = true ->
  SFadd prec emax (S754_finite false mx ex) (S754_finite false my ey)
  <> S754_zero s.
Proof.
  intros Vx Vy.
  pose proof (valid_binary_exponent _ _ _ Vx) as Ex.
  pose proof (valid_binary_exponent _ _ _ Vy) as Ey.
  cbn [SFadd cond_Zopp]. set (ez := Z.min ex ey).
  destruct (shl_align mx ex ez) as [mx' ex'].
  destruct (shl_align my ey ez) as [my' ey'].
  simpl fst.
  change (Zpos mx' + Zpos my') with (Zpos (mx' + my')).
  cbn [binary_normalize]. unfold binary_round.
  set (f := fexp prec emax (Zpos (digits2_pos (mx' + my')) + ez)).
  assert (Hf : -1074 <= f) by (unfold f, fexp, SpecFloat.emin, prec, emax; lia).
  assert (Hz : -1074 <= snd (shl_align (mx' + my') ez f)).
  { unfold shl_align. destruct (f - ez); simpl; unfold ez; lia. }
  destruct (shl_align (mx' + my') ez f) as [mz ez'].
  simpl snd in Hz.
  apply binary_round_aux_not_zero; lia.
Qed.

Lemma sumOf_ext f f' (g g' : list Score.t) :
  map f g = map f' g' -> sumOf f g = sumOf f' g'.
Proof.
  unfold sumOf. generalize 0%float. revert g'.
  induction g as [|s g IH]; intros [|s' g'] acc H; try discriminate;
    [reflexivity|].
  injection H as Hs Hg. cbn [fold_left]. rewrite Hs. now apply IH.
Qed.

Lemma totalWeight_finite_of_weights g :
  Forall (fun s => 0 <= Score.weight s <= 100) g ->
  sfFiniteUpTo 3 (Prim2SF (totalWeightOf g)).
Proof.
  intros H.
  replace (totalWeightOf g) with (totalWeightOf (map weightOnly g)).
  - apply totalWeight_finite. apply Forall_map.
    eapply Forall_impl; [|exact H]. intros s Hs. cbv beta in Hs.
    unfold validated, weightOnly; simpl. lia.
  - apply sumOf_ext. rewrite map_map. reflexivity.
Qed.

(** The total weight is positive as soon as one weight is. *)
Lemma totalWeight_positive g :
  Forall (fun s => 0 <= Score.weight s <= 100) g ->
  Exists (fun s => 1 <= Score.weight s) g ->
  exists m e, Prim2SF (totalWeightOf g) = S754_finite false m e.
Proof.
  induction g as [|s g IH] using rev_ind; intros Hw Hpos.
  - inversion Hpos.
  - pose proof (totalWeight_finite_of_weights _ Hw) as Hfin.
    apply Forall_app in Hw as [Hg Hs]. inversion Hs as [|? ? Hws _]; subst.
    pose proof (totalWeight_finite_of_weights _ Hg) as Hfg.
    unfold totalWeightOf in *. rewrite sumOf_snoc in *.
    rewrite FloatAxioms.add_spec in *.
    pose proof (Prim2SF_valid (sumOf (fun s => Number (Score.weight s)) g))
      as Va.
    pose proof (Prim2SF_valid (Number (Score.weight s))) as Vw.
    destruct (Z_le_gt_dec 1 (Score.weight s)) as [Hone|Hzero].
    + destruct (Number_positive (Score.weight s) ltac:(lia))
        as (mw & ew & Ew & _).
      rewrite Ew in *.
      destruct (Prim2SF (sumOf (fun s => Number (Score.weight s)) g))
        as [sa|sa| |sa ma ea]; simpl in Hfg; try contradiction.
      * exists mw, ew. reflexivity.
      * destruct Hfg as [-> _].
        unfold SF64add in *.
        pose proof (SFadd_pos_not_zero ma ea mw ew false Va Vw) as Hnz.
        destruct (SFadd prec emax _ _) as [sz|sz| |sz mz ez];
          simpl in Hfin; try contradiction.
        -- subst. congruence.
        -- destruct Hfin as [-> _]. eauto.
    + assert (Hw0 : Score.weight s = 0) by lia.
      apply Exists_app in Hpos as [Hpos|Hpos].
      * destruct (IH Hg Hpos) as (m & e & E).
        unfold totalWeightOf in E. rewrite E, Hw0, Number_0, Prim2SF_0.
        exists m, e. reflexivity.
      * inversion Hpos as [? ? H1|? ? H1]; subst; [lia | inversion H1].
Qed.

(** *** A stored maximum of zero *)

Lemma Prim2SF_infinity : Prim2SF infinity = S754_infinity false.
Proof. reflexivity. Qed.

Lemma add_infinity_l y :
  sfNonneg y = true ->
  SFadd prec emax (S754_infinity false) y = S754_infinity false.
Proof. now destruct y as [[|]|[|]| |[|] m e]. Qed.

Lemma add_infinity_r x :
  sfNonneg x = true ->
  SFadd prec emax x (S754_infinity false) = S754_infinity false.
Proof. now destruct x as [[|]|[|]| |[|] m e]. Qed.

Lemma fold_add_infinity f (g : list Score.t) acc :
  Prim2SF acc = S754_infinity false ->
  Forall (fun s => sfNonneg (Prim2SF (f s)) = true) g ->
  Prim2SF (fold_left (fun acc s => (acc + f s)%float) g acc)
  = S754_infinity false.
Proof.
  revert acc. induction g as [|s g IH]; intros acc Ha Hg; [exact Ha|].
  inversion Hg as [|? ? Hs Hg']; subst. cbn [fold_left].
  apply IH; [|assumption].
  rewrite FloatAxioms.add_spec, Ha. now apply add_infinity_l.
Qed.

Lemma fold_add_nan f (g : list Score.t) acc :
  Prim2SF acc = S754_nan ->
  Prim2SF (fold_left (fun acc s => (acc + f s)%float) g acc) = S754_nan.
Proof.
  revert acc. induction g as [|s g IH]; intros acc Ha; [exact Ha|].
  cbn [fold_left]. apply IH.
  now rewrite FloatAxioms.add_spec, Ha.
Qed.

(** The contribution of a row whose stored maximum is 0: NaN for a score of
    0, +infinity for a positive score. *)
Lemma contribution_of_zero_max z :
  Score.maxScore z = 0 -> 0 <= Score.score z <= 99999 ->
  1 <= Score.weight z <= 100 ->
  Prim2SF (percentage z) =
    (if Score.score z =? 0 then S754_nan else S754_infinity false) /\
  Prim2SF (contribution z) =
    (if Score.score z =? 0 then S754_nan else S754_infinity false).
Proof.
  intros Hm Hs Hw.
  change (contribution z) with (percentage z * Number (Score.weight z))%float.
  unfold percentage.
  rewrite !FloatAxioms.mul_spec, FloatAxioms.div_spec, Hm, Number_0, Prim2SF_0,
    Prim2SF_100.
  destruct (Number_positive (Score.weight z) ltac:(lia)) as (mw & ew & -> & _).
  destruct (Z.eqb_spec (Score.score z) 0) as [->|Hne].
  - rewrite Number_0, Prim2SF_0. split; reflexivity.
  - destruct (Number_positive (Score.score z) ltac:(lia)) as (ms & es & -> & _).
    split; reflexivity.
Qed.

Lemma Prim2SF_nan_is_nan x : Prim2SF x = S754_nan -> is_nan x = true.
Proof.
  intros H. unfold is_nan. now rewrite FloatAxioms.eqb_spec, H.
Qed.

Lemma round2_of_infinity x :
  Prim2SF x = S754_infinity false -> round2 x = infinity.
Proof.
  intros H. apply Prim2SF_inj. unfold round2.
  assert (Hm : Prim2SF (x * 100)%float = S754_infinity false)
    by now rewrite FloatAxioms.mul_spec, H, Prim2SF_100.
  assert (Hr : Js.Math_round (x * 100)%float = (x * 100)%float)
    by (unfold Js.Math_round; now rewrite Hm).
  now rewrite FloatAxioms.div_spec, Hr, Hm, Prim2SF_100.
Qed.

Lemma round2_of_nan x : Prim2SF x = S754_nan -> Prim2SF (round2 x) = S754_nan.
Proof.
  intros H. unfold round2.
  assert (Hm : Prim2SF (x * 100)%float = S754_nan)
    by now rewrite FloatAxioms.mul_spec, H.
  assert (Hr : Js.Math_round (x * 100)%float = (x * 100)%float)
    by (unfold Js.Math_round; now rewrite Hm).
  now rewrite FloatAxioms.div_spec, Hr, Hm.
Qed.

Lemma letterGradeOf_nan x : is_nan x = true -> letterGradeOf x = "F".
Proof.
  intros H.
  assert (Hge : forall c, Js.ge x c = false).
  { intros c. destruct (Js.ge x c) eqn:E; [|reflexivity].
    unfold Js.ge in E. rewrite FloatAxioms.leb_spec in E.
    unfold is_nan in H. rewrite FloatAxioms.eqb_spec in H.
    destruct (Prim2SF x) as [s|s| |s m e].
    - discriminate.
    - now destruct s.
    - now destruct (Prim2SF c).
    - unfold SFeqb in H. simpl in H.
      rewrite Z.compare_refl, Pos.compare_cont_refl in H. now destruct s. }
  unfold letterGradeOf. now rewrite !Hge.
Qed.

(** X6.  The aggregation divides by [maxScore] without a test.  A group
    that holds, among validated rows, one row with a stored [maxScore] of 0
    and a positive weight is graded as follows: when the score of that row
    is positive its percentage and the final grade of the group are
    +infinity and the letter is 'A'; when its score is 0 they are NaN and
    the letter is 'F'. *)
Theorem zero_maximum_is_not_guarded :
  forall (before after : list Score.t) (z : Score.t),
    Forall validated before -> Forall validated after ->
    Score.maxScore z = 0 ->
    0 <= Score.score z <= 99999 -> 1 <= Score.weight z <= 100 ->
    let g := before ++ z :: after in
    if Score.score z =? 0
    then is_nan (round2 (percentage z)) = true /\
         is_nan (aggregateFinalGrade g) = true /\
         letterGradeOf (aggregateFinalGrade g) = "F"
    else round2 (percentage z) = infinity /\
         aggregateFinalGrade g = infinity /\
         letterGradeOf (aggregateFinalGrade g) = "A".
Proof.
  intros before after z Hb Ha Hm Hs Hw g.
  destruct (contribution_of_zero_max z Hm Hs Hw) as [Hp Hc].
  assert (Hweights : Forall (fun s => 0 <= Score.weight s <= 100) g).
  { apply Forall_app. split; [|constructor; [lia|]].
    - eapply Forall_impl; [|exact Hb]. now intros s (_ & _ & H).
    - eapply Forall_impl; [|exact Ha]. now intros s (_ & _ & H). }
  assert (Hpos : Exists (fun s => 1 <= Score.weight s) g).
  { apply Exists_app. right. left. lia. }
  destruct (totalWeight_positive g Hweights Hpos) as (mt & et & Ht).
  assert (Hgt : Js.gt (totalWeightOf g) 0%float = true).
  { unfold Js.gt. now rewrite FloatAxioms.ltb_spec, Ht, Prim2SF_0. }
  assert (Hsum : Prim2SF (totalWeightedScoreOf g) =
                 (if Score.score z =? 0 then S754_nan
                  else S754_infinity false)).
  { unfold totalWeightedScoreOf, g. rewrite sumOf_app. cbn [fold_left].
    destruct (Score.score z =? 0).
    - apply fold_add_nan. rewrite FloatAxioms.add_spec, Hc.
      unfold SF64add.
      now destruct (Prim2SF (sumOf contribution before)) as [[|]|[|]| |].
    - apply fold_add_infinity.
      + rewrite FloatAxioms.add_spec, Hc. apply add_infinity_r, sumOf_nonneg.
        eapply Forall_impl; [|exact Hb]. apply contribution_nonneg.
      + eapply Forall_impl; [|exact Ha]. apply contribution_nonneg. }
  assert (Hq : Prim2SF (totalWeightedScoreOf g / totalWeightOf g)%float =
               (if Score.score z =? 0 then S754_nan
                else S754_infinity false)).
  { rewrite FloatAxioms.div_spec, Hsum, Ht.
    now destruct (Score.score z =? 0). }
  unfold aggregateFinalGrade. rewrite Hgt.
  destruct (Score.score z =? 0).
  - pose proof (Prim2SF_nan_is_nan _ (round2_of_nan _ Hq)) as Hn.
    repeat split.
    + apply Prim2SF_nan_is_nan, round2_of_nan, Hp.
    + exact Hn.
    + now apply letterGradeOf_nan.
  - rewrite (round2_of_infinity _ Hq), (round2_of_infinity _ Hp).
    repeat split.
Qed.

Lemma zero_maximum_is_not_guarded_witness :
  let row := fun id sc mx w =>
    Score.mk id "student-1" "class-subject-1" "subject-1" QUIZ sc mx w
      None 0 (Subject.mk "subject-1" "Mathematics") (Class.mk "class-1" "1A")
      (Semester.mk "semester-1" "S1") in
  let g := [row "score-1" 9000 10000 50] ++ row "score-2" 5000 0 50 :: [] in
  round2 (percentage (row "score-2" 5000 0 50)) = infinity /\
  aggregateFinalGrade g = infinity /\
  letterGradeOf (aggregateFinalGrade g) = "A".
Proof.
  intros row g.
  apply (zero_maximum_is_not_guarded [row "score-1" 9000 10000 50] []
           (row "score-2" 5000 0 50)).
  - repeat constructor; simpl; lia.
  - constructor.
  - reflexivity.
  - simpl. lia.
  - simpl. lia.
Defined.

(** *** Multiplying and dividing by 1 *)

Lemma Prim2SF_1 : Prim2SF 1%float = S754_finite false 4503599627370496 (-52).
Proof. reflexivity. Qed.

Lemma valid_binary_canonical s m e :
  valid_binary (S754_finite s m e) = true ->
  Z.max (Zpos (digits2_pos m) + e - 53) (-1074) = e /\ e <= 971.
Proof.
  intros H. cbn [valid_binary] in H. unfold bounded, canonical_mantissa in H.
  apply andb_prop in H as [H1 H2].
  apply Z.eqb_eq in H1. apply Z.leb_le in H2.
  unfold fexp, SpecFloat.emin, prec, emax in *. lia.
Qed.

(** Rounding a mantissa that sits [n] binary places too low, with zeros in
    those places, gives the mantissa back. *)
Lemma binary_round_aux_shifted m e n :
  valid_binary (S754_finite false m e) = true -> 0 <= n ->
  binary_round_aux prec emax false (Zpos m * 2 ^ n) (e - n) loc_Exact =
  S754_finite false m e.
Proof.
  intros V Hn.
  destruct (valid_binary_canonical _ _ _ V) as [Hc Hb].
  assert (Hp : 0 < 2 ^ n) by (apply Z.pow_pos_nonneg; lia).
  assert (HD : Zdigits2 (Zpos m * 2 ^ n) = Zpos (digits2_pos m) + n).
  { apply Zdigits2_unique; [lia|].
    pose proof (digits2_pos_bounds m) as [B1 B2].
    replace (Zpos (digits2_pos m) + n - 1)
      with (Zpos (digits2_pos m) - 1 + n) by lia.
    rewrite !Z.pow_add_r by lia. nia. }
  assert (Hsecond : shr_fexp prec emax (Zpos m) e loc_Exact =
                    (Build_shr_record (Zpos m) false false, e)).
  { unfold shr_fexp. cbn [Zdigits2].
    replace (fexp prec emax (Zpos (digits2_pos m) + e) - e) with 0
      by (unfold fexp, SpecFloat.emin, prec, emax; lia).
    reflexivity. }
  assert (Hfinal : (e <=? emax - prec) = true)
    by (apply Z.leb_le; unfold emax, prec; lia).
  unfold binary_round_aux.
  destruct n as [|p|p]; [| |lia].
  - rewrite Z.mul_1_r, Z.sub_0_r, Hsecond. cbn [shr_m loc_of_shr_record
      round_nearest_even]. rewrite Hsecond. cbn [shr_m]. now rewrite Hfinal.
  - unfold shr_fexp at 1. rewrite HD.
    replace (fexp prec emax (Zpos (digits2_pos m) + Zpos p + (e - Zpos p))
             - (e - Zpos p)) with (Zpos p)
      by (unfold fexp, SpecFloat.emin, prec, emax; lia).
    cbn [shr shr_record_of_loc].
    destruct (iter_shr_1 (Zpos m * 2 ^ Zpos p) false false p ltac:(lia))
      as [Hm Hr].
    destruct (iter_pos shr_1 p _) as [m' r' s'].
    cbn [shr_m shr_r] in Hm, Hr.
    assert (Hm' : m' = Zpos m) by (rewrite Hm; now apply Z.div_mul; lia).
    assert (Hr' : r' = false).
    { rewrite Hr.
      replace (Zpos m * 2 ^ Zpos p) with (2 * Zpos m * 2 ^ (Zpos p - 1)).
      - rewrite Z.div_mul; [now rewrite Z.odd_mul|].
        assert (0 < 2 ^ (Zpos p - 1)) by (apply Z.pow_pos_nonneg; lia). lia.
      - replace (Zpos p) with (Z.succ (Zpos p - 1)) at 2 by lia.
        rewrite Z.pow_succ_r by lia. lia. }
    clear Hm Hr. subst m' r'.
    replace (e - Zpos p + Zpos p) with e by lia.
    assert (Hrne : round_nearest_even (Zpos m)
                     (loc_of_shr_record (Build_shr_record (Zpos m) false s'))
                   = Zpos m) by (destruct s'; reflexivity).
    cbn [shr_m]. rewrite Hrne, Hsecond. cbn [shr_m]. now rewrite Hfinal.
Qed.

Lemma SFmul_1 x :
  valid_binary x = true -> sfNonneg x = true ->
  SFmul prec emax x (S754_finite false 4503599627370496 (-52)) = x.
Proof.
  intros V H.
  destruct x as [[|]|[|]| |[|] m e]; try discriminate; try reflexivity.
  cbn [SFmul xorb].
  change (Zpos (m * 4503599627370496)) with (Zpos m * 2 ^ 52).
  change (e + -52) with (e - 52).
  now apply binary_round_aux_shifted.
Qed.

Lemma SFdiv_1 x :
  valid_binary x = true -> sfNonneg x = true ->
  SFdiv prec emax x (S754_finite false 4503599627370496 (-52)) = x.
Proof.
  intros V H.
  destruct x as [[|]|[|]| |[|] m e]; try discriminate; try reflexivity.
  cbn [SFdiv xorb].
  destruct (valid_binary_canonical _ _ _ V) as [Hc Hb].
  pose proof (valid_binary_digits _ _ _ V) as Hd.
  unfold SFdiv_core_binary.
  cbn [Zdigits2]. change (Zpos (digits2_pos 4503599627370496)) with 53.
  set (e' := Z.min _ _).
  assert (He' : e' = e - 1 /\ -1074 < e \/ e' = e /\ e = -1074).
  { unfold e', fexp, SpecFloat.emin, prec, emax. lia. }
  assert (Hpow : forall n, 0 <= n -> 0 < 2 ^ n)
    by (intros; apply Z.pow_pos_nonneg; lia).
  destruct He' as [[-> Hn]|[-> ->]].
  - replace (e - -52 - (e - 1)) with 53 by lia.
    rewrite Z.shiftl_mul_pow2 by lia.
    pose proof (Z_div_mod (Zpos m * 2 ^ 53) 4503599627370496 eq_refl) as Hdiv.
    destruct (Z.div_eucl (Zpos m * 2 ^ 53) 4503599627370496) as [q r].
    assert (Hq : q = Zpos m * 2 ^ 1 /\ r = 0)
      by (change (2 ^ 53) with 9007199254740992 in Hdiv;
          change (2 ^ 1) with 2; lia).
    destruct Hq as [-> ->]. change (new_location _ 0) with loc_Exact.
    now apply binary_round_aux_shifted.
  - replace (-1074 - -52 - -1074) with 52 by lia.
    rewrite Z.shiftl_mul_pow2 by lia.
    pose proof (Z_div_mod (Zpos m * 2 ^ 52) 4503599627370496 eq_refl) as Hdiv.
    destruct (Z.div_eucl (Zpos m * 2 ^ 52) 4503599627370496) as [q r].
    assert (Hq : q = Zpos m * 2 ^ 0 /\ r = 0)
      by (change (2 ^ 52) with 4503599627370496 in Hdiv;
          change (2 ^ 0) with 1; lia).
    destruct Hq as [-> ->]. change (new_location _ 0) with loc_Exact.
    replace (-1074) with (-1074 - 0) at 1 by lia.
    now apply binary_round_aux_shifted.
Qed.

Lemma times_one x :
  sfNonneg (Prim2SF x) = true -> (x * 1)%float = x.
Proof.
  intros H. apply Prim2SF_inj.
  rewrite FloatAxioms.mul_spec, Prim2SF_1.
  apply SFmul_1; [apply Prim2SF_valid | assumption].
Qed.

Lemma over_one x :
  sfNonneg (Prim2SF x) = true -> (x / 1)%float = x.
Proof.
  intros H. apply Prim2SF_inj.
  rewrite FloatAxioms.div_spec, Prim2SF_1.
  apply SFdiv_1; [apply Prim2SF_valid | assumption].
Qed.

Lemma zero_plus x :
  sfNonneg (Prim2SF x) = true -> (0 + x)%float = x.
Proof.
  intros H. apply Prim2SF_inj. rewrite FloatAxioms.add_spec, Prim2SF_0.
  now destruct (Prim2SF x) as [[|]|[|]| |[|] m e].
Qed.

(** X7.  A validated record of weight 1 that is alone in its group is graded
    by its own percentage: the final grade of the group is the percentage
    the view reports for the record, [Math.round(percentage * 100) / 100],
    since multiplying and dividing by 1 and adding to 0 are exact; the
    total weight reported is 1. *)
Theorem a_record_of_weight_1_is_graded_by_its_percentage :
  forall s : Score.t,
    validated s -> Score.weight s = 100 ->
    aggregateFinalGrade [s] = round2 (percentage s) /\
    map (fun r => (map ScoreView.percentage (SubjectGrade.scores r),
                   SubjectGrade.totalWeight r, SubjectGrade.finalGrade r))
      (studentGrades [s]) =
    [([round2 (percentage s)], 1%float, round2 (percentage s))].
Proof.
  intros s Hv Hw.
  pose proof (sfFiniteUpTo_nonneg _ _ (percentage_finite s Hv)) as Hp.
  assert (Hc : contribution s = percentage s).
  { change (contribution s)
      with (percentage s * Number (Score.weight s))%float.
    rewrite Hw. change (Number 100) with 1%float. now apply times_one. }
  assert (Htws : totalWeightedScoreOf [s] = percentage s).
  { unfold totalWeightedScoreOf, sumOf. cbn [fold_left].
    rewrite Hc. now apply zero_plus. }
  assert (Htw : totalWeightOf [s] = 1%float).
  { unfold totalWeightOf, sumOf. cbn [fold_left]. now rewrite Hw. }
  assert (Hf : aggregateFinalGrade [s] = round2 (percentage s)).
  { unfold aggregateFinalGrade. rewrite Htws, Htw.
    change (Js.gt 1%float 0%float) with true. cbv iota. now rewrite over_one. }
  split; [exact Hf|].
  rewrite (studentGrades_field
             (fun r => (map ScoreView.percentage (SubjectGrade.scores r),
                        SubjectGrade.totalWeight r, SubjectGrade.finalGrade r))
             (fun g => (map (fun s => round2 (percentage s)) g,
                        totalWeightOf g, aggregateFinalGrade g))).
  - cbn [map firstSeen fold_left addKey existsb app groupOf filter].
    rewrite String.eqb_refl, Hf, Htw. reflexivity.
  - intros s0 grp.
    cbn [subjectGrade SubjectGrade.scores SubjectGrade.totalWeight
         SubjectGrade.finalGrade SubjectData.scores SubjectData.totalWeight
         SubjectData.totalWeightedScore].
    now rewrite map_map.
Qed.

Lemma a_record_of_weight_1_is_graded_by_its_percentage_witness :
  let s :=
    Score.mk "score-1" "student-1" "class-subject-1" "subject-1" FINAL
      6667 10000 100 None 0 (Subject.mk "subject-1" "Mathematics")
      (Class.mk "class-1" "1A") (Semester.mk "semester-1" "S1") in
  aggregateFinalGrade [s] = round2 (percentage s) /\
  round2 (percentage s) = Number 6667.
Proof.
  intros s. split; [|reflexivity].
  apply (a_record_of_weight_1_is_graded_by_its_percentage s).
  - repeat split; simpl; lia.
  - reflexivity.
Defined.


(** ** Further properties: what the schemas accept *)

Lemma zap_inr {A B : Type} (f : ZodResult (A -> B)) (a : ZodResult A) b :
  zap f a = inr b -> exists f' a', f = inr f' /\ a = inr a' /\ b = f' a'.
Proof.
  destruct f as [i|f'], a as [j|a']; simpl; try discriminate.
  intros [= <-]. eauto.
Qed.

Lemma le_gt x c :
  is_nan x = false -> is_nan c = false -> Js.gt x c = negb (Js.le x c).
Proof.
  intros Hx Hc. unfold Js.gt, Js.le.
  rewrite FloatAxioms.ltb_spec, FloatAxioms.leb_spec.
  rewrite (SFleb_negb_SFltb _ _ (is_nan_Prim2SF _ Hc) (is_nan_Prim2SF _ Hx)).
  now rewrite negb_involutive.
Qed.

Section SchemaSoundness.
Context {formats : ZodFormats}.

Lemma number_inr checks path v x :
  Zod.number checks path v = inr x ->
  v = JNum x /\ is_nan x = false /\ Forall (fun c => c x = None) checks.
Proof.
  unfold Zod.number. destruct v as [ | |b|y|s|items|fields]; try discriminate.
  destruct (is_nan y) eqn:Hn; [discriminate|].
  destruct (Zod.runChecks checks path y) as [|i issues] eqn:Hr;
    [|discriminate].
  intros [= <-]. repeat split; [assumption|].
  unfold Zod.runChecks in Hr.
  induction checks as [|c checks IH]; constructor.
  - cbn [flat_map] in Hr. apply app_eq_nil in Hr as [Hc _].
    destruct (c y) as [[code message]|]; [discriminate | reflexivity].
  - apply IH. cbn [flat_map] in Hr. now apply app_eq_nil in Hr as [_ Hr].
Qed.

Lemma scoreSchema_inr path v x :
  scoreSchema path v = inr x -> validScore v x.
Proof.
  intros H. apply number_inr in H as (-> & Hn & Hc).
  split; [reflexivity|].
  inversion Hc as [|? ? Hmin _]; subst. unfold Zod.min in Hmin.
  destruct (Js.lt x 0%float) eqn:E; [discriminate|].
  rewrite (ge_lt x 0%float Hn eq_refl) in E.
  now apply negb_false_iff in E.
Qed.

Lemma maxScoreSchema_inr path v x :
  maxScoreSchema path v = inr x -> validMaxScore v x.
Proof.
  intros H. apply number_inr in H as (-> & Hn & Hc).
  split; [reflexivity|].
  inversion Hc as [|? ? Hpos _]; subst. unfold Zod.positive in Hpos.
  destruct (Js.le x 0%float) eqn:E; [discriminate|].
  now rewrite (le_gt x 0%float Hn eq_refl), E.
Qed.

Lemma weightSchema_inr path v x :
  weightSchema path v = inr x -> validWeight v x.
Proof.
  intros H. apply number_inr in H as (-> & Hn & Hc).
  split; [reflexivity|].
  inversion Hc as [|? ? Hmin Hc']; subst.
  inversion Hc' as [|? ? Hmax _]; subst.
  unfold Zod.min in Hmin. unfold Zod.max in Hmax.
  destruct (Js.lt x 0%float) eqn:E; [discriminate|].
  destruct (Js.gt x 1%float) eqn:E'; [discriminate|].
  rewrite (ge_lt x 0%float Hn eq_refl) in E.
  rewrite (le_gt x 1%float Hn eq_refl) in E'.
  apply negb_false_iff in E, E'. now split.
Qed.

Lemma string_format_inr check message path v s :
  Zod.string_format check message path v = inr s ->
  v = JStr s /\ check s = true.
Proof.
  unfold Zod.string_format.
  destruct v as [ | |b|y|s'|items|fields]; try discriminate.
  destruct (check s') eqn:E; [|discriminate]. now intros [= <-].
Qed.

Lemma str_inr path v s : Zod.str path v = inr s -> v = JStr s.
Proof.
  unfold Zod.str. destruct v; try discriminate. now intros [= <-].
Qed.

Lemma optional_inr {A : Type}
  (inner : list PathItem -> JsValue -> ZodResult A)
  (valid : JsValue -> A -> Prop) path v a :
  (forall x, inner path v = inr x -> valid v x) ->
  Zod.optional inner path v = inr a -> optionally valid v a.
Proof.
  intros Hinner. unfold Zod.optional.
  destruct v as [ | |b|y|s|items|fields];
    try (destruct (inner path _) as [i|x] eqn:E; [discriminate|];
         intros [= <-]; now apply Hinner).
  now intros [= <-].
Qed.

Lemma optional_str_inr path v s :
  Zod.optional Zod.str path v = inr s -> v = optionalString s.
Proof.
  intros H.
  apply (optional_inr Zod.str (fun v s => v = JStr s)) in H;
    [|apply str_inr].
  now destruct s.
Qed.

Lemma scoreTypeEnum_inr path v t :
  Zod.scoreTypeEnum path v = inr t -> v = JStr (scoreTypeName t).
Proof.
  unfold Zod.scoreTypeEnum.
  destruct v as [ | |b|y|s|items|fields]; try discriminate.
  repeat match goal with
    | |- context [String.eqb s ?c] =>
        destruct (String.eqb_spec s c) as [->|_]; [now intros [= <-]|]
    end.
  discriminate.
Qed.

Lemma arrayItems_inr {A : Type}
  (element : list PathItem -> JsValue -> ZodResult A)
  (valid : JsValue -> A -> Prop) path items :
  (forall p v a, element p v = inr a -> valid v a) ->
  forall index l,
    Zod.arrayItems element path index items = inr l -> Forall2 valid items l.
Proof.
  intros Helt. induction items as [|v items IH]; intros index l;
    cbn [Zod.arrayItems].
  - intros [= <-]. constructor.
  - intros H. apply zap_inr in H as (f & l' & Hf & Hl & ->).
    apply zap_inr in Hf as (c & a & [= <-] & Ha & ->).
    constructor; [now apply (Helt _ _ _ Ha) | now apply (IH _ _ Hl)].
Qed.
End SchemaSoundness.

Ltac zap_inversion H :=
  repeat match type of H with
    | zap _ _ = inr _ =>
        let f := fresh "f" in
        let a := fresh "a" in
        let Ha := fresh "Ha" in
        apply zap_inr in H as (f & a & H & Ha & ->)
    end.

(** X8.  What [createScoreSchema] accepts is an object, and the data it
    returns are the values of its keys: the three ids are strings that pass
    the UUID check, [scoreType] is one of the six names, [score] is a number
    with [score >= 0], [maxScore] a number with [maxScore > 0], [weight] a
    number with [0 <= weight <= 1] (so none of them is NaN), [notes] is a
    string or absent, and [dateRecorded] is absent or a string that passes
    the date check. *)
Theorem createScoreSchema_accepts_only_valid_scores :
  forall (formats : ZodFormats) (body : JsValue) (input : CreateScoreInput.t),
    createScoreSchema body = inr input ->
    exists o,
      body = JObj o /\
      (field o "studentId" = JStr (CreateScoreInput.studentId input) /\
       isUuid (CreateScoreInput.studentId input) = true) /\
      (field o "classSubjectId" = JStr (CreateScoreInput.classSubjectId input)
       /\ isUuid (CreateScoreInput.classSubjectId input) = true) /\
      (field o "subjectId" = JStr (CreateScoreInput.subjectId input) /\
       isUuid (CreateScoreInput.subjectId input) = true) /\
      field o "scoreType" =
        JStr (scoreTypeName (CreateScoreInput.scoreType input)) /\
      validScore (field o "score") (CreateScoreInput.score input) /\
      validMaxScore (field o "maxScore") (CreateScoreInput.maxScore input) /\
      validWeight (field o "weight") (CreateScoreInput.weight input) /\
      field o "notes" = optionalString (CreateScoreInput.notes input) /\
      optionally (fun v s => v = JStr s /\ isDatetime s = true)
        (field o "dateRecorded") (CreateScoreInput.dateRecorded input).
Proof.
  intros formats body input H. unfold createScoreSchema in H.
  destruct body as [ | |b|y|s|items|o]; try discriminate.
  exists o. split; [reflexivity|].
  zap_inversion H. injection H as <-.
  cbn [CreateScoreInput.studentId CreateScoreInput.classSubjectId
       CreateScoreInput.subjectId CreateScoreInput.scoreType
       CreateScoreInput.score CreateScoreInput.maxScore
       CreateScoreInput.weight CreateScoreInput.notes
       CreateScoreInput.dateRecorded].
  repeat match goal with
    | H : Zod.string_format _ _ _ _ = inr _ |- _ =>
        apply string_format_inr in H
    | H : Zod.scoreTypeEnum _ _ = inr _ |- _ => apply scoreTypeEnum_inr in H
    | H : scoreSchema _ _ = inr _ |- _ => apply scoreSchema_inr in H
    | H : maxScoreSchema _ _ = inr _ |- _ => apply maxScoreSchema_inr in H
    | H : weightSchema _ _ = inr _ |- _ => apply weightSchema_inr in H
    | H : Zod.optional Zod.str _ _ = inr _ |- _ => apply optional_str_inr in H
    | H : Zod.optional (Zod.string_format _ _) _ _ = inr _ |- _ =>
        apply (optional_inr _ (fun v s => v = JStr s /\ isDatetime s = true))
          in H; [|intros x; apply string_format_inr]
    end.
  tauto.
Qed.

Lemma createScoreSchema_accepts_only_valid_scores_witness :
  let body :=
    JObj [("studentId", JStr "5f0c1a9e-7b1d-4c3a-9e2f-0a1b2c3d4e5f");
          ("classSubjectId", JStr "0d9c8b7a-6f5e-4d3c-8b2a-19f8e7d6c5b4");
          ("subjectId", JStr "a1b2c3d4-e5f6-4789-8abc-def012345678");
          ("scoreType", JStr "MIDTERM");
          ("score", JNum 17.5%float);
          ("maxScore", JNum 20%float);
          ("weight", JNum 0.25%float);
          ("notes", JStr "second sitting")] in
  exists input,
    createScoreSchema (formats := exampleFormats) body = inr input /\
    validScore (JNum 17.5%float) (CreateScoreInput.score input) /\
    validMaxScore (JNum 20%float) (CreateScoreInput.maxScore input) /\
    validWeight (JNum 0.25%float) (CreateScoreInput.weight input).
Proof.
  intros body. eexists. split; [reflexivity|].
  destruct (createScoreSchema_accepts_only_valid_scores exampleFormats body _
              eq_refl) as (o & [= <-] & _ & _ & _ & _ & Hs & Hm & Hw & _).
  exact (conj Hs (conj Hm Hw)).
Defined.

(** X9.  What [updateScoreSchema] accepts is an object in which each of
    [score], [maxScore], [weight] and [notes] is absent or valid: a field of
    the data is [undefined] exactly when its key is absent, and otherwise
    [score >= 0], [maxScore > 0], [0 <= weight <= 1] hold as for a creation.
    A key that holds [null] is refused. *)
Theorem updateScoreSchema_accepts_only_valid_fields :
  forall (body : JsValue) (input : UpdateScoreInput.t),
    updateScoreSchema body = inr input ->
    exists o,
      body = JObj o /\
      optionally validScore (field o "score") (UpdateScoreInput.score input) /\
      optionally validMaxScore (field o "maxScore")
        (UpdateScoreInput.maxScore input) /\
      optionally validWeight (field o "weight")
        (UpdateScoreInput.weight input) /\
      field o "notes" = optionalString (UpdateScoreInput.notes input).
Proof.
  intros body input H. unfold updateScoreSchema in H.
  destruct body as [ | |b|y|s|items|o]; try discriminate.
  exists o. split; [reflexivity|].
  zap_inversion H. injection H as <-.
  cbn [UpdateScoreInput.score UpdateScoreInput.maxScore
       UpdateScoreInput.weight UpdateScoreInput.notes].
  repeat match goal with
    | H : Zod.optional scoreSchema _ _ = inr _ |- _ =>
        apply (optional_inr _ validScore) in H;
          [|intros x; apply scoreSchema_inr]
    | H : Zod.optional maxScoreSchema _ _ = inr _ |- _ =>
        apply (optional_inr _ validMaxScore) in H;
          [|intros x; apply maxScoreSchema_inr]
    | H : Zod.optional weightSchema _ _ = inr _ |- _ =>
        apply (optional_inr _ validWeight) in H;
          [|intros x; apply weightSchema_inr]
    | H : Zod.optional Zod.str _ _ = inr _ |- _ => apply optional_str_inr in H
    end.
  tauto.
Qed.

Lemma updateScoreSchema_accepts_only_valid_fields_witness :
  let body := JObj [("weight", JNum 0.5%float); ("grade", JStr "A")] in
  exists input,
    updateScoreSchema body = inr input /\
    UpdateScoreInput.score input = None /\
    optionally validWeight (JNum 0.5%float) (UpdateScoreInput.weight input).
Proof.
  intros body. eexists. split; [reflexivity|]. split; [reflexivity|].
  destruct (updateScoreSchema_accepts_only_valid_fields body _ eq_refl) as (o & [= <-] & _ & _ & Hw & _).
  exact Hw.
Defined.

(** X10.  What [bulkCreateScoresSchema] accepts is an object with valid ids,
    [maxScore > 0], [0 <= weight <= 1] and an array under [scores]; the data
    hold one element per element of that array, in its order, each an object
    with a student id that passes the UUID check and a number
    [score >= 0]. *)
Theorem bulkCreateScoresSchema_accepts_only_valid_scores :
  forall (formats : ZodFormats) (body : JsValue)
         (input : BulkCreateScoresInput.t),
    bulkCreateScoresSchema body = inr input ->
    exists o items,
      body = JObj o /\
      (field o "classSubjectId" =
         JStr (BulkCreateScoresInput.classSubjectId input) /\
       isUuid (BulkCreateScoresInput.classSubjectId input) = true) /\
      (field o "subjectId" = JStr (BulkCreateScoresInput.subjectId input) /\
       isUuid (BulkCreateScoresInput.subjectId input) = true) /\
      field o "scoreType" =
        JStr (scoreTypeName (BulkCreateScoresInput.scoreType input)) /\
      validMaxScore (field o "maxScore")
        (BulkCreateScoresInput.maxScore input) /\
      validWeight (field o "weight") (BulkCreateScoresInput.weight input) /\
      field o "scores" = JArr items /\
      Forall2 validBulkScore items (BulkCreateScoresInput.scores input) /\
      optionally (fun v s => v = JStr s /\ isDatetime s = true)
        (field o "dateRecorded") (BulkCreateScoresInput.dateRecorded input).
Proof.
  intros formats body input H. unfold bulkCreateScoresSchema in H.
  destruct body as [ | |b|y|s|items|o]; try discriminate.
  zap_inversion H. injection H as <-.
  cbn [BulkCreateScoresInput.classSubjectId BulkCreateScoresInput.subjectId
       BulkCreateScoresInput.scoreType BulkCreateScoresInput.maxScore
       BulkCreateScoresInput.weight BulkCreateScoresInput.scores
       BulkCreateScoresInput.dateRecorded].
  match goal with
  | H : Zod.array _ _ _ = inr _ |- _ =>
      unfold Zod.array in H;
      destruct (field o "scores") as [ | |b|y|s|items|fields] eqn:Hscores;
      try discriminate;
      apply (arrayItems_inr _ validBulkScore) in H
  end.
  - exists o, items. split; [reflexivity|].
    repeat match goal with
      | H : Zod.string_format _ _ _ _ = inr _ |- _ =>
          apply string_format_inr in H
      | H : Zod.scoreTypeEnum _ _ = inr _ |- _ => apply scoreTypeEnum_inr in H
      | H : maxScoreSchema _ _ = inr _ |- _ => apply maxScoreSchema_inr in H
      | H : weightSchema _ _ = inr _ |- _ => apply weightSchema_inr in H
      | H : Zod.optional (Zod.string_format _ _) _ _ = inr _ |- _ =>
          apply (optional_inr _ (fun v s => v = JStr s /\ isDatetime s = true))
            in H; [|intros x; apply string_format_inr]
      end.
    tauto.
  - clear. intros p v data H. unfold bulkScoreSchema in H.
    destruct v as [ | |b|y|s|items|element]; try discriminate.
    zap_inversion H. injection H as <-.
    exists element. split; [reflexivity|].
    cbn [BulkScore.studentId BulkScore.score BulkScore.notes].
    repeat match goal with
      | H : Zod.string_format _ _ _ _ = inr _ |- _ =>
          apply string_format_inr in H
      | H : scoreSchema _ _ = inr _ |- _ => apply scoreSchema_inr in H
      | H : Zod.optional Zod.str _ _ = inr _ |- _ =>
          apply optional_str_inr in H
      end.
    tauto.
Qed.

Lemma bulkCreateScoresSchema_accepts_only_valid_scores_witness :
  let element := fun id score =>
    JObj [("studentId", JStr id); ("score", JNum score)] in
  let body :=
    JObj [("classSubjectId", JStr "0d9c8b7a-6f5e-4d3c-8b2a-19f8e7d6c5b4");
          ("subjectId", JStr "a1b2c3d4-e5f6-4789-8abc-def012345678");
          ("scoreType", JStr "QUIZ");
          ("maxScore", JNum 20%float);
          ("weight", JNum 0.25%float);
          ("scores",
            JArr [element "5f0c1a9e-7b1d-4c3a-9e2f-0a1b2c3d4e5f" 18%float;
                  element "6a1d2b0f-8c2e-4d4b-af30-1b2c3d4e5f60" 0%float])] in
  exists input items,
    bulkCreateScoresSchema (formats := exampleFormats) body = inr input /\
    Forall2 (validBulkScore (formats := exampleFormats)) items
      (BulkCreateScoresInput.scores input) /\
    List.length items = 2%nat.
Proof.
  intros element body.
  destruct (bulkCreateScoresSchema_accepts_only_valid_scores exampleFormats
              body _ eq_refl)
    as (o & items & [= <-] & _ & _ & _ & _ & _ & [= <-] & Hs & _).
  eexists. eexists. split; [reflexivity|]. split; [exact Hs | reflexivity].
Defined.

Lemma number_rejects_type checks path v :
  notANumber v ->
  rejects (Zod.number checks path v) (ZodIssue.mk path invalid_type None).
Proof.
  intros H. unfold Zod.number.
  destruct v as [ | |b|x|s|items|fields];
    try (eexists; split; [reflexivity | now left]).
  rewrite (H x eq_refl). eexists. split; [reflexivity | now left].
Qed.

(** X11.  Nothing is coerced to a number.  A creation request whose
    [score], [maxScore] or [weight] is missing, [null], a string (also one
    of digits), a boolean, an array, an object or NaN is answered with
    [VALIDATION_ERROR], status 422, with an [invalid_type] issue for that
    key among the details; the store is left as it was. *)
Theorem a_value_that_is_not_a_number_is_refused :
  forall (World : Type) (prisma : PrismaClient World) (formats : ZodFormats)
         (w : World) (user : AuthUser.t) (id : string)
         (o : list (string * JsValue)) (k : string),
    In k ["score"; "maxScore"; "weight"] ->
    notANumber (field o k) ->
    exists issues,
      In (ZodIssue.mk [Key k] invalid_type None) issues /\
      GradingController.createScore (Request.mk (Some user) id (JObj o)) w =
      (w, errorResponse "VALIDATION_ERROR" "Invalid input" 422 (Some issues)).
Proof.
  intros World prisma formats w user id o k Hk Hv.
  assert (Hr : rejects (createScoreSchema (JObj o))
                 (ZodIssue.mk [Key k] invalid_type None)).
  { unfold createScoreSchema.
    destruct Hk as [<-|[<-|[<-|[]]]].
    - do 4 apply rejects_zap_l. apply rejects_zap_r.
      now apply number_rejects_type.
    - do 3 apply rejects_zap_l. apply rejects_zap_r.
      now apply number_rejects_type.
    - do 2 apply rejects_zap_l. apply rejects_zap_r.
      now apply number_rejects_type. }
  destruct Hr as (issues & Hs & Hin).
  exists issues. split; [assumption|].
  unfold GradingController.createScore, GradingController.authenticated.
  cbn [Request.user Request.body].
  now apply respond_rejected.
Qed.

(** The score sent as the string ["45"]: nothing is coerced. *)
Lemma a_value_that_is_not_a_number_is_refused_witness :
  let o := [("studentId", JStr (Student.id theStudent));
            ("classSubjectId", JStr (ClassSubject.id theClassSubject));
            ("subjectId", JStr (Subject.id theSubject));
            ("scoreType", JStr "QUIZ");
            ("score", JStr "45");
            ("maxScore", JNum 50%float);
            ("weight", JNum 1%float)] in
  exists issues,
    In (ZodIssue.mk [Key "score"] invalid_type None) issues /\
    GradingController.createScore (prisma := memoryStore)
      (formats := exampleFormats)
      (Request.mk (Some (AuthUser.mk "user-1" "t@school.la" "TEACHER"))
         "" (JObj o)) [] =
    ([], errorResponse "VALIDATION_ERROR" "Invalid input" 422 (Some issues)).
Proof.
  intros o.
  apply (a_value_that_is_not_a_number_is_refused (list Score.t) memoryStore
           exampleFormats [] (AuthUser.mk "user-1" "t@school.la" "TEACHER")
           "" o "score").
  - left. reflexivity.
  - intros x. discriminate.
Defined.

Section SchemaCompleteness.
Context {formats : ZodFormats}.

Lemma scoreSchema_accepts path v x :
  validScore v x -> scoreSchema path v = inr x.
Proof.
  intros [-> H]. unfold scoreSchema, Zod.number, Zod.runChecks, Zod.min.
  rewrite (ge_not_nan _ _ H). cbn [flat_map].
  now rewrite (ge_lt x 0%float (ge_not_nan _ _ H) eq_refl), H.
Qed.

Lemma maxScoreSchema_accepts path v x :
  validMaxScore v x -> maxScoreSchema path v = inr x.
Proof.
  intros [-> H].
  unfold maxScoreSchema, Zod.number, Zod.runChecks, Zod.positive.
  rewrite (gt_not_nan _ _ H). cbn [flat_map].
  pose proof (le_gt x 0%float (gt_not_nan _ _ H) eq_refl) as E.
  rewrite H in E. symmetry in E. apply negb_true_iff in E.
  now rewrite E.
Qed.

Lemma weightSchema_accepts path v x :
  validWeight v x -> weightSchema path v = inr x.
Proof.
  intros (-> & H0 & H1).
  unfold weightSchema, Zod.number, Zod.runChecks, Zod.min, Zod.max.
  rewrite (ge_not_nan _ _ H0). cbn [flat_map].
  rewrite (ge_lt x 0%float (ge_not_nan _ _ H0) eq_refl), H0.
  rewrite (le_gt x 1%float (ge_not_nan _ _ H0) eq_refl), H1.
  reflexivity.
Qed.

Lemma scoreTypeEnum_accepts path t :
  Zod.scoreTypeEnum path (JStr (scoreTypeName t)) = inr t.
Proof. now destruct t. Qed.

Lemma optional_str_accepts path s :
  Zod.optional Zod.str path (optionalString s) = inr s.
Proof. now destruct s. Qed.

Lemma optional_format_accepts check message path v s :
  optionally (fun v s => v = JStr s /\ check s = true) v s ->
  Zod.optional (Zod.string_format check message) path v = inr s.
Proof.
  destruct s as [s|]; cbn [optionally].
  - intros [-> H]. unfold Zod.optional, Zod.string_format. now rewrite H.
  - now intros ->.
Qed.
End SchemaCompleteness.

(** X12.  Conversely [createScoreSchema] accepts every object whose keys
    hold valid values, the bounds included: the ids pass the UUID check,
    [scoreType] is one of the six names, [score >= 0], [maxScore > 0] and
    [0 <= weight <= 1] with finite numbers, [notes] is a string or absent
    and [dateRecorded] passes the date check or is absent.  The data are
    the values of the keys; other keys of the object are ignored. *)
Theorem createScoreSchema_accepts_every_valid_body :
  forall (formats : ZodFormats) (o : list (string * JsValue))
         (input : CreateScoreInput.t),
    field o "studentId" = JStr (CreateScoreInput.studentId input) ->
    isUuid (CreateScoreInput.studentId input) = true ->
    field o "classSubjectId" = JStr (CreateScoreInput.classSubjectId input) ->
    isUuid (CreateScoreInput.classSubjectId input) = true ->
    field o "subjectId" = JStr (CreateScoreInput.subjectId input) ->
    isUuid (CreateScoreInput.subjectId input) = true ->
    field o "scoreType" =
      JStr (scoreTypeName (CreateScoreInput.scoreType input)) ->
    validScore (field o "score") (CreateScoreInput.score input) ->
    is_finite (CreateScoreInput.score input) = true ->
    validMaxScore (field o "maxScore") (CreateScoreInput.maxScore input) ->
    is_finite (CreateScoreInput.maxScore input) = true ->
    validWeight (field o "weight") (CreateScoreInput.weight input) ->
    field o "notes" = optionalString (CreateScoreInput.notes input) ->
    optionally (fun v s => v = JStr s /\ isDatetime s = true)
      (field o "dateRecorded") (CreateScoreInput.dateRecorded input) ->
    createScoreSchema (JObj o) = inr input.
Proof.
  intros formats o input H1 U1 H2 U2 H3 U3 Ht Hs _ Hm _ Hw Hn Hd.
  unfold createScoreSchema.
  rewrite H1, H2, H3, Ht, Hn.
  unfold Zod.string_format. rewrite U1, U2, U3.
  rewrite scoreTypeEnum_accepts, optional_str_accepts.
  rewrite (scoreSchema_accepts _ _ _ Hs), (maxScoreSchema_accepts _ _ _ Hm),
    (weightSchema_accepts _ _ _ Hw).
  fold (Zod.string_format isDatetime "Invalid date format").
  rewrite (optional_format_accepts _ _ _ _ _ Hd).
  now destruct input.
Qed.

(** The bounds themselves: a score of 0 and a weight of 1 are accepted. *)
Lemma createScoreSchema_accepts_every_valid_body_witness :
  createScoreSchema (formats := exampleFormats)
    (scoreBody (Student.id theStudent) (ClassSubject.id theClassSubject)
       (Subject.id theSubject) 0%float 0.5%float 1%float)
  = inr (CreateScoreInput.mk (Student.id theStudent)
           (ClassSubject.id theClassSubject) (Subject.id theSubject) QUIZ
           0%float 0.5%float 1%float None None).
Proof.
  apply (createScoreSchema_accepts_every_valid_body exampleFormats);
    repeat split.
Defined.


(** ** Further properties: the writes of the service *)

Section ServiceFacts.
Context {World : Type} {prisma : PrismaClient World} {formats : ZodFormats}.

Lemma respond_service {A B C : Type} (schema : JsValue -> ZodResult A)
  (service : A -> M World B) (ok : B -> Response C) code body input
  (w : World) :
  schema body = inr input ->
  GradingController.respond
    (validatedData <- GradingController.parse schema body ;;
     service validatedData) ok code w =
  GradingController.respond (service input) ok code w.
Proof.
  intros H. unfold GradingController.respond, GradingController.parse, bind.
  rewrite H. reflexivity.
Qed.

Lemma respond_Error {A B : Type} (m : M World A) (ok : A -> Response B)
  code message (w w' : World) :
  m w = (w', inl (Error message)) ->
  GradingController.respond m ok code w =
  (w', errorResponse code message 400 None).
Proof.
  intros H. unfold GradingController.respond. now rewrite H.
Qed.
End ServiceFacts.

(** X13.  [createScore] looks up the student, then the class subject, then
    the subject of a validated request, and the first that is missing
    decides the answer: [CREATE_SCORE_ERROR], status 400, with the message
    'Student not found', 'Class subject not found' or 'Subject not found'.
    Nothing has been written by then: the store is the one of the
    request. *)
Theorem createScore_checks_references_in_order :
  forall (World : Type) (prisma : PrismaClient World) (formats : ZodFormats)
         (w : World) (user : AuthUser.t) (id : string) (body : JsValue)
         (input : CreateScoreInput.t),
    createScoreSchema body = inr input ->
    let refused := fun message =>
      GradingController.createScore (Request.mk (Some user) id body) w =
      (w, errorResponse "CREATE_SCORE_ERROR" message 400 None) in
    let student :=
      student_findUnique w (CreateScoreInput.studentId input) in
    let classSubject :=
      classSubject_findUnique w (CreateScoreInput.classSubjectId input) in
    let subject :=
      subject_findUnique w (CreateScoreInput.subjectId input) in
    (student = None -> refused "Student not found") /\
    (student <> None -> classSubject = None ->
     refused "Class subject not found") /\
    (student <> None -> classSubject <> None -> subject = None ->
     refused "Subject not found").
Proof.
  intros World prisma formats w user id body input Hparse
    refused student classSubject subject.
  unfold refused, GradingController.createScore,
    GradingController.authenticated.
  cbn [Request.user Request.body].
  rewrite (respond_service _ _ _ _ _ _ _ Hparse).
  subst student classSubject subject.
  repeat split; intros; apply respond_Error;
    unfold GradingService.createScore, bind, found; cbv beta;
    destruct (student_findUnique w _) as [st|]; try congruence;
    destruct (classSubject_findUnique w _) as [cs|]; try congruence;
    destruct (subject_findUnique w _) as [sb|]; congruence.
Qed.

Lemma createScore_checks_references_in_order_witness :
  let body := scoreBody "6a1d2b0f-8c2e-4d4b-af30-1b2c3d4e5f60"
                (ClassSubject.id theClassSubject) (Subject.id theSubject)
                45%float 50%float 1%float in
  GradingController.createScore (prisma := memoryStore)
    (formats := exampleFormats)
    (Request.mk (Some (AuthUser.mk "user-1" "t@school.la" "TEACHER")) ""
       body) [] =
  ([], errorResponse "CREATE_SCORE_ERROR" "Student not found" 400 None).
Proof.
  intros body.
  exact (proj1 (createScore_checks_references_in_order (list Score.t)
                  memoryStore exampleFormats []
                  (AuthUser.mk "user-1" "t@school.la" "TEACHER") "" body _
                  eq_refl) eq_refl).
Defined.

(** *** What a failed write leaves behind *)

Lemma transaction_rolls_back {World A : Type} (m : M World A)
  (w w' : World) e :
  transaction m w = (w', inl e) -> w' = w.
Proof.
  unfold transaction. destruct (m w) as [w1 [e1|a]]; now intros [= <-].
Qed.

Lemma bulkCreateScores_rolls_back {World : Type} {prisma : PrismaClient World}
  input user (w w' : World) e :
  GradingService.bulkCreateScores input user w = (w', inl e) -> w' = w.
Proof.
  unfold GradingService.bulkCreateScores, bind, found, read, throw.
  destruct (classSubject_findUnique w _) as [cs|]; [|now intros [= <-]].
  destruct (subject_findUnique w _) as [sb|]; [|now intros [= <-]].
  destruct (negb _); [now intros [= <-]|].
  apply transaction_rolls_back.
Qed.

(** X14.  A bulk creation is all or nothing.  Whenever the answer to a bulk
    request is an error, whichever it is (no user, a refused body, a missing
    class subject, subject or student, a row or the audit entry the store
    refuses), the store is the one before the request: no row of the request
    stays behind. *)
Theorem failed_bulk_creation_writes_nothing :
  forall (World : Type) (prisma : PrismaClient World) (formats : ZodFormats)
         (req : Request.t) (w w' : World) (code message : string)
         (status : Z) (details : option (list ZodIssue.t)),
    GradingController.bulkCreateScores req w =
      (w', errorResponse code message status details) ->
    w' = w.
Proof.
  intros World prisma formats req w w' code message status details.
  unfold GradingController.bulkCreateScores, GradingController.authenticated.
  destruct (Request.user req) as [user|]; [|now intros [= <-]].
  unfold GradingController.respond, GradingController.parse, bind.
  destruct (bulkCreateScoresSchema (Request.body req)) as [issues|input];
    cbn [throw ret].
  - rewrite String.eqb_refl. now intros [= <-].
  - destruct (GradingService.bulkCreateScores input (AuthUser.userId user) w)
      as [w1 [e|created]] eqn:E.
    + apply bulkCreateScores_rolls_back in E. subst w1.
      destruct (String.eqb (JsError.name e) "ZodError"); now intros [= <-].
    + discriminate.
Qed.

(** In a store whose audit log refuses every entry the rows of a bulk
    creation are rolled back: the store is empty as before. *)
Lemma failed_bulk_creation_writes_nothing_witness :
  let body :=
    JObj [("classSubjectId", JStr (ClassSubject.id theClassSubject));
          ("subjectId", JStr (Subject.id theSubject));
          ("scoreType", JStr "QUIZ");
          ("maxScore", JNum 20%float);
          ("weight", JNum 0.25%float);
          ("scores",
            JArr [JObj [("studentId", JStr (Student.id theStudent));
                        ("score", JNum 18%float)]])] in
  let req := Request.mk (Some (AuthUser.mk "user-1" "t@school.la" "TEACHER"))
               "" body in
  exists w',
    GradingController.bulkCreateScores (prisma := memoryStoreWithoutAudit)
      (formats := exampleFormats) req [] =
    (w', errorResponse "BULK_CREATE_SCORES_ERROR" "audit log unavailable"
           400 None) /\
    w' = [].
Proof.
  intros body req. eexists. split; [reflexivity|].
  exact (failed_bulk_creation_writes_nothing (list Score.t)
           memoryStoreWithoutAudit exampleFormats req [] _ _ _ _ _ eq_refl).
Defined.

(** X15.  A single creation is not all or nothing.  When the row of a
    validated request has been written and the store then refuses the audit
    entry, the request is answered with [CREATE_SCORE_ERROR], status 400,
    and the message of that refusal, and the store is the one the two writes
    left: the write of the row is not undone. *)
Theorem createScore_keeps_the_score_when_the_audit_log_fails :
  forall (World : Type) (prisma : PrismaClient World) (formats : ZodFormats)
         (w w1 w2 : World) (user : AuthUser.t) (id : string) (body : JsValue)
         (input : CreateScoreInput.t) (row : Score.t) (error : JsError.t),
    createScoreSchema body = inr input ->
    student_findUnique w (CreateScoreInput.studentId input) <> None ->
    classSubject_findUnique w (CreateScoreInput.classSubjectId input)
      <> None ->
    subject_findUnique w (CreateScoreInput.subjectId input) <> None ->
    score_create w (createData input w) = (w1, inr row) ->
    (forall entry, auditLog_create w1 entry = (w2, inl error)) ->
    String.eqb (JsError.name error) "ZodError" = false ->
    GradingController.createScore (Request.mk (Some user) id body) w =
    (w2, errorResponse "CREATE_SCORE_ERROR" (JsError.message error) 400 None).
Proof.
  intros World prisma formats w w1 w2 user id body input row error
    Hparse Hst Hcs Hsb Hcreate Haudit Hname.
  unfold GradingController.createScore, GradingController.authenticated.
  cbn [Request.user Request.body].
  rewrite (respond_service _ _ _ _ _ _ _ Hparse).
  unfold GradingController.respond, GradingService.createScore, bind, found.
  destruct (student_findUnique w _) as [st|]; [|congruence].
  destruct (classSubject_findUnique w _) as [cs|]; [|congruence].
  destruct (subject_findUnique w _) as [sb|]; [|congruence].
  assert (Hdate : GradingService.dateOf
                    (CreateScoreInput.dateRecorded input) w =
                  (w, inr (ScoreCreate.dateRecorded (createData input w)))).
  { unfold GradingService.dateOf, createData, truthy, read, ret.
    cbn [ScoreCreate.dateRecorded].
    destruct (CreateScoreInput.dateRecorded input) as [s|]; [|reflexivity].
    now destruct (String.eqb s ""). }
  rewrite Hdate. fold (createData input w) in *.
  change (ScoreCreate.mk _ _ _ _ _ _ _ _
            (ScoreCreate.dateRecorded (createData input w)))
    with (createData input w).
  rewrite Hcreate, Haudit, Hname. reflexivity.
Qed.

(** The same store on a single creation: the answer is an error and the
    row is in the store. *)
Lemma createScore_keeps_the_score_when_the_audit_log_fails_witness :
  let body := scoreBody (Student.id theStudent)
                (ClassSubject.id theClassSubject) (Subject.id theSubject)
                45%float 50%float 1%float in
  exists row,
    GradingController.createScore (prisma := memoryStoreWithoutAudit)
      (formats := exampleFormats)
      (Request.mk (Some (AuthUser.mk "user-1" "t@school.la" "TEACHER")) ""
         body) [] =
    ([row], errorResponse "CREATE_SCORE_ERROR" "audit log unavailable"
              400 None) /\
    Score.score row = 4500.
Proof.
  intros body. eexists. split.
  - eapply (createScore_keeps_the_score_when_the_audit_log_fails
             (list Score.t) memoryStoreWithoutAudit exampleFormats [] _ _
             (AuthUser.mk "user-1" "t@school.la" "TEACHER") "" body _ _
             (Error "audit log unavailable") eq_refl).
    + discriminate.
    + discriminate.
    + discriminate.
    + reflexivity.
    + intros entry. reflexivity.
    + reflexivity.
  - reflexivity.
Defined.

(** *** Bulk creation: the students of the request *)

Lemma nodup_length_lt (l : list string) :
  ~ NoDup l -> (List.length (nodup string_dec l) < List.length l)%nat.
Proof.
  induction l as [|a l IH]; intros H.
  - exfalso. apply H. constructor.
  - cbn [nodup List.length].
    assert (Hle : (List.length (nodup string_dec l) <= List.length l)%nat).
    { apply NoDup_incl_length; [apply NoDup_nodup|].
      intros x Hx. now apply nodup_In in Hx. }
    destruct (in_dec string_dec a l) as [Hin|Hnot].
    + lia.
    + cbn [List.length]. apply -> Nat.succ_lt_mono. apply IH.
      intros Hnd. apply H. now constructor.
Qed.

(** X16.  A bulk request that names one student twice is refused with
    'One or more students not found' and writes nothing, although every
    student exists: the service compares the number of students found with
    the number of ids sent, and the query returns a student once.  It holds
    for a store whose [student.findMany] returns students of the ids asked
    for, each once. *)
Theorem bulk_creation_refuses_a_student_listed_twice :
  forall (World : Type) (prisma : PrismaClient World) (w : World)
         (input : BulkCreateScoresInput.t) (user : string),
    let studentIds :=
      map BulkScore.studentId (BulkCreateScoresInput.scores input) in
    let students := student_findMany w studentIds in
    classSubject_findUnique w (BulkCreateScoresInput.classSubjectId input)
      <> None ->
    subject_findUnique w (BulkCreateScoresInput.subjectId input) <> None ->
    NoDup (map Student.id students) ->
    incl (map Student.id students) studentIds ->
    ~ NoDup studentIds ->
    GradingService.bulkCreateScores input user w =
    (w, inl (Error "One or more students not found")).
Proof.
  intros World prisma w input user studentIds students Hcs Hsb Hnd Hincl Hdup.
  unfold GradingService.bulkCreateScores, bind, found, read, throw.
  destruct (classSubject_findUnique w _) as [cs|]; [|congruence].
  destruct (subject_findUnique w _) as [sb|]; [|congruence].
  fold studentIds. fold students.
  assert (Hlt : (List.length students < List.length studentIds)%nat).
  { rewrite <- (length_map Student.id students).
    eapply Nat.le_lt_trans; [|apply nodup_length_lt, Hdup].
    apply NoDup_incl_length; [assumption|].
    intros x Hx. apply nodup_In. now apply Hincl. }
  destruct (Nat.eqb_spec (List.length students) (List.length studentIds));
    [lia | reflexivity].
Qed.

Lemma bulk_creation_refuses_a_student_listed_twice_witness :
  let input :=
    BulkCreateScoresInput.mk (ClassSubject.id theClassSubject)
      (Subject.id theSubject) QUIZ 20%float 0.25%float
      [BulkScore.mk (Student.id theStudent) 18%float None;
       BulkScore.mk (Student.id theStudent) 12%float None] None in
  GradingService.bulkCreateScores (prisma := memoryStore) input "user-1" [] =
  ([], inl (Error "One or more students not found")).
Proof.
  intros input.
  apply (bulk_creation_refuses_a_student_listed_twice (list Score.t)
           memoryStore [] input "user-1").
  - discriminate.
  - discriminate.
  - repeat constructor. simpl. tauto.
  - intros x [<-|[]]. left. reflexivity.
  - intros H. inversion H as [|? ? Hnot _]. apply Hnot. left. reflexivity.
Defined.

(** X17.  A bulk request with an empty [scores] array passes the validation
    and, once its class subject and subject exist, succeeds: no row is
    written, one audit entry with [count: 0] is, and the answer is status 201
    with no scores, a count of 0 and the message
    '0 scores created successfully'. *)
Theorem empty_bulk_creation_succeeds :
  forall (World : Type) (prisma : PrismaClient World) (formats : ZodFormats)
         (w w' : World) (user : AuthUser.t) (id : string) (body : JsValue)
         (input : BulkCreateScoresInput.t),
    bulkCreateScoresSchema body = inr input ->
    BulkCreateScoresInput.scores input = [] ->
    classSubject_findUnique w (BulkCreateScoresInput.classSubjectId input)
      <> None ->
    subject_findUnique w (BulkCreateScoresInput.subjectId input) <> None ->
    student_findMany w [] = [] ->
    auditLog_create w
      (AuditLog.mk (AuthUser.userId user) "CREATE" "Score" None
         (Some (JObj
            [("bulkCreate", JBool true);
             ("classSubjectId",
               JStr (BulkCreateScoresInput.classSubjectId input));
             ("scoreType",
               JStr (scoreTypeName (BulkCreateScoresInput.scoreType input)));
             ("count", JNum 0%float)]))) = (w', inr tt) ->
    GradingController.bulkCreateScores (Request.mk (Some user) id body) w =
    (w', successResponse ([], 0%nat) "0 scores created successfully"
           (Some 201)).
Proof.
  intros World prisma formats w w' user id body input Hparse Hempty Hcs Hsb
    Hmany Haudit.
  unfold GradingController.bulkCreateScores, GradingController.authenticated.
  cbn [Request.user Request.body].
  rewrite (respond_service _ _ _ _ _ _ _ Hparse).
  unfold GradingController.respond, GradingService.bulkCreateScores, bind,
    found, read, throw, transaction.
  destruct (classSubject_findUnique w _) as [cs|]; [|congruence].
  destruct (subject_findUnique w _) as [sb|]; [|congruence].
  rewrite Hempty. cbn [map mapM ret List.length Z.of_nat Js.ofZ].
  rewrite Hmany. cbn [List.length Nat.eqb negb].
  rewrite Haudit. reflexivity.
Qed.

Lemma empty_bulk_creation_succeeds_witness :
  let body :=
    JObj [("classSubjectId", JStr (ClassSubject.id theClassSubject));
          ("subjectId", JStr (Subject.id theSubject));
          ("scoreType", JStr "QUIZ");
          ("maxScore", JNum 20%float);
          ("weight", JNum 0.25%float);
          ("scores", JArr [])] in
  GradingController.bulkCreateScores (prisma := memoryStore)
    (formats := exampleFormats)
    (Request.mk (Some (AuthUser.mk "user-1" "t@school.la" "TEACHER")) ""
       body) [] =
  ([], successResponse ([], 0%nat) "0 scores created successfully"
         (Some 201)).
Proof.
  intros body.
  apply (empty_bulk_creation_succeeds (list Score.t) memoryStore
           exampleFormats [] []
           (AuthUser.mk "user-1" "t@school.la" "TEACHER") "" body _ eq_refl);
    try discriminate; reflexivity.
Defined.

(** *** Score ids that do not exist *)

(** X18.  For an id that no score has, reading, deleting and updating
    answer with the message 'Score not found' and leave the store as it
    was, nothing being written or logged: [GET_SCORE_ERROR] with status 404
    for the read, [DELETE_SCORE_ERROR] and, for a body that passes the
    validation, [UPDATE_SCORE_ERROR], both with status 400. *)
Theorem unknown_score_id_is_refused :
  forall (World : Type) (prisma : PrismaClient World)
         (prismaDelete : PrismaScoreDelete World) (w : World)
         (user : AuthUser.t) (id : string) (body : JsValue),
    score_findUnique w id = None ->
    GradingController.getScoreById (Request.mk (Some user) id body) w =
      (w, errorResponse "GET_SCORE_ERROR" "Score not found" 404 None) /\
    GradingController.deleteScore (Request.mk (Some user) id body) w =
      (w, errorResponse "DELETE_SCORE_ERROR" "Score not found" 400 None) /\
    (forall input,
       updateScoreSchema body = inr input ->
       GradingController.updateScore (Request.mk (Some user) id body) w =
       (w, errorResponse "UPDATE_SCORE_ERROR" "Score not found" 400 None)).
Proof.
  intros World prisma prismaDelete w user id body Hnone. repeat split.
  - unfold GradingController.getScoreById, GradingController.respondWith,
      GradingService.getScoreById, found.
    cbn [Request.id]. now rewrite Hnone.
  - unfold GradingController.deleteScore, GradingController.authenticated,
      GradingController.respondWith, GradingService.deleteScore, bind, found.
    cbn [Request.user Request.id]. now rewrite Hnone.
  - intros input Hparse.
    unfold GradingController.updateScore, GradingController.authenticated.
    cbn [Request.user Request.body Request.id].
    rewrite (respond_service _ _ _ _ _ _ _ Hparse).
    apply respond_Error.
    unfold GradingService.updateScore, bind, found. now rewrite Hnone.
Qed.

Lemma unknown_score_id_is_refused_witness :
  let teacher := AuthUser.mk "user-1" "t@school.la" "TEACHER" in
  GradingController.deleteScore (prisma := memoryStore)
    (prismaDelete := memoryDelete)
    (Request.mk (Some teacher) "score-7" JUndefined) [] =
  ([], errorResponse "DELETE_SCORE_ERROR" "Score not found" 400 None).
Proof.
  intros teacher.
  exact (proj1 (proj2 (unknown_score_id_is_refused (list Score.t)
                         memoryStore memoryDelete [] teacher "score-7"
                         JUndefined eq_refl))).
Defined.


(** ** Further properties: the router *)

Section RouterFacts.
Context {World : Type} {prisma : PrismaClient World}
  {prismaDelete : PrismaScoreDelete World} {formats : ZodFormats}
  {jwt : JwtUtil}.

Lemma route_unverified {A : Type} roles
  (handler : HttpRequest.t -> World -> World * Response A) req message
  (w : World) :
  unverified req message ->
  GradingRoutes.route roles handler req w =
  (w, errorResponse "AUTH_ERROR" message 401 None).
Proof.
  unfold unverified, GradingRoutes.route, authenticate.
  destruct (HttpRequest.authorization req) as [h|]; [|now intros ->].
  destruct (String.prefix "Bearer " h); [|now intros ->].
  intros [-> H].
  destruct (nth_error (split Ascii.Space h) 1) as [token|]; [|reflexivity].
  cbn [option_map]. now rewrite (H token eq_refl).
Qed.

Lemma route_verified {A : Type} roles
  (handler : HttpRequest.t -> World -> World * Response A) req user
  (w : World) :
  verified req user ->
  GradingRoutes.route roles handler req w =
  if existsb (String.eqb (AuthUser.role user)) roles
  then handler (withUser req user) w
  else (w, errorResponse "FORBIDDEN"
             "You do not have permission to access this resource" 403 None).
Proof.
  intros (token & (h & Hh & Hp & Ht) & Hv).
  unfold GradingRoutes.route, authenticate, authorize, withUser.
  rewrite Hh, Hp, Ht. cbn [option_map]. rewrite Hv.
  cbn [HttpRequest.user]. now destruct user.
Qed.

Lemma verified_or_unverified req :
  (exists user, verified req user) \/ (exists message, unverified req message).
Proof.
  unfold verified, unverified, bearer.
  destruct (HttpRequest.authorization req) as [h|]; [|right; eauto].
  destruct (String.prefix "Bearer " h) eqn:Hp; [|right; eauto].
  destruct (nth_error (split Ascii.Space h) 1) as [token|] eqn:Ht.
  - destruct (verifyAccessToken token) as [user|] eqn:Hv.
    + left. exists user, token. split; [|assumption]. exists h. auto.
    + right. eexists. split; [reflexivity|]. now intros t [= <-].
  - right. eexists. split; [reflexivity|]. discriminate.
Qed.
End RouterFacts.

Lemma existsb_staff role :
  existsb (String.eqb role) ["ADMIN"; "TEACHER"] = true <->
  role = "ADMIN" \/ role = "TEACHER".
Proof.
  cbn [existsb]. rewrite !orb_true_iff, !String.eqb_eq.
  intuition discriminate.
Qed.

(** X19.  Every route of the grading router refuses, with [AUTH_ERROR] and
    status 401, a request without an [Authorization] header starting with
    'Bearer ' ('No token provided') and a request whose token does not
    verify ('Invalid or expired token').  A verified user who is neither
    ADMIN nor TEACHER is refused with [FORBIDDEN], status 403, on every
    route but the report card, and on the report card too unless the role
    is STUDENT or PARENT.  No refusal touches the store. *)
Theorem the_router_refuses_who_is_not_allowed :
  forall (World : Type) (prisma : PrismaClient World)
         (prismaDelete : PrismaScoreDelete World) (formats : ZodFormats)
         (jwt : JwtUtil) (req : HttpRequest.t) (w : World),
    let refused := fun (A : Type) (answer : World * Response A)
                       (code message : string) (status : Z) =>
      answer = (w, errorResponse code message status None) in
    let forbidden := fun (A : Type) (answer : World * Response A) =>
      refused A answer "FORBIDDEN"
        "You do not have permission to access this resource" 403 in
    (forall message,
       unverified req message ->
       refused _ (GradingRoutes.getScore req w) "AUTH_ERROR" message 401 /\
       refused _ (GradingRoutes.postScore req w) "AUTH_ERROR" message 401 /\
       refused _ (GradingRoutes.postScoresBulk req w)
         "AUTH_ERROR" message 401 /\
       refused _ (GradingRoutes.putScore req w) "AUTH_ERROR" message 401 /\
       refused _ (GradingRoutes.deleteScore req w) "AUTH_ERROR" message 401 /\
       refused _ (GradingRoutes.getStudentGrades req w)
         "AUTH_ERROR" message 401 /\
       refused _ (GradingRoutes.getClassSubjectScores req w)
         "AUTH_ERROR" message 401) /\
    (forall user,
       verified req user -> ~ isStaff user ->
       forbidden _ (GradingRoutes.getScore req w) /\
       forbidden _ (GradingRoutes.postScore req w) /\
       forbidden _ (GradingRoutes.postScoresBulk req w) /\
       forbidden _ (GradingRoutes.putScore req w) /\
       forbidden _ (GradingRoutes.deleteScore req w) /\
       forbidden _ (GradingRoutes.getClassSubjectScores req w) /\
       (AuthUser.role user <> "STUDENT" -> AuthUser.role user <> "PARENT" ->
        forbidden _ (GradingRoutes.getStudentGrades req w))).
Proof.
  intros World prisma prismaDelete formats jwt req w refused forbidden.
  split.
  - intros message H. unfold refused.
    repeat split; now apply route_unverified.
  - intros user Hv Hstaff. unfold forbidden, refused.
    assert (Hno : existsb (String.eqb (AuthUser.role user))
                    ["ADMIN"; "TEACHER"] = false).
    { destruct (existsb _ _) eqn:E; [|reflexivity].
      apply existsb_staff in E. contradiction. }
    repeat split;
      try (unfold GradingRoutes.getScore, GradingRoutes.postScore,
             GradingRoutes.postScoresBulk, GradingRoutes.putScore,
             GradingRoutes.deleteScore, GradingRoutes.getClassSubjectScores;
           rewrite (route_verified _ _ _ _ _ Hv), Hno; reflexivity).
    intros Hs Hp. unfold GradingRoutes.getStudentGrades.
    rewrite (route_verified _ _ _ _ _ Hv).
    assert (Hno' : existsb (String.eqb (AuthUser.role user))
                     ["ADMIN"; "TEACHER"; "STUDENT"; "PARENT"] = false).
    { cbn [existsb] in *. rewrite !orb_false_iff in *.
      destruct Hno as (Ha & Ht & _). repeat split; try assumption;
        now apply String.eqb_neq. }
    now rewrite Hno'.
Qed.

(** A student's token on POST /scores. *)
Lemma the_router_refuses_who_is_not_allowed_witness :
  let req :=
    HttpRequest.mk (Some "Bearer student-token") None "" []
      (scoreBody (Student.id theStudent) (ClassSubject.id theClassSubject)
         (Subject.id theSubject) 50%float 50%float 1%float) in
  GradingRoutes.postScore (prisma := memoryStore) (formats := exampleFormats)
    (jwt := exampleJwt) req [] =
  ([], errorResponse "FORBIDDEN"
         "You do not have permission to access this resource" 403 None).
Proof.
  intros req.
  refine (proj1 (proj2 (proj2 (the_router_refuses_who_is_not_allowed
            (list Score.t) memoryStore memoryDelete exampleFormats exampleJwt
            req []) (AuthUser.mk "user-2" "s@school.la" "STUDENT") _ _))).
  - exists "student-token". split; [|reflexivity].
    exists "Bearer student-token". repeat split.
  - intros [H|H]; discriminate.
Defined.

Section ReadOnly.
Context {World : Type} {prisma : PrismaClient World}.

Lemma respondWith_fst {A B : Type} (m : M World A) (ok : A -> Response B)
  code status (w : World) :
  fst (m w) = w -> fst (GradingController.respondWith m ok code status w) = w.
Proof.
  unfold GradingController.respondWith.
  now destruct (m w) as [w' [e|a]].
Qed.

Lemma getStudentGrades_reads studentId semesterId (w : World) :
  GradingService.getStudentGrades studentId semesterId w =
  (w, match student_findUnique w studentId with
      | Some _ =>
          inr (studentGrades
                 (score_findMany w
                    (ScoreQuery.mk (Some studentId) None
                       (if truthy semesterId then semesterId else None) [])))
      | None => inl (Error "Student not found")
      end).
Proof.
  unfold GradingService.getStudentGrades, bind, found, read, ret.
  now destruct (student_findUnique w studentId).
Qed.

Lemma getClassSubjectScores_reads classSubjectId (w : World) :
  fst (GradingService.getClassSubjectScores classSubjectId w) = w.
Proof.
  unfold GradingService.getClassSubjectScores, bind, found, read, ret.
  now destruct (classSubject_findUnique w classSubjectId).
Qed.
End ReadOnly.

(** X20.  Through the router only staff change the store: a request to
    create, bulk-create, update or delete that leaves another store than it
    found carries a token that verifies as an ADMIN or a TEACHER.  The three
    reading routes never change the store. *)
Theorem only_staff_can_change_the_store :
  forall (World : Type) (prisma : PrismaClient World)
         (prismaDelete : PrismaScoreDelete World) (formats : ZodFormats)
         (jwt : JwtUtil) (req : HttpRequest.t) (w : World),
    let staff := exists user, verified req user /\ isStaff user in
    (fst (GradingRoutes.postScore req w) <> w -> staff) /\
    (fst (GradingRoutes.postScoresBulk req w) <> w -> staff) /\
    (fst (GradingRoutes.putScore req w) <> w -> staff) /\
    (fst (GradingRoutes.deleteScore req w) <> w -> staff) /\
    fst (GradingRoutes.getScore req w) = w /\
    fst (GradingRoutes.getStudentGrades req w) = w /\
    fst (GradingRoutes.getClassSubjectScores req w) = w.
Proof.
  intros World prisma prismaDelete formats jwt req w staff.
  assert (Hwrite : forall (A : Type)
            (handler : HttpRequest.t -> World -> World * Response A),
            fst (GradingRoutes.route ["ADMIN"; "TEACHER"] handler req w) <> w
            -> staff).
  { intros A handler H.
    destruct (verified_or_unverified req) as [[user Hv]|[message Hu]].
    - rewrite (route_verified _ _ _ _ _ Hv) in H.
      destruct (existsb _ _) eqn:E; [|now elim H].
      exists user. split; [assumption | now apply existsb_staff]. 
    - rewrite (route_unverified _ _ _ _ _ Hu) in H. now elim H. }
  assert (Hread : forall (A : Type) roles
            (handler : HttpRequest.t -> World -> World * Response A),
            (forall r, fst (handler r w) = w) ->
            fst (GradingRoutes.route roles handler req w) = w).
  { intros A roles handler H.
    destruct (verified_or_unverified req) as [[user Hv]|[message Hu]].
    - rewrite (route_verified _ _ _ _ _ Hv).
      destruct (existsb _ _); [apply H | reflexivity].
    - now rewrite (route_unverified _ _ _ _ _ Hu). }
  repeat split; try (apply Hwrite); apply Hread; intros r.
  - apply respondWith_fst. unfold GradingService.getScoreById, found.
    now destruct (score_findUnique w _).
  - apply respondWith_fst. now rewrite getStudentGrades_reads.
  - apply respondWith_fst, getClassSubjectScores_reads.
Qed.

(** A teacher's token on POST /scores: the row is written. *)
Lemma only_staff_can_change_the_store_witness :
  let req :=
    HttpRequest.mk (Some "Bearer teacher-token") None "" []
      (scoreBody (Student.id theStudent) (ClassSubject.id theClassSubject)
         (Subject.id theSubject) 45%float 50%float 1%float) in
  List.length
    (fst (GradingRoutes.postScore (prisma := memoryStore)
            (formats := exampleFormats) (jwt := exampleJwt) req []))
  = 1%nat /\
  exists user, verified (jwt := exampleJwt) req user /\ isStaff user.
Proof.
  intros req. split; [reflexivity|].
  apply (proj1 (only_staff_can_change_the_store (list Score.t) memoryStore
                  memoryDelete exampleFormats exampleJwt req [])).
  discriminate.
Defined.

(** *** The check the controllers repeat *)

Section Answers.
Context {World : Type} {prisma : PrismaClient World}.

Lemma respond_code {A B : Type} (m : M World A) (ok : A -> Response B)
  errorCode (w : World) code message status details :
  (forall a, exists data text st, ok a = successResponse data text st) ->
  snd (GradingController.respond m ok errorCode w) =
    errorResponse code message status details ->
  code = "VALIDATION_ERROR" \/ code = errorCode.
Proof.
  intros Hok. unfold GradingController.respond.
  destruct (m w) as [w' [e|a]]; cbn [snd].
  - destruct (String.eqb (JsError.name e) "ZodError"); intros [= <- _ _ _];
      auto.
  - destruct (Hok a) as (data & text & st & ->). discriminate.
Qed.

Lemma respondWith_code {A B : Type} (m : M World A) (ok : A -> Response B)
  errorCode errorStatus (w : World) code message status details :
  (forall a, exists data text st, ok a = successResponse data text st) ->
  snd (GradingController.respondWith m ok errorCode errorStatus w) =
    errorResponse code message status details ->
  code = errorCode.
Proof.
  intros Hok. unfold GradingController.respondWith.
  destruct (m w) as [w' [e|a]]; cbn [snd].
  - now intros [= <- _ _ _].
  - destruct (Hok a) as (data & text & st & ->). discriminate.
Qed.
End Answers.

(** X21.  Behind the router the check [if (!req.user)] never fires: no
    route ever answers [AUTH_ERROR] 'User not authenticated', because
    [authenticate] has attached the user before [authorize] and the
    controller look for it. *)
Theorem the_router_always_attaches_the_user :
  forall (World : Type) (prisma : PrismaClient World)
         (prismaDelete : PrismaScoreDelete World) (formats : ZodFormats)
         (jwt : JwtUtil) (req : HttpRequest.t) (w : World),
    let unauthenticated := fun (A : Type) (answer : World * Response A) =>
      snd answer =
      errorResponse "AUTH_ERROR" "User not authenticated" 401 None in
    ~ unauthenticated _ (GradingRoutes.postScore req w) /\
    ~ unauthenticated _ (GradingRoutes.postScoresBulk req w) /\
    ~ unauthenticated _ (GradingRoutes.putScore req w) /\
    ~ unauthenticated _ (GradingRoutes.deleteScore req w) /\
    ~ unauthenticated _ (GradingRoutes.getScore req w) /\
    ~ unauthenticated _ (GradingRoutes.getStudentGrades req w) /\
    ~ unauthenticated _ (GradingRoutes.getClassSubjectScores req w).
Proof.
  intros World prisma prismaDelete formats jwt req w unauthenticated.
  assert (Hroute : forall (A : Type) roles
            (handler : HttpRequest.t -> World -> World * Response A),
            (forall user, ~ unauthenticated A (handler (withUser req user) w))
            -> ~ unauthenticated A (GradingRoutes.route roles handler req w)).
  { intros A roles handler H. unfold unauthenticated.
    destruct (verified_or_unverified req) as [[user Hv]|[message Hu]].
    - rewrite (route_verified _ _ _ _ _ Hv).
      destruct (existsb _ _); [apply H | discriminate].
    - rewrite (route_unverified _ _ _ _ _ Hu). cbn [snd].
      unfold unverified in Hu.
      destruct (HttpRequest.authorization req) as [h|];
        [destruct (String.prefix "Bearer " h); [destruct Hu as [Hu _]|]|];
        subst message; discriminate. }
  unfold GradingRoutes.postScore, GradingRoutes.postScoresBulk,
    GradingRoutes.putScore, GradingRoutes.deleteScore, GradingRoutes.getScore,
    GradingRoutes.getStudentGrades, GradingRoutes.getClassSubjectScores.
  repeat split; apply Hroute; intros user H; unfold unauthenticated in H;
    unfold GradingController.createScore, GradingController.bulkCreateScores,
      GradingController.updateScore, GradingController.deleteScore,
      GradingController.getScoreById, GradingController.getStudentGrades,
      GradingController.getClassSubjectScores,
      GradingController.authenticated in H;
    cbn [GradingRoutes.request withUser Request.user HttpRequest.user] in H;
    first [ apply respond_code in H; [destruct H; discriminate | eauto]
          | apply respondWith_code in H; [discriminate | eauto] ].
Qed.

(** X22.  The report card route checks the role and nothing else.  For a
    verified user with one of the roles ADMIN, TEACHER, STUDENT, PARENT the
    answer is the report card of the student of the path (or 'Student not
    found', status 400): it depends on the path, the [semesterId] of the
    query and the store, not on who the user is, so a student reads the
    report card of any student. *)
Theorem any_reader_gets_any_report_card :
  forall (World : Type) (prisma : PrismaClient World) (jwt : JwtUtil)
         (req : HttpRequest.t) (w : World) (user : AuthUser.t),
    verified req user ->
    In (AuthUser.role user) ["ADMIN"; "TEACHER"; "STUDENT"; "PARENT"] ->
    let studentId := HttpRequest.param req in
    let semesterId := JsObject.get (HttpRequest.query req) "semesterId" in
    GradingRoutes.getStudentGrades req w =
    (w, match student_findUnique w studentId with
        | Some _ =>
            successResponse
              (studentGrades
                 (score_findMany w
                    (ScoreQuery.mk (Some studentId) None
                       (if truthy semesterId then semesterId else None) [])))
              "Student grades retrieved successfully" None
        | None =>
            errorResponse "GET_STUDENT_GRADES_ERROR" "Student not found"
              400 None
        end).
Proof.
  intros World prisma jwt req w user Hv Hrole studentId semesterId.
  unfold GradingRoutes.getStudentGrades.
  rewrite (route_verified _ _ _ _ _ Hv).
  assert (Hyes : existsb (String.eqb (AuthUser.role user))
                   ["ADMIN"; "TEACHER"; "STUDENT"; "PARENT"] = true).
  { apply existsb_exists. exists (AuthUser.role user).
    split; [assumption | apply String.eqb_refl]. }
  rewrite Hyes.
  unfold GradingController.getStudentGrades, GradingController.respondWith.
  cbn [withUser HttpRequest.param HttpRequest.query].
  fold studentId semesterId.
  rewrite getStudentGrades_reads.
  now destruct (student_findUnique w studentId).
Qed.

(** The token of the user "user-2", a student, and the report card of the
    student of the store. *)
Lemma any_reader_gets_any_report_card_witness :
  let row :=
    Score.mk "score-0" (Student.id theStudent)
      (ClassSubject.id theClassSubject) (Subject.id theSubject) QUIZ
      4500 5000 100 None 0 theSubject (ClassSubject.class theClassSubject)
      (ClassSubject.semester theClassSubject) in
  let req :=
    HttpRequest.mk (Some "Bearer student-token") None (Student.id theStudent)
      [] JUndefined in
  GradingRoutes.getStudentGrades (prisma := memoryStore) (jwt := exampleJwt)
    req [row] =
  ([row],
   successResponse (studentGrades [row])
     "Student grades retrieved successfully" None).
Proof.
  intros row req.
  refine (any_reader_gets_any_report_card (list Score.t) memoryStore
            exampleJwt req [row]
            (AuthUser.mk "user-2" "s@school.la" "STUDENT") _ _).
  - exists "student-token". split; [|reflexivity].
    exists "Bearer student-token". repeat split.
  - right. right. left. reflexivity.
Defined.

Lemma append_empty s : (s ++ "")%string = s.
Proof. induction s as [|a s IH]; cbn [append]; congruence. Qed.

Lemma prefix_append s rest : String.prefix s (s ++ rest)%string = true.
Proof.
  induction s as [|a s IH]; cbn [String.prefix append];
    [now destruct rest|].
  now destruct (Ascii.ascii_dec a a).
Qed.

Lemma split_noSpace s : noSpace s = true -> split Ascii.Space s = [s].
Proof.
  induction s as [|a s IH]; cbn [noSpace split]; [reflexivity|].
  intros H. apply andb_prop in H as [Ha Hs].
  apply negb_true_iff in Ha. rewrite Ha, (IH Hs). reflexivity.
Qed.

Lemma split_noSpace_app s rest :
  noSpace s = true ->
  split Ascii.Space (s ++ String Ascii.Space rest)%string =
  s :: split Ascii.Space rest.
Proof.
  induction s as [|a s IH]; cbn [noSpace split append]; intros H.
  - reflexivity.
  - apply andb_prop in H as [Ha Hs].
    apply negb_true_iff in Ha. rewrite Ha, (IH Hs). reflexivity.
Qed.

(** X23.  [authenticate] takes as token the text between 'Bearer ' and the
    next space and ignores what follows: a header 'Bearer ' + token + rest,
    with a token free of spaces and a rest that is empty or starts with a
    space, is treated as the token alone, and the user attached to the
    request is the payload of that token. *)
Theorem the_token_ends_at_the_next_space :
  forall (World : Type) (jwt : JwtUtil) (A : Type) (req : HttpRequest.t)
         (next : HttpRequest.t -> World -> World * Response A) (w : World)
         (token rest : string),
    noSpace token = true ->
    HttpRequest.authorization req =
      Some ("Bearer " ++ token ++ rest)%string ->
    rest = "" \/ (exists text, rest = String Ascii.Space text) ->
    authenticate req next w =
    match verifyAccessToken token with
    | Some user => next (withUser req user) w
    | None => (w, errorResponse "AUTH_ERROR" "Invalid or expired token"
                    401 None)
    end.
Proof.
  intros World jwt A req next w token rest Htoken Hheader Hrest.
  assert (Hsplit : nth_error
                     (split Ascii.Space ("Bearer " ++ token ++ rest)%string) 1
                   = Some token).
  { change ("Bearer " ++ token ++ rest)%string
      with ("Bearer" ++ String Ascii.Space (token ++ rest))%string.
    rewrite split_noSpace_app by reflexivity. cbn [nth_error].
    destruct Hrest as [->|[text ->]].
    - now rewrite append_empty, split_noSpace.
    - now rewrite split_noSpace_app. }
  unfold authenticate, withUser. rewrite Hheader.
  rewrite prefix_append, Hsplit. cbn [option_map].
  destruct (verifyAccessToken token) as [user|]; [|reflexivity].
  now destruct user.
Qed.

(** A header with text after the token. *)
Lemma the_token_ends_at_the_next_space_witness :
  let req :=
    HttpRequest.mk (Some "Bearer teacher-token and more") None "" []
      JUndefined in
  authenticate (World := unit) (jwt := exampleJwt) req
    (fun r w => (w, successResponse (HttpRequest.user r) "next" None)) tt =
  (tt, successResponse (Some (AuthUser.mk "user-1" "t@school.la" "TEACHER"))
         "next" None).
Proof.
  intros req.
  exact (the_token_ends_at_the_next_space unit exampleJwt _ req
           (fun r w => (w, successResponse (HttpRequest.user r) "next" None))
           tt "teacher-token" " and more" eq_refl eq_refl
           (or_intror (ex_intro _ "and more" eq_refl))).
Defined.


(** ** Further properties: the list of scores *)

Lemma binary_round_aux_not_nan sx m e l :
  0 <= m -> binary_round_aux prec emax sx m e l <> S754_nan.
Proof.
  intros Hm. unfold binary_round_aux.
  pose proof (shr_fexp_bounded m e l (Zdigits2 m) e Hm ltac:(lia) ltac:(lia))
    as (H1 & H2 & _).
  destruct (shr_fexp prec emax m e l) as [mrs' e'].
  simpl fst in *.
  pose proof (round_nearest_even_bounded (shr_m mrs')
                (loc_of_shr_record mrs') _ H1 H2) as [R1 R2].
  pose proof (shr_fexp_bounded _ e' loc_Exact _ e' R1 R2 ltac:(lia))
    as (S1 & _ & _).
  destruct (shr_fexp prec emax _ e' loc_Exact) as [mrs'' e''].
  simpl fst in *.
  destruct (shr_m mrs''); [discriminate| |lia].
  destruct (e'' <=? emax - prec); discriminate.
Qed.

(** A finite number that is not negative, divided by a number that is not
    zero, is a number. *)
Lemma SFdiv_not_nan E x y :
  sfFiniteUpTo E x -> y <> S754_nan -> (forall s, y <> S754_zero s) ->
  SFdiv prec emax x y <> S754_nan.
Proof.
  intros Hx Hy Hz.
  destruct x as [sx|sx| |sx mx ex]; simpl in Hx; try contradiction;
    destruct y as [sy|sy| |sy my ey]; try congruence;
    try (now elim (Hz sy)); try discriminate.
  cbn [SFdiv].
  pose proof (SFdiv_core_nonneg mx ex my ey) as H.
  destruct (SFdiv_core_binary prec emax (Zpos mx) ex (Zpos my) ey)
    as [[mz ez] lz].
  now apply binary_round_aux_not_nan.
Qed.

Lemma Math_ceil_is_a_number x :
  is_nan x = false -> is_nan (Js.Math_ceil x) = false.
Proof.
  intros H. unfold Js.Math_ceil.
  destruct (Prim2SF x) as [s|s| |s m [|k|k]] eqn:E; try assumption.
  assert (Hd : 0 < Z.pow_pos 2 k)
    by (change (Z.pow_pos 2 k) with (2 ^ Zpos k);
        apply Z.pow_pos_nonneg; lia).
  destruct s.
  - destruct (Zpos m / Z.pow_pos 2 k =? 0); [reflexivity|].
    apply Prim2SF_not_nan. rewrite FloatAxioms.opp_spec.
    pose proof (ofZ_nonneg (Zpos m / Z.pow_pos 2 k)
                  ltac:(apply Z.div_pos; lia)) as Hn.
    now destruct (Prim2SF (Js.ofZ (Zpos m / Z.pow_pos 2 k))).
  - apply sfNonneg_is_number, ofZ_nonneg. apply Z.div_pos; lia.
Qed.

Lemma orElse_is_truthy x d :
  (d =? 0)%float = false -> is_nan d = false ->
  (Js.orElse x d =? 0)%float = false /\ is_nan (Js.orElse x d) = false.
Proof.
  intros H1 H2. unfold Js.orElse. destruct x as [x|]; [|now split].
  destruct ((x =? 0)%float || is_nan x) eqn:E; [now split|].
  now apply orb_false_iff in E.
Qed.

Lemma not_zero x s :
  (x =? 0)%float = false -> Prim2SF x <> S754_zero s.
Proof.
  rewrite FloatAxioms.eqb_spec, Prim2SF_0. intros H E. now rewrite E in H.
Qed.

(** X24.  [listScores] reads and does not write, and its pagination is made
    of numbers: a [page] or a [limit] that is missing, 0 or NaN is replaced
    (by 1 and by 50), so the page and the limit it reports are neither 0 nor
    NaN and [totalPages], the ceiling of [total / limit], is never NaN. *)
Theorem listScores_never_divides_by_zero :
  forall (World : Type) (prismaList : PrismaScoreList World)
         (query : ListScoresQuery.t) (w w' : World) (result : ScorePage.t),
    GradingService.listScores query w = (w', inr result) ->
    let pagination := ScorePage.pagination result in
    w' = w /\
    (Pagination.page pagination =? 0)%float = false /\
    is_nan (Pagination.page pagination) = false /\
    (Pagination.limit pagination =? 0)%float = false /\
    is_nan (Pagination.limit pagination) = false /\
    is_nan (Pagination.totalPages pagination) = false.
Proof.
  intros World prismaList query w w' result.
  unfold GradingService.listScores, bind, read, ret.
  destruct (score_findManyPage w _ _ _) as [e|scores]; [discriminate|].
  intros [= <- <-]. cbn [ScorePage.pagination Pagination.page
                         Pagination.limit Pagination.totalPages].
  destruct (orElse_is_truthy (ListScoresQuery.page query) 1%float
              eq_refl eq_refl) as [P1 P2].
  destruct (orElse_is_truthy (ListScoresQuery.limit query) 50%float
              eq_refl eq_refl) as [L1 L2].
  repeat split; try assumption.
  apply Math_ceil_is_a_number, Prim2SF_not_nan.
  rewrite FloatAxioms.div_spec.
  apply (SFdiv_not_nan 11).
  - apply ofZ_finite. lia.
  - now apply is_nan_Prim2SF.
  - intros s. now apply not_zero.
Qed.

(** Page 0 and a limit of 0 over three rows: page 1 of 50 rows, one page. *)
Lemma listScores_never_divides_by_zero_witness :
  let row := fun id date =>
    Score.mk id (Student.id theStudent) (ClassSubject.id theClassSubject)
      (Subject.id theSubject) QUIZ 4500 5000 100 None date theSubject
      (ClassSubject.class theClassSubject)
      (ClassSubject.semester theClassSubject) in
  let rows := [row "score-0" 10; row "score-1" 30; row "score-2" 20] in
  exists result,
    GradingService.listScores (prismaList := memoryList)
      (ListScoresQuery.mk None None None None (Some 0%float) (Some 0%float))
      rows = (rows, inr result) /\
    map Score.id (ScorePage.scores result) = ["score-1"; "score-2"; "score-0"]
    /\
    ScorePage.pagination result =
      Pagination.mk 1%float 50%float 3%float 1%float /\
    is_nan (Pagination.totalPages (ScorePage.pagination result)) = false.
Proof.
  intros row rows. eexists. split; [reflexivity|].
  split; [reflexivity|]. split; [reflexivity|].
  exact (proj2 (proj2 (proj2 (proj2 (proj2
           (listScores_never_divides_by_zero (list Score.t) memoryList
              (ListScoresQuery.mk None None None None (Some 0%float)
                 (Some 0%float))
              rows rows _ eq_refl)))))).
Defined.
